(** * Historical price-bar synchronisation: number normalisation and
      selective upsert

    A shallow embedding of [parse_number] and [upsert_historico_selectivo]
    from [main.py] (and of the earlier [parse_number] kept in [main..py]),
    together with the part of the Python runtime they call: [str] methods,
    [float], [int], [repr] of a float and [math.isclose], on IEEE 754
    binary64 values. *)

From Stdlib Require Import ZArith Bool List Ascii String DecimalString Lia.
From Stdlib Require Import Floats.SpecFloat.
From stdpp Require Import strings sorting gmap.

Local Open Scope Z_scope.

(** ** Exceptions

    Python code either returns a value or raises.  The source only ever
    catches [Exception] as a whole, so the model keeps the exception class
    for documentation alone. *)

Inductive exn : Type :=
  | ValueError
  | OverflowError
  | DatabaseError.

Inductive res (A : Type) : Type :=
  | Ret (a : A)
  | Raise (e : exn).

Arguments Ret {A} a.
Arguments Raise {A} e.

#[global] Instance res_ret : MRet res := fun A a => Ret a.

#[global] Instance res_bind : MBind res := fun A B k m =>
  match m with
  | Ret a => k a
  | Raise e => Raise e
  end.

(** [try: m except Exception: h] *)
Definition try_except {A : Type} (m : res A) (h : exn -> res A) : res A :=
  match m with
  | Ret a => Ret a
  | Raise e => h e
  end.

(** ** Python floats: IEEE 754 binary64 *)

Module PyFloat.

Definition prec : Z := 53.
Definition emax : Z := 1024.

Abbreviation float := spec_float.

Definition zero : float := S754_zero false.
Definition nan : float := S754_nan.
Definition inf (neg : bool) : float := S754_infinity neg.

Definition ltb (x y : float) : bool := SFltb x y.
Definition leb (x y : float) : bool := SFleb x y.
Definition eqb (x y : float) : bool := SFeqb x y.
Definition sub (x y : float) : float := SFsub prec emax x y.
Definition mul (x y : float) : float := SFmul prec emax x y.
Definition fabs (x : float) : float := SFabs x.

Definition is_inf (x : float) : bool :=
  match x with S754_infinity _ => true | _ => false end.
Definition is_nan (x : float) : bool :=
  match x with S754_nan => true | _ => false end.

(** The binary64 value nearest to the integer [z] (ties to even);
    infinite when [z] is out of range. *)
Definition round_Z (z : Z) : float := binary_normalize prec emax z 0 false.

(** The binary64 value nearest to [(-1)^neg * m * 10^e] (ties to even):
    what a correctly rounded decimal-to-binary conversion returns. *)
Definition of_decimal (neg : bool) (m : Z) (e : Z) : float :=
  match m with
  | Zpos p =>
      if 0 <=? e
      then binary_normalize prec emax (cond_Zopp neg (Zpos p * 10 ^ e)) 0 false
      else SFdiv prec emax (S754_finite neg p 0)
                           (S754_finite false (Z.to_pos (10 ^ (- e))) 0)
  | _ => S754_zero neg
  end.

(** [float(z)] for a Python int: correctly rounded, [OverflowError] when
    the result would not be finite. *)
Definition of_int (z : Z) : res float :=
  let f := round_Z z in
  if is_inf f then Raise OverflowError else Ret f.

(** [int(x)] for a float: truncation toward zero; [ValueError] on NaN,
    [OverflowError] on an infinity. *)
Definition to_int (x : float) : res Z :=
  match x with
  | S754_zero _ => Ret 0
  | S754_nan => Raise ValueError
  | S754_infinity _ => Raise OverflowError
  | S754_finite s m e =>
      let a := if 0 <=? e then Zpos m * 2 ^ e else Zpos m / 2 ^ (- e) in
      Ret (if s then - a else a)
  end.

(** The integer a float denotes, when it denotes one. *)
Definition integral (x : float) : option Z :=
  match x with
  | S754_zero _ => Some 0
  | S754_finite s m e =>
      if 0 <=? e then Some (cond_Zopp s (Zpos m * 2 ^ e))
      else if Zpos m mod 2 ^ (- e) =? 0
           then Some (cond_Zopp s (Zpos m / 2 ^ (- e)))
           else None
  | _ => None
  end.

(** The float literals of the source. *)
Definition lit_0_01 : float := of_decimal false 1 (-2).
Definition lit_1e_9 : float := of_decimal false 1 (-9).

(** [math.isclose(a, b, rel_tol=rel_tol, abs_tol=abs_tol)] for
    non-negative tolerances, as CPython computes it: equal values are
    close, an infinity is close only to itself, otherwise the distance is
    compared with the three bounds. *)
Definition isclose (a b rel_tol abs_tol : float) : bool :=
  if eqb a b then true
  else if is_inf a || is_inf b then false
  else
    let d := fabs (sub b a) in
    leb d (fabs (mul rel_tol b)) || leb d (fabs (mul rel_tol a))
    || leb d abs_tol.

End PyFloat.

Abbreviation float := spec_float.

(** ** Python strings

    A [str] is modelled as a sequence of characters below 256; [len],
    indices and counts are Python ints. *)

Module PyStr.

Local Open Scope string_scope.
Local Open Scope Z_scope.

Definition code (c : ascii) : Z := Z.of_N (N_of_ascii c).

(** [c.isspace()], the characters [str.strip()] removes: TAB..CR, FS..US,
    the space, NEL (U+0085) and the no-break space (U+00A0). *)
Definition isspace (c : ascii) : bool :=
  let n := code c in
  ((9 <=? n) && (n <=? 13)) || ((28 <=? n) && (n <=? 32))
  || (n =? 133) || (n =? 160).

(** The white space [float] and [int] skip around a literal.  They turn
    the white space that is not ASCII into a space and then skip what C's
    [isspace] skips, TAB..CR and the space: FS..US are not skipped. *)
Definition isspace_c (c : ascii) : bool :=
  let n := code c in
  ((9 <=? n) && (n <=? 13)) || (n =? 32) || (n =? 133) || (n =? 160).

Definition isdigit (c : ascii) : bool :=
  let n := code c in (48 <=? n) && (n <=? 57).

Definition digit_val (c : ascii) : Z := code c - 48.

(** [c.lower()]: the capitals A..Z and, past ASCII, U+00C0..U+00DE
    without the multiplication sign U+00D7. *)
Definition lower_char (c : ascii) : ascii :=
  let n := code c in
  if ((65 <=? n) && (n <=? 90))
     || ((192 <=? n) && (n <=? 222) && negb (n =? 215))
  then ascii_of_N (Z.to_N (n + 32)) else c.

Fixpoint lower (s : string) : string :=
  match s with
  | EmptyString => EmptyString
  | String c t => String (lower_char c) (lower t)
  end.

Fixpoint len (s : string) : Z :=
  match s with
  | EmptyString => 0
  | String _ t => 1 + len t
  end.

Fixpoint lstrip (s : string) : string :=
  match s with
  | EmptyString => EmptyString
  | String c t => if isspace c then lstrip t else s
  end.

Fixpoint rstrip (s : string) : string :=
  match s with
  | EmptyString => EmptyString
  | String c t =>
      match rstrip t with
      | EmptyString => if isspace c then EmptyString else String c EmptyString
      | r => String c r
      end
  end.

(** [s.strip()] *)
Definition strip (s : string) : string := rstrip (lstrip s).

(** The same with the characters of [P] for white space. *)
Fixpoint lstrip_by (P : ascii -> bool) (s : string) : string :=
  match s with
  | EmptyString => EmptyString
  | String c t => if P c then lstrip_by P t else s
  end.

Fixpoint rstrip_by (P : ascii -> bool) (s : string) : string :=
  match s with
  | EmptyString => EmptyString
  | String c t =>
      match rstrip_by P t with
      | EmptyString => if P c then EmptyString else String c EmptyString
      | r => String c r
      end
  end.

Definition strip_by (P : ascii -> bool) (s : string) : string :=
  rstrip_by P (lstrip_by P s).

(** [c in s] for a one-character [c] *)
Fixpoint contains (c : ascii) (s : string) : bool :=
  match s with
  | EmptyString => false
  | String a t => Ascii.eqb a c || contains c t
  end.

(** [s.count(c)] *)
Fixpoint count (c : ascii) (s : string) : Z :=
  match s with
  | EmptyString => 0
  | String a t => (if Ascii.eqb a c then 1 else 0) + count c t
  end.

Fixpoint rfind_from (c : ascii) (s : string) (i last : Z) : Z :=
  match s with
  | EmptyString => last
  | String a t => rfind_from c t (i + 1) (if Ascii.eqb a c then i else last)
  end.

(** [s.rfind(c)]: the highest index of [c] in [s], [-1] when absent. *)
Definition rfind (c : ascii) (s : string) : Z := rfind_from c s 0 (-1).

(** [s.replace(c, '')] *)
Fixpoint remove (c : ascii) (s : string) : string :=
  match s with
  | EmptyString => EmptyString
  | String a t => if Ascii.eqb a c then remove c t else String a (remove c t)
  end.

(** [s.replace(c, d)] *)
Fixpoint replace (c d : ascii) (s : string) : string :=
  match s with
  | EmptyString => EmptyString
  | String a t => String (if Ascii.eqb a c then d else a) (replace c d t)
  end.

Fixpoint startswith (p s : string) : bool :=
  match p, s with
  | EmptyString, _ => true
  | String a p', String b s' => Ascii.eqb a b && startswith p' s'
  | String _ _, EmptyString => false
  end.

(** [p in s] *)
Fixpoint isin (p s : string) : bool :=
  startswith p s ||
  match s with
  | EmptyString => false
  | String _ t => isin p t
  end.

Fixpoint drop (n : nat) (s : string) : string :=
  match n, s with
  | O, _ => s
  | S n', String _ t => drop n' t
  | S _, EmptyString => EmptyString
  end.

(** ** [float(s)]

    The grammar CPython's [float] accepts on a [str]: underscores only
    between digits, surrounding whitespace, then either a decimal number
    ([sign] digits [. digits] [e [sign] digits], at least one digit in the
    mantissa) or [inf], [infinity], [nan] in any case, with nothing left
    over.  The value is the correctly rounded binary64. *)

Fixpoint read_digits (s : string) (acc n : Z) : Z * Z * string :=
  match s with
  | String c t =>
      if isdigit c then read_digits t (10 * acc + digit_val c) (n + 1)
      else (acc, n, s)
  | EmptyString => (acc, n, s)
  end.

Definition read_sign (s : string) : bool * string :=
  match s with
  | String "-" t => (true, t)
  | String "+" t => (false, t)
  | _ => (false, s)
  end.

Definition read_exponent (s : string) : Z * string :=
  match s with
  | String c t =>
      if Ascii.eqb c "e" || Ascii.eqb c "E" then
        let '(eneg, t1) := read_sign t in
        let '(ev, en, t2) := read_digits t1 0 0 in
        if en =? 0 then (0, s) else (if eneg then - ev else ev, t2)
      else (0, s)
  | EmptyString => (0, s)
  end.

Definition strtod (s : string) : option (float * string) :=
  let '(neg, s1) := read_sign s in
  let '(m1, n1, s2) := read_digits s1 0 0 in
  let '(m, n2, s3) :=
    match s2 with
    | String "." t => read_digits t m1 0
    | _ => (m1, 0, s2)
    end in
  if n1 + n2 =? 0 then None
  else
    let '(e, s4) := read_exponent s3 in
    Some (PyFloat.of_decimal neg m (e - n2), s4).

Definition parse_inf_or_nan (s : string) : option (float * string) :=
  let '(neg, s1) := read_sign s in
  if startswith "inf" (lower s1) then
    let s2 := drop 3 s1 in
    Some (PyFloat.inf neg,
          if startswith "inity" (lower s2) then drop 5 s2 else s2)
  else if startswith "nan" (lower s1) then Some (PyFloat.nan, drop 3 s1)
  else None.

Definition string_to_double (s : string) : option (float * string) :=
  match strtod s with
  | Some r => Some r
  | None => parse_inf_or_nan s
  end.

(** Underscores are dropped when each stands between two digits;
    [prev] is the character before [s]. *)
Fixpoint strip_underscores (prev : ascii) (s : string) : option string :=
  match s with
  | EmptyString => if Ascii.eqb prev "_" then None else Some EmptyString
  | String c t =>
      if Ascii.eqb c "_" then
        if isdigit prev then strip_underscores c t else None
      else if Ascii.eqb prev "_" && negb (isdigit c) then None
      else option_map (String c) (strip_underscores c t)
  end.

(** [float(s)]; [ValueError] when [s] is not a float literal. *)
Definition to_float (s : string) : res float :=
  match strip_underscores "000" s with
  | None => Raise ValueError
  | Some s1 =>
      match string_to_double (strip_by isspace_c s1) with
      | Some (x, EmptyString) => Ret x
      | _ => Raise ValueError
      end
  end.

(** ** [int(s)]

    Base 10: surrounding whitespace, a sign, digits with underscores only
    between digits; more than [max_str_digits] digits are refused. *)

Definition max_str_digits : Z := 4300.

Definition to_int (s : string) : res Z :=
  match strip_underscores "000" s with
  | None => Raise ValueError
  | Some s1 =>
      let '(neg, s2) := read_sign (strip_by isspace_c s1) in
      match read_digits s2 0 0 with
      | (v, n, EmptyString) =>
          if (n =? 0) || (max_str_digits <? n) then Raise ValueError
          else Ret (if neg then - v else v)
      | _ => Raise ValueError
      end
  end.

(** ** [repr(x)] of a float, which is also [str(x)]

    The shortest decimal digit string that converts back to [x], the
    nearest to [x] among the shortest, laid out in fixed notation when
    the decimal point position [decpt] is in [-3 .. 16] and in exponent
    notation otherwise. *)

Definition digits_str (z : Z) : string :=
  NilZero.string_of_uint (N.to_uint (Z.to_N z)).

(** Number of decimal digits of a positive integer. *)
Definition ndigits (z : Z) : Z := len (digits_str z).

(** [decpt] with [10^(decpt-1) <= num/den < 10^decpt]. *)
Definition decimal_point (num den : Z) : Z :=
  let k := ndigits num - ndigits den in
  if 0 <=? k
  then if den * 10 ^ k <=? num then k + 1 else k
  else if den <=? num * 10 ^ (- k) then k + 1 else k.

(** The two [n]-digit neighbours of [num/den] and the better of those that
    convert back to [x], as [(digits, exponent)]. *)
Definition candidate (x : float) (num den decpt n : Z) : option (Z * Z) :=
  let q := decpt - n in
  let '(a, b) := if 0 <=? q then (num, den * 10 ^ q)
                 else (num * 10 ^ (- q), den) in
  let lo := a / b in
  let r := a mod b in
  let hi := lo + 1 in
  let ok_lo := match PyFloat.of_decimal false lo q, x with
               | S754_finite _ m1 e1, S754_finite _ m2 e2 =>
                   (Zpos m1 =? Zpos m2) && (e1 =? e2)
               | _, _ => false
               end in
  let ok_hi := match PyFloat.of_decimal false hi q, x with
               | S754_finite _ m1 e1, S754_finite _ m2 e2 =>
                   (Zpos m1 =? Zpos m2) && (e1 =? e2)
               | _, _ => false
               end in
  let lo_nearer := (2 * r <? b) || ((2 * r =? b) && Z.even lo) in
  match ok_lo, ok_hi with
  | true, true => Some (if lo_nearer then lo else hi, q)
  | true, false => Some (lo, q)
  | false, true => Some (hi, q)
  | false, false => None
  end.

Fixpoint shortest (fuel : nat) (x : float) (num den decpt n : Z) : Z * Z :=
  match candidate x num den decpt n with
  | Some c => c
  | None =>
      match fuel with
      | O => (num * 10 ^ (n - decpt) / den, decpt - n)
      | S fuel' => shortest fuel' x num den decpt (n + 1)
      end
  end.

Fixpoint strip_zeros (fuel : nat) (c q : Z) : Z * Z :=
  match fuel with
  | O => (c, q)
  | S fuel' =>
      if (c mod 10 =? 0) && (0 <? c) then strip_zeros fuel' (c / 10) (q + 1)
      else (c, q)
  end.

(** Digits and decimal point position of a finite positive [m * 2^e]. *)
Definition shortest_digits (m : positive) (e : Z) : string * Z :=
  let '(num, den) := if 0 <=? e then (Zpos m * 2 ^ e, 1)
                     else (Zpos m, 2 ^ (- e)) in
  let decpt := decimal_point num den in
  let '(c, q) := shortest 16 (S754_finite false m e) num den decpt 1 in
  let '(c', q') := strip_zeros 17 c q in
  (digits_str c', ndigits c' + q').

Fixpoint zeros (n : nat) : string :=
  match n with
  | O => EmptyString
  | S n' => String "0" (zeros n')
  end.

Fixpoint take (n : nat) (s : string) : string :=
  match n, s with
  | S n', String c t => String c (take n' t)
  | _, _ => EmptyString
  end.

Definition format_exponent (e : Z) : string :=
  let a := digits_str (Z.abs e) in
  String "e" (String (if e <? 0 then "-" else "+")
    (if Z.abs e <? 10 then String "0" a else a)).

Definition format_short (ds : string) (decpt : Z) : string :=
  if (decpt <=? -4) || (16 <? decpt) then
    match ds with
    | String d EmptyString => String d (format_exponent (decpt - 1))
    | String d rest => String d (String "." (rest ++ format_exponent (decpt - 1)))
    | EmptyString => EmptyString
    end
  else if decpt <=? 0 then
    "0." ++ zeros (Z.to_nat (- decpt)) ++ ds
  else if len ds <=? decpt then
    ds ++ zeros (Z.to_nat (decpt - len ds)) ++ ".0"
  else
    take (Z.to_nat decpt) ds ++ "." ++ drop (Z.to_nat decpt) ds.

Definition float_repr (x : float) : string :=
  match x with
  | S754_nan => "nan"
  | S754_infinity s => if s then "-inf" else "inf"
  | S754_zero s => if s then "-0.0" else "0.0"
  | S754_finite s m e =>
      let '(ds, decpt) := shortest_digits m e in
      (if s then "-" else "") ++ format_short ds decpt
  end.

End PyStr.

(** ** Python dates

    A [datetime.date] is modelled by its proleptic Gregorian ordinal
    ([date.toordinal()], day 1 is 0001-01-01). *)

Module PyDate.

Local Open Scope string_scope.
Local Open Scope Z_scope.

(** Year, month and day of an ordinal. *)
Definition civil (ordinal : Z) : Z * Z * Z :=
  let z := ordinal + 305 in
  let era := z / 146097 in
  let doe := z - era * 146097 in
  let yoe := (doe - doe / 1460 + doe / 36524 - doe / 146096) / 365 in
  let doy := doe - (365 * yoe + yoe / 4 - yoe / 100) in
  let mp := (5 * doy + 2) / 153 in
  let d := doy - (153 * mp + 2) / 5 + 1 in
  let m := if mp <? 10 then mp + 3 else mp - 9 in
  let y := yoe + era * 400 + (if m <=? 2 then 1 else 0) in
  (y, m, d).

Definition pad (width : Z) (z : Z) : string :=
  let ds := PyStr.digits_str z in
  PyStr.zeros (Z.to_nat (width - PyStr.len ds)) ++ ds.

(** [d.isoformat()], which is [str(d)]: [YYYY-MM-DD]. *)
Definition isoformat (ordinal : Z) : string :=
  let '(y, m, d) := civil ordinal in
  pad 4 y ++ "-" ++ pad 2 m ++ "-" ++ pad 2 d.

End PyDate.

(** ** Values

    A cell of the fetched table, or a value read from storage, is [None], an
    int, a float, a str or, once the date column is converted, a date; a
    parsed number is an int or a float. *)

Inductive pyval : Type :=
  | PNone
  | PInt (z : Z)
  | PFloat (f : float)
  | PStr (s : string)
  | PDate (d : Z).

Inductive num : Type :=
  | NInt (z : Z)
  | NFloat (f : float).

(** [str(val)] *)
Definition str (val : pyval) : string :=
  match val with
  | PNone => "None"
  | PInt z =>
      String.append (if z <? 0 then "-" else "") (PyStr.digits_str (Z.abs z))
  | PFloat x => PyStr.float_repr x
  | PStr s => s
  | PDate d => PyDate.isoformat d
  end.

(** ** [main.py] *)

Module Main.

(** The separator disambiguation of [parse_number], lines 45-73: the
    token handed to [float]. *)
Definition disambiguate (s : string) : string :=
  let coma_pos := PyStr.rfind "," s in
  let punto_pos := PyStr.rfind "." s in
  if PyStr.contains "," s && negb (PyStr.contains "." s) then
    PyStr.remove "," s
  else if PyStr.contains "." s && negb (PyStr.contains "," s) then
    if 1 <? PyStr.count "." s then PyStr.remove "." s
    else if 0 <? punto_pos then
      let decimales_despues := PyStr.len s - punto_pos - 1 in
      if 3 <? decimales_despues then PyStr.remove "." s else s
    else s
  else if PyStr.contains "," s && PyStr.contains "." s then
    if punto_pos <? coma_pos
    then PyStr.replace "," "." (PyStr.remove "." s)
    else PyStr.remove "," s
  else s.

(** Lines 76-82: convert, reject a negative result, truncate on request. *)
Definition convert (s : string) (is_int : bool) : res (option num) :=
  num ← PyStr.to_float s;
  if PyFloat.ltb num PyFloat.zero then Ret None
  else if is_int then z ← PyFloat.to_int num; Ret (Some (NInt z))
  else Ret (Some (NFloat num)).

Definition parse_number (val : pyval) (is_int : bool) : res (option num) :=
  match val with
  | PNone => Ret None
  | PInt z =>
      if is_int then Ret (Some (NInt z))
      else f ← PyFloat.of_int z; Ret (Some (NFloat f))
  | PFloat f =>
      if is_int then z ← PyFloat.to_int f; Ret (Some (NInt z))
      else Ret (Some (NFloat f))
  | PStr _ | PDate _ =>
      let s := PyStr.strip (str val) in
      if String.eqb s "" || String.eqb s "-" then Ret None
      else
        try_except (convert (disambiguate s) is_int)
                   (fun _ => Ret None)
  end.

(** *** The table of fetched rows and the stored table

    A date is the ordinal of a [datetime.date].  A [DataFrame] has its
    column labels and its rows, each row one cell per column.  The stored
    table [historicos] maps its key [(ticker_id, fecha)] to the five
    nullable columns. *)

Definition date : Type := Z.

Record DataFrame : Type := {
  columns : list string;
  rows : list (list pyval)
}.

Record campos : Type := {
  apertura : option num;
  maximo : option num;
  minimo : option num;
  cierre : option num;
  volumen : option num
}.

(** A tuple appended to [records_to_write]. *)
Record registro : Type := {
  r_ticker_id : Z;
  r_fecha : date;
  r_campos : campos
}.

Abbreviation historicos := (gmap (Z * date) campos).

(** [df.empty]: no row or no column. *)
Definition empty (df : DataFrame) : bool :=
  match columns df, rows df with
  | [], _ | _, [] => true
  | _, _ => false
  end.

(** [col(name)], lines 99-103. *)
Fixpoint col_in (cols : list string) (name : string) : option string :=
  match cols with
  | [] => None
  | c :: cols' =>
      if PyStr.isin (PyStr.lower name) (PyStr.lower c) then Some c
      else col_in cols' name
  end.

Definition col (df : DataFrame) (name : string) : option string :=
  col_in (columns df) name.

(** [row[c]] for a row laid out along [cols] and a label [c] that stands
    over one column. *)
Fixpoint celda (cols : list string) (row : list pyval) (c : string) : pyval :=
  match cols, row with
  | c' :: cols', v :: row' => if String.eqb c' c then v else celda cols' row' c
  | _, _ => PNone
  end.

(** [row[c] = v] *)
Fixpoint set_celda (cols : list string) (row : list pyval) (c : string)
    (v : pyval) : list pyval :=
  match cols, row with
  | c' :: cols', v' :: row' =>
      if String.eqb c' c then v :: row' else v' :: set_celda cols' row' c v
  | _, _ => row
  end.

(** The label [c] stands over more than one column. *)
Definition repeated (cols : list string) (c : string) : bool :=
  Nat.ltb 1 (length (List.filter (String.eqb c) cols)).

(** [parse_number(row[c], is_int) if c and row.get(c) is not None else None].
    Under a repeated label [row[c]] is not a cell but the Series of the
    cells under it, whose text is no number: [parse_number] gives [None]. *)
Definition campo (cols : list string) (row : list pyval) (c : option string)
    (is_int : bool) : res (option num) :=
  match c with
  | None => Ret None
  | Some c =>
      if repeated cols c then Ret None
      else
        match celda cols row c with
        | PNone => Ret None
        | v => parse_number v is_int
        end
  end.

(** [a != b] on numbers: exact, also between an int and a float. *)
Definition ne (a b : num) : bool :=
  match a, b with
  | NInt x, NInt y => negb (x =? y)
  | NFloat x, NFloat y => negb (PyFloat.eqb x y)
  | NInt x, NFloat y | NFloat y, NInt x =>
      match PyFloat.integral y with
      | Some z => negb (x =? z)
      | None => true
      end
  end.

Definition isinstance_float (a : num) : bool :=
  match a with NFloat _ => true | NInt _ => false end.

(** [float(a)] on a number. *)
Definition to_float (a : num) : res float :=
  match a with
  | NFloat x => Ret x
  | NInt z => PyFloat.of_int z
  end.

(** [diff(a, b)], lines 178-189. *)
Definition diff (a b : option num) : bool :=
  match a, b with
  | None, None => false
  | None, Some _ | Some _, None => true
  | Some a, Some b =>
      let attempt : res bool :=
        if isinstance_float a || isinstance_float b then
          x ← to_float a; y ← to_float b;
          Ret (negb (PyFloat.isclose x y PyFloat.lit_1e_9 PyFloat.lit_1e_9))
        else Ret (ne a b) in
      match attempt with
      | Ret r => r
      | Raise _ => ne a b
      end
  end.

(** [cierre < 0.01] *)
Definition lt_0_01 (a : num) : bool :=
  match a with
  | NFloat x => PyFloat.ltb x PyFloat.lit_0_01
  | NInt z => z <=? 0
  end.

Definition difiere (nuevo existing_row : campos) : bool :=
  diff (apertura nuevo) (apertura existing_row)
  || diff (maximo nuevo) (maximo existing_row)
  || diff (minimo nuevo) (minimo existing_row)
  || diff (cierre nuevo) (cierre existing_row)
  || diff (volumen nuevo) (volumen existing_row).

(** What one pass of the loop body does with its row. *)
Inductive accion : Type :=
  | Descartar
  | Escribir (r : registro)
  | Saltar.

Section Upsert.

(** [pd.to_datetime(column, errors='coerce').dt.date]: one entry per
    cell, [None] for a cell that is not a date.  pandas decides the
    format on the whole column, so the parameter takes the column. *)
Variable to_datetime : list pyval -> list (option date).

Variable ticker_id : Z.

(** Lines 161-165: the five fields of a row, in the order the source
    parses them. *)
Definition parse_row (df : DataFrame) (row : list pyval) : res campos :=
  let cols := columns df in
  let volumen_col :=
    match col df "volumen" with
    | Some c => Some c
    | None => col df "volumen_nominal"
    end in
  a ← campo cols row (col df "apertura") false;
  ma ← campo cols row (col df "maximo") false;
  mi ← campo cols row (col df "minimo") false;
  c ← campo cols row (col df "cierre") false;
  v ← campo cols row volumen_col true;
  Ret {| apertura := a; maximo := ma; minimo := mi; cierre := c;
         volumen := v |}.

(** Lines 156-202, the body of the loop for one row with date [fecha]. *)
Definition decide_row (df : DataFrame) (existing_map : gmap date campos)
    (fecha : date) (row : list pyval) : accion :=
  match parse_row df row with
  | Raise _ => Descartar
  | Ret nuevo =>
      let r := {| r_ticker_id := ticker_id; r_fecha := fecha;
                  r_campos := nuevo |} in
      if match cierre nuevo with
         | Some c => lt_0_01 c
         | None => false
         end
      then Descartar
      else
        match existing_map !! fecha with
        | None => Escribir r
        | Some existing_row =>
            if difiere nuevo existing_row then Escribir r else Saltar
        end
  end.

Definition step (df : DataFrame) (existing_map : gmap date campos)
    (st : list registro * Z) (fr : date * list pyval)
    : list registro * Z :=
  let '(records_to_write, skipped) := st in
  match decide_row df existing_map fr.1 fr.2 with
  | Descartar => (records_to_write, skipped)
  | Escribir r => (records_to_write ++ [r], skipped)
  | Saltar => (records_to_write, skipped + 1)
  end.

(** Lines 118-126: the rows whose date parsed, each with its date, which
    also replaces the cell of the date column.  [fecha_col] is taken to
    stand over one column. *)
Definition dated_rows (df : DataFrame) (fecha_col : string)
    : list (date * list pyval) :=
  let column := map (fun row => celda (columns df) row fecha_col) (rows df) in
  omap (fun dr => match dr.1 with
                  | Some d =>
                      Some (d, set_celda (columns df) dr.2 fecha_col (PDate d))
                  | None => None
                  end)
       (combine (to_datetime column) (rows df)).

(** [sorted(df[fecha_col].unique().tolist())] *)
Definition fechas_of (rs : list (date * list pyval)) : list date :=
  merge_sort Z.le (remove_dups (fst <$> rs)).

(** [max(fechas)] *)
Definition maximum (l : list date) : option date :=
  match l with
  | [] => None
  | d :: l' => Some (foldl Z.max d l')
  end.

(** Lines 135-150: the rows of [ticker_id] stored for the dates asked
    for, and the dict built from them. *)
Definition select_existing (db : historicos) (fechas : list date)
    : list (date * campos) :=
  omap (fun d => match db !! (ticker_id, d) with
                 | Some c => Some (d, c)
                 | None => None
                 end) fechas.

Definition dict_of (existing : list (date * campos)) : gmap date campos :=
  foldl (fun m row => <[row.1 := row.2]> m) ∅ existing.

(** The outcome of lines 96-205: what is handed to [execute_values],
    the skip count and the most recent date. *)
Record plan : Type := {
  records_to_write : list registro;
  skipped : Z;
  fecha_mas_reciente : option date
}.

Definition nothing : plan :=
  {| records_to_write := []; skipped := 0; fecha_mas_reciente := None |}.

Definition reconcile (db : historicos) (historico_df : option DataFrame)
    : plan :=
  match historico_df with
  | None => nothing
  | Some historico_df =>
      if empty historico_df then nothing
      else
        match col historico_df "fecha" with
        | None => nothing
        | Some fecha_col =>
            let df := dated_rows historico_df fecha_col in
            match df with
            | [] => nothing
            | _ =>
                let fechas := fechas_of df in
                match maximum fechas with
                | None => nothing
                | Some fecha_max =>
                    let existing_map :=
                      dict_of (select_existing db fechas) in
                    let '(recs, sk) :=
                      foldl (step historico_df existing_map) ([], 0) df in
                    {| records_to_write := recs; skipped := sk;
                       fecha_mas_reciente := Some fecha_max |}
                end
            end
        end
  end.

(** *** The write, lines 207-225

    [INSERT ... VALUES ... ON CONFLICT (ticker_id, fecha) DO UPDATE SET
    ... WHERE ... IS DISTINCT FROM ...], sent by [execute_values] in
    statements of [page_size] proposed rows.  A proposed row whose key
    is free is inserted; on a conflict all five columns are replaced
    when one of them is distinct from the stored one.  A statement that
    reaches a row it has itself inserted or updated is refused by the
    server.  Values are stored as they are given. *)

Definition sql_eq (a b : num) : bool :=
  match a, b with
  | NFloat x, NFloat y =>
      (PyFloat.is_nan x && PyFloat.is_nan y) || PyFloat.eqb x y
  | _, _ => negb (ne a b)
  end.

Definition is_distinct_from (a b : option num) : bool :=
  match a, b with
  | None, None => false
  | Some a, Some b => negb (sql_eq a b)
  | _, _ => true
  end.

Definition distinct (stored excluded : campos) : bool :=
  is_distinct_from (apertura stored) (apertura excluded)
  || is_distinct_from (maximo stored) (maximo excluded)
  || is_distinct_from (minimo stored) (minimo excluded)
  || is_distinct_from (cierre stored) (cierre excluded)
  || is_distinct_from (volumen stored) (volumen excluded).

Definition page_size : nat := 100.

(** [k] rows of the current statement are done, [touched] are the keys
    it has written. *)
Fixpoint run_pages (db : historicos) (touched : gset (Z * date))
    (k : nat) (recs : list registro) : res historicos :=
  match recs with
  | [] => Ret db
  | r :: recs' =>
      let '(touched, k) :=
        if Nat.eqb k page_size then (∅, O) else (touched, k) in
      let key := (r_ticker_id r, r_fecha r) in
      if decide (key ∈ touched) then Raise DatabaseError
      else
        match db !! key with
        | None =>
            run_pages (<[key := r_campos r]> db) ({[key]} ∪ touched)
                      (S k) recs'
        | Some stored =>
            if distinct stored (r_campos r)
            then run_pages (<[key := r_campos r]> db) ({[key]} ∪ touched)
                           (S k) recs'
            else run_pages db touched (S k) recs'
        end
  end.

Definition execute_values (db : historicos) (recs : list registro)
    : res historicos :=
  run_pages db ∅ O recs.

(** [upsert_historico_selectivo(cur, ticker_id, ticker, historico_df)]:
    the returned triple and the table afterwards. *)
Definition upsert_historico_selectivo (db : historicos) (ticker : string)
    (historico_df : option DataFrame)
    : res (Z * Z * option date * historicos) :=
  let p := reconcile db historico_df in
  match records_to_write p with
  | [] => Ret (0, skipped p, fecha_mas_reciente p, db)
  | recs =>
      db' ← execute_values db recs;
      Ret (Z.of_nat (length recs), skipped p, fecha_mas_reciente p, db')
  end.

End Upsert.

End Main.

(** ** [main..py], the earlier revision *)

Module MainOld.

(** Lines 30-37: the token handed to [float]. *)
Definition disambiguate (s : string) : string :=
  if PyStr.contains "," s && PyStr.contains "." s then
    PyStr.replace "," "." (PyStr.remove "." s)
  else if PyStr.contains "," s && negb (PyStr.contains "." s) then
    PyStr.replace "," "." s
  else s.

(** Lines 38-40. *)
Definition primary (s : string) (is_int : bool) : res (option num) :=
  if is_int then
    x ← PyStr.to_float s; z ← PyFloat.to_int x; Ret (Some (NInt z))
  else x ← PyStr.to_float s; Ret (Some (NFloat x)).

(** Lines 42-46; [s] is the token after the rewriting of lines 30-37. *)
Definition fallback (s : string) (is_int : bool) : res (option num) :=
  let s2 := PyStr.remove "." (PyStr.remove "," s) in
  try_except
    (if is_int then z ← PyStr.to_int s2; Ret (Some (NInt z))
     else x ← PyStr.to_float s2; Ret (Some (NFloat x)))
    (fun _ => Ret None).

Definition parse_number (val : pyval) (is_int : bool) : res (option num) :=
  match val with
  | PNone => Ret None
  | PInt z =>
      if is_int then Ret (Some (NInt z))
      else f ← PyFloat.of_int z; Ret (Some (NFloat f))
  | PFloat f =>
      if is_int then z ← PyFloat.to_int f; Ret (Some (NInt z))
      else Ret (Some (NFloat f))
  | PStr _ | PDate _ =>
      let s := PyStr.strip (str val) in
      if String.eqb s "" then Ret None
      else
        let s := disambiguate s in
        try_except (primary s is_int) (fun _ => fallback s is_int)
  end.

End MainOld.


(** ** Sample data

    A stand-in for the date parser, for tables whose date cells hold the day
    ordinal in decimal, and the table of the specification's example. *)

Module Sample.

Import Main.
Local Open Scope string_scope.
Local Open Scope Z_scope.

Definition to_datetime (column : list pyval) : list (option date) :=
  map (fun v => match v with
                | PStr s => match PyStr.to_int s with
                            | Ret z => if 0 <? z then Some z else None
                            | Raise _ => None
                            end
                | _ => None
                end) column.

Definition headers : list string :=
  ["Fecha"; "Apertura"; "Maximo"; "Minimo"; "Cierre"; "Volumen_Nominal"].

Definition fila (f a ma mi c v : string) : list pyval :=
  [PStr f; PStr a; PStr ma; PStr mi; PStr c; PStr v].

(** 2024-01-02 is day 738887. *)
Definition candidate : DataFrame :=
  {| columns := headers;
     rows := [fila "738887" "10" "11" "9" "10.5" "100";
              fila "738888" "11" "12" "10" "11.5" "200"] |}.

(** One row whose close is below 0.01. *)
Definition low_close : DataFrame :=
  {| columns := headers;
     rows := [fila "738887" "0.002" "0.003" "0.001" "0.001" "100"] |}.

(** The stored day of the example, fetched twice. *)
Definition repeated : DataFrame :=
  {| columns := headers;
     rows := [fila "738887" "10" "11" "9" "10.5" "100";
              fila "738887" "10" "11" "9" "10.5" "100"] |}.

(** The stored day with another close, and a new day. *)
Definition revised : DataFrame :=
  {| columns := headers;
     rows := [fila "738887" "10" "11" "9" "10.6" "100";
              fila "738888" "11" "12" "10" "11.5" "200"] |}.

(** A row whose close cell reads [nan]. *)
Definition nan_close : DataFrame :=
  {| columns := headers;
     rows := [fila "738887" "10" "11" "9" "nan" "100"] |}.

Definition flt (s : string) : option num :=
  match PyStr.to_float s with
  | Ret x => Some (NFloat x)
  | Raise _ => None
  end.

Definition stored : historicos :=
  {[ (7, 738887) :=
       {| apertura := flt "10"; maximo := flt "11"; minimo := flt "9";
          cierre := flt "10.5"; volumen := Some (NInt 100) |} ]}.

Definition stored_map : gmap date campos :=
  dict_of (select_existing 7 stored [738887]).

End Sample.

(** ** Specification-level definitions

    The notions the specification words its rules with, defined on their
    own so that the code can be compared with them. *)

Module Spec.

Local Open Scope Z_scope.

(** Position of the last [c] in [s]. *)
Fixpoint last_index (c : ascii) (s : string) : option Z :=
  match s with
  | EmptyString => None
  | String a t =>
      match last_index c t with
      | Some k => Some (1 + k)
      | None => if Ascii.eqb a c then Some 0 else None
      end
  end.

Definition is_separator (c : ascii) : bool :=
  Ascii.eqb c "," || Ascii.eqb c ".".

(** The separator that occurs latest in the token. *)
Fixpoint last_separator (s : string) : option ascii :=
  match s with
  | EmptyString => None
  | String a t =>
      match last_separator t with
      | Some d => Some d
      | None => if is_separator a then Some a else None
      end
  end.

Definition other (c : ascii) : ascii :=
  if Ascii.eqb c "," then "."%char else ","%char.

(** Rule 3: the later separator is the decimal point, the other one the
    thousands separator; strip the latter, then write the former as a
    dot. *)
Definition both_separators (s : string) : string :=
  match last_separator s with
  | Some dec => PyStr.replace dec "." (PyStr.remove (other dec) s)
  | None => s
  end.

(** What follows the first dot of the token. *)
Fixpoint after_dot (s : string) : string :=
  match s with
  | EmptyString => EmptyString
  | String a t => if Ascii.eqb a "." then t else after_dot t
  end.

(** Rule 2, one dot: thousands separator when more than three characters
    follow it. *)
Definition single_dot (s : string) : string :=
  if 3 <? PyStr.len (after_dot s) then PyStr.remove "." s else s.

Definition negative (v : num) : bool :=
  match v with
  | NFloat x => PyFloat.ltb x PyFloat.zero
  | NInt z => z <? 0
  end.

Fixpoint all_chars (P : ascii -> bool) (s : string) : bool :=
  match s with
  | EmptyString => true
  | String a t => P a && all_chars P t
  end.

(** The characters a rendered float is made of. *)
Definition repr_char (c : ascii) : bool :=
  PyStr.isdigit c
  || existsb (Ascii.eqb c) ["."; "e"; "+"; "-"; "i"; "n"; "f"; "a"]%char.

(** Rule 6: strip all separators and parse what is left as a plain
    int or float string. *)
Definition strip_all (s : string) : string :=
  PyStr.remove "." (PyStr.remove "," s).

Definition reparse (s : string) (as_integer : bool) : res num :=
  if as_integer
  then match PyStr.to_int s with Ret z => Ret (NInt z) | Raise e => Raise e end
  else match PyStr.to_float s with Ret x => Ret (NFloat x) | Raise e => Raise e end.

(** *** The data model

    A [Bar] has optional float prices and an optional integer volume. *)

Record Bar : Type := {
  b_open : option float;
  b_high : option float;
  b_low : option float;
  b_close : option float;
  b_volume : option Z
}.

Definition campos_of (b : Bar) : Main.campos :=
  {| Main.apertura := NFloat <$> b_open b;
     Main.maximo := NFloat <$> b_high b;
     Main.minimo := NFloat <$> b_low b;
     Main.cierre := NFloat <$> b_close b;
     Main.volumen := NInt <$> b_volume b |}.

(** The tolerance, 1e-9: the float nearest to 10^-9. *)
Definition tolerance : float := S754_finite false 4835703278458517 (-82).

Definition is_finite (x : float) : bool :=
  match x with
  | S754_zero _ | S754_finite _ _ _ => true
  | _ => false
  end.

(** The larger of two floats; a NaN is never the larger. *)
Definition fmax (a b : float) : float :=
  if PyFloat.leb a b then b
  else if PyFloat.leb b a then a
  else if PyFloat.is_nan a then b else a.

(** Two prices are equal within the tolerance, relative and absolute:
    they are the same number, or both are finite and their distance is at
    most the largest of the tolerance times the one, the tolerance times
    the other, and the tolerance itself. *)
Definition equal_within (x y : float) : bool :=
  PyFloat.eqb x y
  || (is_finite x && is_finite y
      && PyFloat.leb (PyFloat.fabs (PyFloat.sub x y))
           (fmax (fmax (PyFloat.fabs (PyFloat.mul tolerance x))
                       (PyFloat.fabs (PyFloat.mul tolerance y)))
                 tolerance)).

(** Two prices differ when exactly one is absent, or both are present
    and not equal within the tolerance. *)
Definition differ_tol (a b : option float) : bool :=
  match a, b with
  | None, None => false
  | Some x, Some y => negb (equal_within x y)
  | _, _ => true
  end.

(** Two volumes differ when exactly one is absent, or both are present
    and not equal. *)
Definition differ_exact (a b : option Z) : bool :=
  match a, b with
  | None, None => false
  | Some x, Some y => negb (x =? y)
  | _, _ => true
  end.

Definition bar_differs (n e : Bar) : bool :=
  differ_tol (b_open n) (b_open e)
  || differ_tol (b_high n) (b_high e)
  || differ_tol (b_low n) (b_low e)
  || differ_tol (b_close n) (b_close e)
  || differ_exact (b_volume n) (b_volume e).

(** The close of a parsed row is present and below 0.01. *)
Definition close_too_low (c : Main.campos) : bool :=
  match Main.cierre c with
  | Some x => Main.lt_0_01 x
  | None => false
  end.

(** A dated row is valid when its cells parse and its close is not too
    low: the rows that reach the comparison with storage. *)
Definition survives (df : Main.DataFrame) (fr : Main.date * list pyval)
    : bool :=
  match Main.parse_row df fr.2 with
  | Ret nuevo => negb (close_too_low nuevo)
  | Raise _ => false
  end.

Definition valid_rows (to_datetime : list pyval -> list (option Main.date))
    (df : Main.DataFrame) : list (Main.date * list pyval) :=
  match Main.col df "fecha" with
  | Some fecha_col =>
      List.filter (survives df) (Main.dated_rows to_datetime df fecha_col)
  | None => []
  end.

(** What a pass over [rows] appends to the write-set and adds to the skip
    count. *)
Definition escritos (ticker_id : Z) (df : Main.DataFrame)
    (em : gmap Main.date Main.campos) (rows : list (Main.date * list pyval))
    : list Main.registro :=
  omap (fun fr => match Main.decide_row ticker_id df em fr.1 fr.2 with
                  | Main.Escribir r => Some r
                  | _ => None
                  end) rows.

Fixpoint saltados (ticker_id : Z) (df : Main.DataFrame)
    (em : gmap Main.date Main.campos) (rows : list (Main.date * list pyval))
    : Z :=
  match rows with
  | [] => 0
  | fr :: rows' =>
      (match Main.decide_row ticker_id df em fr.1 fr.2 with
       | Main.Saltar => 1
       | _ => 0
       end) + saltados ticker_id df em rows'
  end.

(** The key of a proposed row in [historicos]. *)
Definition key (r : Main.registro) : Z * Main.date :=
  (Main.r_ticker_id r, Main.r_fecha r).

Definition is_nan_field (a : option num) : bool :=
  match a with
  | Some (NFloat x) => PyFloat.is_nan x
  | _ => false
  end.

Definition sin_nan (c : Main.campos) : bool :=
  negb (is_nan_field (Main.apertura c) || is_nan_field (Main.maximo c)
        || is_nan_field (Main.minimo c) || is_nan_field (Main.cierre c)
        || is_nan_field (Main.volumen c)).

(** *** A numeric input

    A finite float [S754_finite s m e] is the number [(-1)^s * m * 2^e].
    Its integer part is that number with the fraction dropped, the
    quotient of its numerator by its denominator rounded toward zero; a
    NaN and an infinity have none. *)
Definition truncate (x : float) : option Z :=
  match x with
  | S754_zero _ => Some 0
  | S754_finite s m e =>
      Some (Z.quot (cond_Zopp s (Zpos m * 2 ^ Z.max e 0)) (2 ^ Z.max (- e) 0))
  | _ => None
  end.

(** The float [x] is exactly the integer [z]. *)
Definition denotes (x : float) (z : Z) : bool :=
  match x with
  | S754_zero _ => z =? 0
  | S754_finite s m e =>
      z * 2 ^ Z.max (- e) 0 =? cond_Zopp s (Zpos m * 2 ^ Z.max e 0)
  | _ => false
  end.

(** [c] is none of the information separators FS, GS, RS and US, which
    [str.strip()] removes and [float] does not skip. *)
Definition no_info_separator (c : ascii) : bool :=
  negb ((28 <=? PyStr.code c) && (PyStr.code c <=? 31)).

(** *** Step 5 of the reconciliation

    The Bar behind five stored or parsed fields: prices are floats and the
    volume is an integer. *)
Definition price (a : option num) : option (option float) :=
  match a with
  | None => Some None
  | Some (NFloat x) => Some (Some x)
  | Some (NInt _) => None
  end.

Definition volume (a : option num) : option (option Z) :=
  match a with
  | None => Some None
  | Some (NInt z) => Some (Some z)
  | Some (NFloat _) => None
  end.

Definition bar_of (c : Main.campos) : option Bar :=
  o ← price (Main.apertura c);
  h ← price (Main.maximo c);
  l ← price (Main.minimo c);
  cl ← price (Main.cierre c);
  v ← volume (Main.volumen c);
  Some {| b_open := o; b_high := h; b_low := l; b_close := cl;
          b_volume := v |}.

(** The Bar a candidate row normalizes to. *)
Definition candidate_bar (df : Main.DataFrame) (fr : Main.date * list pyval)
    : option Bar :=
  match Main.parse_row df fr.2 with
  | Ret c => bar_of c
  | Raise _ => None
  end.

(** The Bar stored for the instrument and the date. *)
Definition stored_bar (db : Main.historicos) (ticker_id : Z) (d : Main.date)
    : option Bar :=
  db !! (ticker_id, d) ≫= bar_of.

(** A write of the Bar [n]: all five fields. *)
Definition bar_write (ticker_id : Z) (d : Main.date) (n : Bar)
    : Main.registro :=
  {| Main.r_ticker_id := ticker_id; Main.r_fecha := d;
     Main.r_campos := campos_of n |}.

(** What step 5 emits for a valid row: an insert when no Bar is stored
    for its date; an update, with all five fields of the row, when some
    field differs from the stored Bar; nothing when none differs. *)
Definition emitted (ticker_id : Z) (db : Main.historicos)
    (df : Main.DataFrame) (fr : Main.date * list pyval)
    : option Main.registro :=
  n ← candidate_bar df fr;
  match stored_bar db ticker_id fr.1 with
  | None => Some (bar_write ticker_id fr.1 n)
  | Some e =>
      if bar_differs n e then Some (bar_write ticker_id fr.1 n) else None
  end.

(** The valid row has a stored Bar and no field differs from it: step 5
    counts it as skipped. *)
Definition unchanged (ticker_id : Z) (db : Main.historicos)
    (df : Main.DataFrame) (fr : Main.date * list pyval) : bool :=
  match candidate_bar df fr, stored_bar db ticker_id fr.1 with
  | Some n, Some e => negb (bar_differs n e)
  | _, _ => false
  end.

(** The record the loop builds for a dated row whose cells parse. *)
Definition registro_of (ticker_id : Z) (df : Main.DataFrame)
    (fr : Main.date * list pyval) : option Main.registro :=
  match Main.parse_row df fr.2 with
  | Ret nuevo =>
      Some {| Main.r_ticker_id := ticker_id; Main.r_fecha := fr.1;
              Main.r_campos := nuevo |}
  | Raise _ => None
  end.

End Spec.

(** ** [main.py]: the loop of [main], lines 299-406

    [main] walks the list of tickers fetched from the table [tickers].
    For each one it reads the last stored date, asks IOL for the history
    from a date derived from it, retrying a failed request, and hands the
    DataFrame to [upsert_historico_selectivo]; it commits after a call
    that returns and rolls back after one that raises.  The six counters
    of [stats] record what happened.

    The request to IOL is a parameter: [fetch n ticker desde] is what the
    call [fetch_historico_iol_fast(ticker, desde, ...)] does when [n]
    requests were made before it; a keyboard interrupt is taken where the
    loop waits, in the request.  The state carries the table, the counters
    and the requests made so far. *)

Module MainLoop.

Import Main.
Local Open Scope string_scope.
Local Open Scope Z_scope.

Definition DEFAULT_DESDE : string := "01/01/2020".
Definition LOOKBACK_DAYS : Z := 60.
Definition MAX_RETRIES : nat := 3.

(** [d.strftime("%d/%m/%Y")] *)
Definition strftime (ordinal : Z) : string :=
  let '(y, m, d) := PyDate.civil ordinal in
  PyDate.pad 2 d ++ "/" ++ PyDate.pad 2 m ++ "/" ++ PyDate.pad 4 y.

(** [datetime.strptime(DEFAULT_DESDE, "%d/%m/%Y").date()], the ordinal
    of 1 January 2020. *)
Definition default_date : date := 737425.

Record Stats : Type := {
  actualizados : Z;
  sin_cambios : Z;
  errores : Z;
  sin_datos : Z;
  total_registros_nuevos : Z;
  total_registros_skip : Z
}.

Definition stats0 : Stats :=
  {| actualizados := 0; sin_cambios := 0; errores := 0; sin_datos := 0;
     total_registros_nuevos := 0; total_registros_skip := 0 |}.

(** The tickers counted so far in one of the four outcomes. *)
Definition counted (s : Stats) : Z :=
  actualizados s + sin_cambios s + sin_datos s + errores s.

(** The counters [s'] continue the counters [s]: the two that record
    writes and skips do not go down, and rows are counted as written
    exactly with the tickers counted as updated. *)
Definition grows (s s' : Stats) : Prop :=
  actualizados s <= actualizados s'
  ∧ total_registros_skip s <= total_registros_skip s'
  ∧ actualizados s' - actualizados s
    <= total_registros_nuevos s' - total_registros_nuevos s
  ∧ (actualizados s' = actualizados s →
     total_registros_nuevos s' = total_registros_nuevos s).

(** What a call of [fetch_historico_iol_fast] does: it returns a
    DataFrame, raises an [Exception], or is interrupted from the
    keyboard. *)
Inductive outcome : Type :=
  | Returns (df : option DataFrame)
  | Fails
  | Interrupted.

Record state : Type := {
  db : historicos;
  stats : Stats;
  requests : list (string * string)
}.

Definition with_stats (st : state) (s : Stats) : state :=
  {| db := db st; stats := s; requests := requests st |}.

(** [stats['errores'] += 1; conn.rollback()] *)
Definition on_error (st : state) : state :=
  let s := stats st in
  with_stats st
    {| actualizados := actualizados s; sin_cambios := sin_cambios s;
       errores := errores s + 1; sin_datos := sin_datos s;
       total_registros_nuevos := total_registros_nuevos s;
       total_registros_skip := total_registros_skip s |}.

(** [stats['sin_datos'] += 1] *)
Definition on_empty (st : state) : state :=
  let s := stats st in
  with_stats st
    {| actualizados := actualizados s; sin_cambios := sin_cambios s;
       errores := errores s; sin_datos := sin_datos s + 1;
       total_registros_nuevos := total_registros_nuevos s;
       total_registros_skip := total_registros_skip s |}.

(** Lines 373-393: the counters after a call of
    [upsert_historico_selectivo] that returned. *)
Definition on_written (s : Stats) (n_written n_skipped : Z) : Stats :=
  if 0 <? n_written then
    {| actualizados := actualizados s + 1; sin_cambios := sin_cambios s;
       errores := errores s; sin_datos := sin_datos s;
       total_registros_nuevos := total_registros_nuevos s + n_written;
       total_registros_skip := total_registros_skip s + n_skipped |}
  else
    {| actualizados := actualizados s; sin_cambios := sin_cambios s + 1;
       errores := errores s; sin_datos := sin_datos s;
       total_registros_nuevos := total_registros_nuevos s;
       total_registros_skip := total_registros_skip s + n_skipped |}.

(** [SELECT MAX(fecha) FROM historicos WHERE ticker_id = %s] *)
Definition max_fecha (db : historicos) (ticker_id : Z) : option date :=
  maximum
    (omap (fun kv : Z * date * campos =>
             if decide (kv.1.1 = ticker_id) then Some kv.1.2 else None)
          (map_to_list db)).

(** Lines 327-335.  [last - timedelta(days=LOOKBACK_DAYS)] raises
    [OverflowError] when it would leave the range of [date], whose first
    ordinal is 1. *)
Definition desde_of (last : option date) : res string :=
  match last with
  | None => Ret DEFAULT_DESDE
  | Some last =>
      if last - LOOKBACK_DAYS <? 1 then Raise OverflowError
      else Ret (strftime (Z.max (last - LOOKBACK_DAYS) default_date))
  end.

(** What the outer [except] clauses see of one pass of the loop body. *)
Inductive control : Type :=
  | Continue (st : state)
  | Break (st : state).

Section Loop.

Variable to_datetime : list pyval -> list (option date).

Variable fetch : nat -> string -> string -> outcome.

(** Lines 338-357, with [n] passes of [for intento in range(MAX_RETRIES)]
    left: the outcome and the requests made. *)
Fixpoint attempts (n : nat) (ticker desde : string)
    (reqs : list (string * string)) : outcome * list (string * string) :=
  match n with
  | O => (Returns None, reqs)
  | S n' =>
      let reqs' := (reqs ++ [(ticker, desde)])%list in
      match fetch (List.length reqs) ticker desde with
      | Fails =>
          match n' with
          | O => (Fails, reqs')
          | S _ => attempts n' ticker desde reqs'
          end
      | r => (r, reqs')
      end
  end.

(** Lines 318-406: the body of the loop for one ticker. *)
Definition iteration (st : state) (ticker : string) (ticker_id : Z)
    : control :=
  let last := max_fecha (db st) ticker_id in
  match desde_of last with
  | Raise _ => Continue (on_error st)
  | Ret desde =>
      let '(r, reqs) := attempts MAX_RETRIES ticker desde (requests st) in
      let st := {| db := db st; stats := stats st; requests := reqs |} in
      match r with
      | Interrupted => Break st
      | Fails => Continue (on_error st)
      | Returns None => Continue (on_empty st)
      | Returns (Some df) =>
          if empty df then Continue (on_empty st)
          else
            match upsert_historico_selectivo to_datetime ticker_id (db st)
                    ticker (Some df) with
            | Raise _ => Continue (on_error st)
            | Ret (n_written, n_skipped, _, db') =>
                Continue {| db := db';
                            stats := on_written (stats st) n_written n_skipped;
                            requests := reqs |}
            end
      end
  end.

Fixpoint loop (st : state) (tickers : list (string * Z)) : state :=
  match tickers with
  | [] => st
  | (ticker, ticker_id) :: tickers' =>
      match iteration st ticker ticker_id with
      | Continue st' => loop st' tickers'
      | Break st' => st'
      end
  end.

(** [main] from the list [tickers] that lines 246-271 fetched: the
    table, the counters and the requests when the loop is left. *)
Definition main (db0 : historicos) (tickers : list (string * Z)) : state :=
  loop {| db := db0; stats := stats0; requests := [] |} tickers.

End Loop.

End MainLoop.

(** Runs used as examples. *)

Module SampleRun.

Import Main.
Local Open Scope string_scope.
Local Open Scope Z_scope.

(** Every request returns the two days of [Sample.candidate]. *)
Definition fetch (n : nat) (ticker desde : string) : MainLoop.outcome :=
  MainLoop.Returns (Some Sample.candidate).

(** Every request returns the stored day, twice. *)
Definition fetch_same (n : nat) (ticker desde : string) : MainLoop.outcome :=
  MainLoop.Returns (Some Sample.repeated).

Definition tickers : list (string * Z) := [("GGAL", 7)].

End SampleRun.

(** ** Strings: facts used below *)

Lemma rfind_from_last_index (c : ascii) (s : string) (i last : Z) :
  PyStr.rfind_from c s i last =
  match Spec.last_index c s with
  | Some k => i + k
  | None => last
  end.
Proof.
  revert i last. induction s as [|a t IH]; intros i last; simpl; [done|].
  rewrite IH. destruct (Spec.last_index c t) as [k|]; [lia|].
  destruct (Ascii.eqb a c); lia.
Qed.

Lemma rfind_last_index (c : ascii) (s : string) :
  PyStr.rfind c s = default (-1) (Spec.last_index c s).
Proof.
  unfold PyStr.rfind. rewrite rfind_from_last_index.
  destruct (Spec.last_index c s); simpl; lia.
Qed.

Lemma last_index_nonneg (c : ascii) (s : string) (k : Z) :
  Spec.last_index c s = Some k → 0 <= k.
Proof.
  revert k. induction s as [|a t IH]; intros k; simpl; [done|].
  destruct (Spec.last_index c t) as [j|].
  - intros [= <-]. specialize (IH j eq_refl). lia.
  - destruct (Ascii.eqb a c); [intros [= <-]; lia | done].
Qed.

Lemma contains_last_index (c : ascii) (s : string) :
  PyStr.contains c s = bool_decide (is_Some (Spec.last_index c s)).
Proof.
  induction s as [|a t IH]; simpl; [done|].
  rewrite IH. destruct (Spec.last_index c t) as [k|].
  - by rewrite orb_true_r.
  - by destruct (Ascii.eqb a c).
Qed.

Lemma replace_same (c : ascii) (s : string) : PyStr.replace c c s = s.
Proof.
  induction s as [|a t IH]; simpl; [done|]. rewrite IH.
  destruct (Ascii.eqb_spec a c); by subst.
Qed.

(** The later separator, read off the two [rfind] positions. *)
Lemma last_separator_positions (s : string) :
  match Spec.last_index "," s, Spec.last_index "." s with
  | Some i, Some j =>
      Spec.last_separator s = Some (if j <? i then ","%char else "."%char)
  | Some _, None => Spec.last_separator s = Some ","%char
  | None, Some _ => Spec.last_separator s = Some "."%char
  | None, None => Spec.last_separator s = None
  end.
Proof.
  induction s as [|a t IH]; simpl; [done|].
  destruct (Spec.last_index "," t) as [i|] eqn:Hi,
           (Spec.last_index "." t) as [j|] eqn:Hj; rewrite IH.
  - replace (1 + j <? 1 + i) with (j <? i); [done|].
    destruct (Z.ltb_spec j i), (Z.ltb_spec (1 + j) (1 + i)); lia || done.
  - unfold Spec.is_separator.
    destruct (Ascii.eqb a ".") eqn:Ha; [|done].
    pose proof (last_index_nonneg _ _ _ Hi).
    destruct (Z.ltb_spec 0 (1 + i)); [done | lia].
  - unfold Spec.is_separator.
    destruct (Ascii.eqb a ",") eqn:Ha; [|done].
    pose proof (last_index_nonneg _ _ _ Hj).
    destruct (Z.ltb_spec (1 + j) 0); [lia | done].
  - unfold Spec.is_separator.
    destruct (Ascii.eqb_spec a ","), (Ascii.eqb_spec a "."); subst; done.
Qed.

Lemma disambiguate_both (s : string) :
  PyStr.contains "," s = true → PyStr.contains "." s = true →
  Main.disambiguate s = Spec.both_separators s.
Proof.
  intros Hc Hp. unfold Main.disambiguate, Spec.both_separators.
  rewrite Hc, Hp. simpl.
  rewrite !rfind_last_index.
  pose proof (last_separator_positions s) as Hl.
  rewrite contains_last_index in Hc, Hp.
  apply bool_decide_eq_true in Hc as [i Hi], Hp as [j Hj].
  rewrite Hi, Hj in Hl |- *. simpl. rewrite Hl.
  destruct (j <? i); simpl; [done|]. by rewrite replace_same.
Qed.

Lemma not_blank_of_contains (c : ascii) (s : string) :
  PyStr.contains c s = true → c ≠ "-"%char →
  String.eqb s "" || String.eqb s "-" = false.
Proof.
  intros Hc Hn. destruct s as [|a [|b t]]; simpl in *; [done| |].
  - rewrite orb_false_r in Hc. apply Ascii.eqb_eq in Hc as ->.
    by destruct (Ascii.eqb_spec c "-").
  - by destruct (Ascii.eqb a "-").
Qed.

(** ** [parse_number]: separators *)

(** C1. A token with both a comma and a dot is converted with the separator
    that occurs later taken as the decimal point and the other one
    stripped as thousands separator; ["20,390.00"] and ["20.390,00"] both
    give 20390.0. *)
Theorem C1_later_separator_is_decimal (val : string) (is_int : bool) :
  PyStr.contains "," (PyStr.strip val) = true →
  PyStr.contains "." (PyStr.strip val) = true →
  Main.parse_number (PStr val) is_int =
    try_except
      (Main.convert (Spec.both_separators (PyStr.strip val)) is_int)
      (fun _ => Ret None)
  ∧ Main.parse_number (PStr "20,390.00") false
    = Ret (Some (NFloat (PyFloat.round_Z 20390)))
  ∧ Main.parse_number (PStr "20.390,00") false
    = Ret (Some (NFloat (PyFloat.round_Z 20390))).
Proof.
  intros Hc Hp. split; [|split; vm_compute; reflexivity].
  unfold Main.parse_number; cbn [str].
  rewrite (not_blank_of_contains _ _ Hc) by done.
  by rewrite disambiguate_both.
Qed.

Lemma C1_witness :
  Main.parse_number (PStr " 1.234,5 ") true
  = try_except (Main.convert (Spec.both_separators "1.234,5") true)
               (fun _ => Ret None)
  ∧ Main.parse_number (PStr " 1.234,5 ") true = Ret (Some (NInt 1234)).
Proof.
  split.
  - apply (C1_later_separator_is_decimal " 1.234,5 " true); reflexivity.
  - vm_compute. reflexivity.
Defined.

Lemma count_nonneg (c : ascii) (s : string) : 0 <= PyStr.count c s.
Proof. induction s as [|a t IH]; simpl; [done|]. destruct (Ascii.eqb a c); lia. Qed.

Lemma last_index_count_0 (c : ascii) (s : string) :
  PyStr.count c s = 0 → Spec.last_index c s = None.
Proof.
  induction s as [|a t IH]; simpl; [done|].
  pose proof (count_nonneg c t). destruct (Ascii.eqb a c); [lia|].
  intros H0. rewrite IH by lia. done.
Qed.

(** With one dot in the token, [rfind] finds it and what follows it is
    [after_dot]. *)
Lemma last_index_single_dot (s : string) :
  PyStr.count "." s = 1 →
  Spec.last_index "." s = Some (PyStr.len s - PyStr.len (Spec.after_dot s) - 1)
  ∧ (PyStr.startswith "." s = false →
     0 < PyStr.len s - PyStr.len (Spec.after_dot s) - 1).
Proof.
  induction s as [|a t IH]; [done|].
  destruct (Ascii.eqb_spec a ".") as [->|Hne].
  - simpl. intros H1. rewrite last_index_count_0 by lia.
    split; [f_equal; lia | done].
  - cbn [PyStr.count PyStr.len Spec.last_index Spec.after_dot].
    destruct (Ascii.eqb_spec a "."); [done|].
    intros H1. destruct IH as [IH _]; [lia|]. rewrite IH.
    split; [f_equal; lia|]. intros _.
    pose proof (last_index_nonneg _ _ _ IH). lia.
Qed.

Lemma disambiguate_single_dot (s : string) :
  PyStr.contains "," s = false → PyStr.count "." s = 1 →
  PyStr.startswith "." s = false →
  Main.disambiguate s = Spec.single_dot s.
Proof.
  intros Hc H1 H0. unfold Main.disambiguate, Spec.single_dot.
  destruct (last_index_single_dot s H1) as [Hl Hpos]. specialize (Hpos H0).
  rewrite Hc, contains_last_index, Hl, H1. simpl.
  rewrite rfind_last_index, Hl. simpl.
  destruct (Z.ltb_spec 0 (PyStr.len s - PyStr.len (Spec.after_dot s) - 1)); [|lia].
  replace (PyStr.len s - (PyStr.len s - PyStr.len (Spec.after_dot s) - 1) - 1)
    with (PyStr.len (Spec.after_dot s)) by lia.
  done.
Qed.

(** C2, as the code has it.  A token without comma whose single dot is not
    its first character is converted with the dot stripped when more than
    three characters follow the dot, and as it stands otherwise: ["20.500"]
    and ["20.5"] give 20.5, ["20.5000"] gives 205000.0. *)
Theorem C2_single_dot_three_digits_is_decimal (val : string) (is_int : bool) :
  PyStr.contains "," (PyStr.strip val) = false →
  PyStr.count "." (PyStr.strip val) = 1 →
  PyStr.startswith "." (PyStr.strip val) = false →
  Main.parse_number (PStr val) is_int =
    try_except (Main.convert (Spec.single_dot (PyStr.strip val)) is_int)
               (fun _ => Ret None)
  ∧ Main.parse_number (PStr "20.500") false
    = Ret (Some (NFloat (PyFloat.of_decimal false 205 (-1))))
  ∧ Main.parse_number (PStr "20.5") false
    = Ret (Some (NFloat (PyFloat.of_decimal false 205 (-1))))
  ∧ Main.parse_number (PStr "20.5000") false
    = Ret (Some (NFloat (PyFloat.round_Z 205000))).
Proof.
  intros Hc H1 H0. split; [|repeat split; vm_compute; reflexivity].
  unfold Main.parse_number; cbn [str].
  rewrite (not_blank_of_contains "." (PyStr.strip val)); [|by rewrite contains_last_index, (proj1 (last_index_single_dot _ H1))|done].
  by rewrite disambiguate_single_dot.
Qed.

Lemma C2_witness :
  Main.parse_number (PStr "1.2345") false
  = try_except (Main.convert (Spec.single_dot "1.2345") false)
               (fun _ => Ret None)
  ∧ Spec.single_dot "1.2345" = "12345"%string.
Proof.
  split.
  - apply (C2_single_dot_three_digits_is_decimal "1.2345" false); reflexivity.
  - reflexivity.
Defined.

(** ["20.500"] has a single dot followed by three digits; the code returns
    20.5, which is not 20500.0. *)
Lemma C2_counterexample :
  Main.parse_number (PStr "20.500") false
  = Ret (Some (NFloat (PyFloat.of_decimal false 205 (-1))))
  ∧ PyFloat.eqb (PyFloat.of_decimal false 205 (-1)) (PyFloat.round_Z 20500)
    = false.
Proof. split; vm_compute; reflexivity. Qed.

(** ** [parse_number]: failure *)

Lemma remove_replace_removed (c d : ascii) (s : string) :
  PyStr.remove d (PyStr.remove c (PyStr.replace c d s))
  = PyStr.remove d (PyStr.remove c s).
Proof.
  induction s as [|a t IH]; simpl; [done|].
  destruct (Ascii.eqb_spec a c) as [->|Hac]; simpl.
  - destruct (Ascii.eqb_spec d c) as [->|Hdc]; simpl; [done|].
    by rewrite Ascii.eqb_refl.
  - destruct (Ascii.eqb_spec a c); [done|]. simpl. by rewrite IH.
Qed.

Lemma remove_remove (c : ascii) (s : string) :
  PyStr.remove c (PyStr.remove c s) = PyStr.remove c s.
Proof.
  induction s as [|a t IH]; simpl; [done|].
  destruct (Ascii.eqb a c) eqn:Ha; simpl; [done|]. by rewrite Ha, IH.
Qed.

Lemma remove_comm (c d : ascii) (s : string) :
  PyStr.remove c (PyStr.remove d s) = PyStr.remove d (PyStr.remove c s).
Proof.
  induction s as [|a t IH]; simpl; [done|].
  destruct (Ascii.eqb a d) eqn:Hd, (Ascii.eqb a c) eqn:Hc; simpl;
    rewrite ?Hd, ?Hc, ?IH; done.
Qed.

(** The earlier revision strips every separator of the token it was given. *)
Lemma strip_all_old_disambiguate (s : string) :
  Spec.strip_all (MainOld.disambiguate s) = Spec.strip_all s.
Proof.
  unfold Spec.strip_all, MainOld.disambiguate.
  destruct (PyStr.contains "," s), (PyStr.contains "." s); simpl; try done.
  - rewrite remove_replace_removed.
    by rewrite (remove_comm "," "." s), remove_remove, (remove_comm "." ",").
  - by rewrite remove_replace_removed.
Qed.

Lemma old_fallback_reparse (s : string) (is_int : bool) :
  MainOld.fallback s is_int =
  match Spec.reparse (Spec.strip_all s) is_int with
  | Ret v => Ret (Some v)
  | Raise _ => Ret None
  end.
Proof.
  unfold MainOld.fallback, Spec.reparse, Spec.strip_all.
  destruct is_int.
  - by destruct (PyStr.to_int _).
  - by destruct (PyStr.to_float _).
Qed.

(** C3, as the code has it.  When the conversion of the disambiguated
    token fails, [parse_number] of [main.py] returns [None] at once; the
    revision kept in [main..py] strips all commas and dots, parses what is
    left, and returns [None] only when that fails too. *)
Theorem C3_fallback_only_in_earlier_revision (val : string) (is_int : bool) :
  (∀ e, Main.convert (Main.disambiguate (PyStr.strip val)) is_int = Raise e →
        Main.parse_number (PStr val) is_int = Ret None)
  ∧ (∀ e, MainOld.primary (MainOld.disambiguate (PyStr.strip val)) is_int
          = Raise e →
          MainOld.parse_number (PStr val) is_int =
          match Spec.reparse (Spec.strip_all (PyStr.strip val)) is_int with
          | Ret v => Ret (Some v)
          | Raise _ => Ret None
          end).
Proof.
  split; intros e He.
  - unfold Main.parse_number; cbn [str]. rewrite He.
    by destruct (_ || _).
  - unfold MainOld.parse_number; cbn [str].
    destruct (String.eqb_spec (PyStr.strip val) "") as [Hs|Hs].
    + rewrite Hs. by destruct is_int.
    + rewrite He. simpl.
      by rewrite old_fallback_reparse, strip_all_old_disambiguate.
Qed.

Lemma C3_witness :
  Main.parse_number (PStr "1,2.3,4") false = Ret None
  ∧ MainOld.parse_number (PStr "1,2,3") false
    = Ret (Some (NFloat (PyFloat.round_Z 123))).
Proof.
  split.
  - apply (proj1 (C3_fallback_only_in_earlier_revision "1,2.3,4" false)
             ValueError).
    reflexivity.
  - apply (proj2 (C3_fallback_only_in_earlier_revision "1,2,3" false)
             ValueError).
    reflexivity.
Defined.

(** On ["1,2.3,4"] the conversion of the disambiguated token ["1.23.4"]
    fails and [main.py] returns [None], although the token without its
    separators, ["1234"], parses. *)
Lemma C3_counterexample :
  Main.convert (Main.disambiguate "1,2.3,4") false = Raise ValueError
  ∧ Spec.reparse (Spec.strip_all "1,2.3,4") false
    = Ret (NFloat (PyFloat.round_Z 1234))
  ∧ Main.parse_number (PStr "1,2.3,4") false = Ret None.
Proof. repeat split; vm_compute; reflexivity. Qed.

(** ** [parse_number]: sign of the result *)

Lemma to_int_nonneg (x : float) (z : Z) :
  PyFloat.ltb x PyFloat.zero = false → PyFloat.to_int x = Ret z → 0 <= z.
Proof.
  destruct x as [s| s | |s m e]; simpl; try done.
  - intros _ [= <-]. lia.
  - destruct s; [done|]. intros _ [= <-].
    destruct (Z.leb_spec 0 e).
    + apply Z.mul_nonneg_nonneg; [lia | by apply Z.pow_nonneg].
    + apply Z.div_pos; [lia | apply Z.pow_pos_nonneg; lia].
Qed.

Lemma convert_never_negative (s : string) (is_int : bool) :
  match try_except (Main.convert s is_int) (fun _ => Ret None) with
  | Ret (Some v) => Spec.negative v = false
  | Ret None => True
  | Raise _ => False
  end.
Proof.
  unfold Main.convert. destruct (PyStr.to_float s) as [x|e]; simpl; [|done].
  destruct (PyFloat.ltb x PyFloat.zero) eqn:Hneg; simpl; [done|].
  destruct is_int; simpl; [|done].
  destruct (PyFloat.to_int x) as [z|e] eqn:Hz; simpl; [|done].
  pose proof (to_int_nonneg x z Hneg Hz). by apply Z.ltb_ge.
Qed.

(** C6, as the code has it.  On a string [parse_number] never raises and
    never returns a negative number: a token that [float] refuses gives
    [None], and so does one whose value is below zero; the empty string,
    ["-"], ["abc"] and ["-5"] give [None], ["1234"] gives 1234.0. *)
Theorem C6_string_result_never_negative (val : string) (is_int : bool) :
  match Main.parse_number (PStr val) is_int with
  | Ret (Some v) => Spec.negative v = false
  | Ret None => True
  | Raise _ => False
  end
  ∧ (∀ e, PyStr.to_float (Main.disambiguate (PyStr.strip val)) = Raise e →
          Main.parse_number (PStr val) is_int = Ret None)
  ∧ (∀ x, PyStr.to_float (Main.disambiguate (PyStr.strip val)) = Ret x →
          PyFloat.ltb x PyFloat.zero = true →
          Main.parse_number (PStr val) is_int = Ret None)
  ∧ Main.parse_number (PStr "") false = Ret None
  ∧ Main.parse_number (PStr "-") false = Ret None
  ∧ Main.parse_number (PStr "abc") false = Ret None
  ∧ Main.parse_number (PStr "-5") false = Ret None
  ∧ Main.parse_number (PStr "1234") false
    = Ret (Some (NFloat (PyFloat.round_Z 1234))).
Proof.
  split; [|split; [|split; [|repeat split; vm_compute; reflexivity]]].
  - unfold Main.parse_number; cbn [str]. destruct (_ || _); [done|].
    apply convert_never_negative.
  - intros e He. unfold Main.parse_number, Main.convert; cbn [str]. rewrite He.
    by destruct (_ || _).
  - intros x Hx Hneg. unfold Main.parse_number, Main.convert; cbn [str].
    rewrite Hx. simpl. rewrite Hneg. by destruct (_ || _).
Qed.

Lemma C6_witness :
  Main.parse_number (PStr "1e999x") true = Ret None
  ∧ Main.parse_number (PStr "-0.5") true = Ret None.
Proof.
  split.
  - apply (proj1 (proj2 (C6_string_result_never_negative "1e999x" true))
             ValueError).
    reflexivity.
  - apply (proj1 (proj2 (proj2 (C6_string_result_never_negative "-0.5" true)))
             (PyFloat.of_decimal true 5 (-1))); reflexivity.
Defined.

(** The float -5.0 is returned as it is, and it is negative. *)
Lemma C6_counterexample :
  Main.parse_number (PFloat (PyFloat.round_Z (-5))) false
  = Ret (Some (NFloat (PyFloat.round_Z (-5))))
  ∧ Spec.negative (NFloat (PyFloat.round_Z (-5))) = true.
Proof. split; vm_compute; reflexivity. Qed.

(** ** Numeric input: [int(val)] and [float(val)] *)

Lemma to_int_truncate (x : float) :
  PyFloat.to_int x
  = match Spec.truncate x with
    | Some z => Ret z
    | None => Raise (match x with
                     | S754_nan => ValueError
                     | _ => OverflowError
                     end)
    end.
Proof.
  destruct x as [s|s| |s m e]; try done. cbn [PyFloat.to_int Spec.truncate].
  f_equal. destruct (Z.leb_spec 0 e) as [He|He].
  - rewrite Z.max_l, Z.max_r by lia. rewrite Z.pow_0_r, Z.quot_1_r.
    by destruct s.
  - rewrite Z.max_r, Z.max_l by lia. rewrite Z.pow_0_r, Z.mul_1_r.
    assert (0 < 2 ^ (- e)) by (apply Z.pow_pos_nonneg; lia).
    destruct s; simpl.
    + change (Z.neg m) with (- Z.pos m). rewrite Z.quot_opp_l by lia.
      by rewrite Z.quot_div_nonneg by lia.
    + by rewrite Z.quot_div_nonneg by lia.
Qed.

Lemma digits2_pos_iter (k m : positive) :
  digits2_pos (Pos.iter xO m k) = (digits2_pos m + k)%positive.
Proof.
  induction k as [|k IH] using Pos.peano_ind.
  - simpl. lia.
  - rewrite Pos.iter_succ. simpl. rewrite IH. lia.
Qed.

Lemma iter_xO_value (k m : positive) :
  Zpos (Pos.iter xO m k) = Zpos m * 2 ^ Zpos k.
Proof.
  induction k as [|k IH] using Pos.peano_ind.
  - simpl. lia.
  - rewrite Pos.iter_succ, Pos2Z.inj_xO, IH, Pos2Z.inj_succ, Z.pow_succ_r by lia.
    lia.
Qed.

Lemma digits2_pos_bound (p : positive) :
  2 ^ (Zpos (digits2_pos p) - 1) <= Zpos p.
Proof.
  induction p as [p IH|p IH|]; simpl digits2_pos.
  - rewrite Pos2Z.inj_succ.
    replace (Z.succ (Zpos (digits2_pos p)) - 1)
      with (Z.succ (Zpos (digits2_pos p) - 1)) by lia.
    rewrite Z.pow_succ_r by lia. lia.
  - rewrite Pos2Z.inj_succ.
    replace (Z.succ (Zpos (digits2_pos p)) - 1)
      with (Z.succ (Zpos (digits2_pos p) - 1)) by lia.
    rewrite Z.pow_succ_r by lia. lia.
  - simpl. lia.
Qed.

(** A mantissa of 53 bits in the exponent range is kept as it is. *)
Lemma binary_round_aux_exact (s : bool) (m : positive) (e : Z) :
  Zpos (digits2_pos m) = 53 → -1074 <= e <= 971 →
  binary_round_aux PyFloat.prec PyFloat.emax s (Zpos m) e loc_Exact
  = S754_finite s m e.
Proof.
  intros Hd He. unfold binary_round_aux, shr_fexp.
  cbn [Zdigits2 shr_record_of_loc]. rewrite Hd.
  assert (fexp PyFloat.prec PyFloat.emax (53 + e) - e = 0) as ->.
  { unfold fexp, emin, PyFloat.prec, PyFloat.emax. lia. }
  cbn [shr shr_m loc_of_shr_record round_nearest_even Zdigits2
       shr_record_of_loc].
  rewrite Hd.
  assert (fexp PyFloat.prec PyFloat.emax (53 + e) - e = 0) as ->.
  { unfold fexp, emin, PyFloat.prec, PyFloat.emax. lia. }
  cbn [shr shr_m].
  destruct (Z.leb_spec e (PyFloat.emax - PyFloat.prec)); [done|].
  unfold PyFloat.emax, PyFloat.prec in *. lia.
Qed.

(** An integer below 2^53 is rounded to itself. *)
Lemma binary_round_small (s : bool) (p : positive) :
  Zpos p < 2 ^ 53 →
  ∃ m e, binary_round PyFloat.prec PyFloat.emax s p 0 = S754_finite s m e
         ∧ e <= 0 ∧ Zpos m = Zpos p * 2 ^ (- e).
Proof.
  intros Hp. pose proof (digits2_pos_bound p) as Hb.
  assert (Zpos (digits2_pos p) <= 53) as Hd.
  { destruct (Z.le_gt_cases (Zpos (digits2_pos p)) 53) as [|Hgt]; [done|].
    assert (2 ^ 53 <= 2 ^ (Zpos (digits2_pos p) - 1))
      by (apply Z.pow_le_mono_r; lia). lia. }
  unfold binary_round, shl_align.
  assert (fexp PyFloat.prec PyFloat.emax (Zpos (digits2_pos p) + 0) - 0
          = Zpos (digits2_pos p) - 53) as ->.
  { unfold fexp, emin, PyFloat.prec, PyFloat.emax. lia. }
  assert (fexp PyFloat.prec PyFloat.emax (Zpos (digits2_pos p) + 0)
          = Zpos (digits2_pos p) - 53) as ->.
  { unfold fexp, emin, PyFloat.prec, PyFloat.emax. lia. }
  destruct (Zpos (digits2_pos p) - 53) as [|k|k] eqn:Hk; [|lia|].
  - exists p, 0. split; [|split; [lia|simpl; lia]].
    apply binary_round_aux_exact; lia.
  - exists (Pos.iter xO p k), (Zneg k). split; [|split; [lia|]].
    + apply binary_round_aux_exact; [|lia].
      rewrite digits2_pos_iter. lia.
    + rewrite iter_xO_value. done.
Qed.

Lemma of_int_small (z : Z) :
  Z.abs z < 2 ^ 53 →
  ∃ f, PyFloat.of_int z = Ret f ∧ Spec.denotes f z = true.
Proof.
  intros Hz. unfold PyFloat.of_int, PyFloat.round_Z, binary_normalize.
  destruct z as [|p|p].
  - by exists (S754_zero false).
  - destruct (binary_round_small false p) as (m & e & -> & He & Hm); [lia|].
    exists (S754_finite false m e). split; [done|]. cbn [Spec.denotes cond_Zopp].
    rewrite Z.max_l, Z.max_r by lia. rewrite Z.pow_0_r, Hm.
    apply Z.eqb_eq. lia.
  - destruct (binary_round_small true p) as (m & e & -> & He & Hm); [lia|].
    exists (S754_finite true m e). split; [done|]. cbn [Spec.denotes cond_Zopp].
    rewrite Z.max_l, Z.max_r by lia. rewrite Z.pow_0_r, Z.mul_1_r.
    apply Z.eqb_eq. change (Z.neg p) with (- Z.pos p). lia.
Qed.

(** C10, as the code has it.  A value that is already an int or a float
    skips the string branch with its separator rules and its sign test:
    a float is returned as it is and an int as it is when [is_int] asks
    for an int, whatever the sign.  The cast of line 38 stands outside the
    [try]: [int] of a float gives its integer part and raises on a NaN
    ([ValueError]) and on an infinity ([OverflowError]); [float] of an int
    below 2^53 in magnitude gives the float of the same value, and raises
    [OverflowError], and nothing else, on ints that are too large. *)
Theorem C10_numeric_input_passes_through :
  (∀ x, Main.parse_number (PFloat x) false = Ret (Some (NFloat x)))
  ∧ (∀ z, Main.parse_number (PInt z) true = Ret (Some (NInt z)))
  ∧ (∀ x, Main.parse_number (PFloat x) true
          = match Spec.truncate x with
            | Some z => Ret (Some (NInt z))
            | None => Raise (match x with
                             | S754_nan => ValueError
                             | _ => OverflowError
                             end)
            end)
  ∧ (∀ z, Z.abs z < 2 ^ 53 →
          ∃ f, Main.parse_number (PInt z) false = Ret (Some (NFloat f))
               ∧ Spec.denotes f z = true)
  ∧ (∀ z r, Main.parse_number (PInt z) false = Ret r →
            ∃ f, r = Some (NFloat f))
  ∧ (∀ z e, Main.parse_number (PInt z) false = Raise e →
            e = OverflowError ∧ 2 ^ 53 <= Z.abs z)
  ∧ Main.parse_number (PFloat (S754_finite true 5629499534213120 (-50))) false
    = Ret (Some (NFloat (S754_finite true 5629499534213120 (-50))))
  ∧ Main.parse_number (PFloat (S754_finite true 3 (-1))) true
    = Ret (Some (NInt (-1)))
  ∧ Main.parse_number (PStr "-5") false = Ret None.
Proof.
  split; [done|]. split; [done|]. split.
  { intros x. cbn [Main.parse_number]. rewrite to_int_truncate.
    by destruct (Spec.truncate x). }
  split.
  { intros z Hz. destruct (of_int_small z Hz) as (f & Hf & Hd).
    exists f. cbn [Main.parse_number]. by rewrite Hf. }
  split.
  { intros z r. cbn [Main.parse_number].
    destruct (PyFloat.of_int z) as [f|]; simpl; [|done].
    intros [= <-]. by exists f. }
  split.
  { intros z e Hr. split.
    - cbn [Main.parse_number] in Hr. unfold PyFloat.of_int in Hr.
      destruct (PyFloat.is_inf _); simpl in Hr; congruence.
    - destruct (Z.le_gt_cases (2 ^ 53) (Z.abs z)) as [|Hlt]; [done|].
      destruct (of_int_small z) as (f & Hf & _); [lia|].
      cbn [Main.parse_number] in Hr. rewrite Hf in Hr. done. }
  repeat split; vm_compute; reflexivity.
Qed.

(** Line 38 raises on a NaN, on an infinity and on an int beyond the
    range of the floats. *)
Lemma C10_counterexample :
  Main.parse_number (PFloat S754_nan) true = Raise ValueError
  ∧ Main.parse_number (PFloat (S754_infinity false)) true
    = Raise OverflowError
  ∧ Main.parse_number (PInt (2 ^ 1024)) false = Raise OverflowError.
Proof. repeat split; vm_compute; reflexivity. Qed.

(** ** Rendering a float *)

Lemma all_chars_app (P : ascii -> bool) (s t : string) :
  Spec.all_chars P (s ++ t)%string = Spec.all_chars P s && Spec.all_chars P t.
Proof.
  induction s as [|a s IH]; simpl; [done|]. by rewrite IH, andb_assoc.
Qed.

Lemma all_chars_weaken (P Q : ascii -> bool) (s : string) :
  (∀ c, P c = true → Q c = true) →
  Spec.all_chars P s = true → Spec.all_chars Q s = true.
Proof.
  intros HPQ. induction s as [|a s IH]; simpl; [done|].
  intros [Ha Hs]%andb_true_iff. rewrite (HPQ _ Ha). by apply IH.
Qed.

Lemma count_app (c : ascii) (s t : string) :
  PyStr.count c (s ++ t)%string = PyStr.count c s + PyStr.count c t.
Proof. induction s as [|a s IH]; simpl; [done|]. rewrite IH. lia. Qed.

Lemma count_all_chars (P : ascii -> bool) (c : ascii) (s : string) :
  Spec.all_chars P s = true → P c = false → PyStr.count c s = 0.
Proof.
  intros Hs Hc. induction s as [|a s IH]; simpl in *; [done|].
  apply andb_true_iff in Hs as [Ha Hs]. rewrite IH by done.
  destruct (Ascii.eqb_spec a c); [congruence | done].
Qed.

Lemma contains_all_chars (P : ascii -> bool) (c : ascii) (s : string) :
  Spec.all_chars P s = true → P c = false → PyStr.contains c s = false.
Proof.
  intros Hs Hc. induction s as [|a s IH]; simpl in *; [done|].
  apply andb_true_iff in Hs as [Ha Hs]. rewrite IH by done.
  destruct (Ascii.eqb_spec a c); [congruence | done].
Qed.

Lemma rstrip_no_space (s : string) :
  Spec.all_chars (fun c => negb (PyStr.isspace c)) s = true →
  PyStr.rstrip s = s.
Proof.
  induction s as [|a s IH]; simpl; [done|].
  intros [Ha Hs]%andb_true_iff. rewrite IH by done.
  destruct s; [|done]. by destruct (PyStr.isspace a).
Qed.

Lemma strip_no_space (s : string) :
  Spec.all_chars (fun c => negb (PyStr.isspace c)) s = true →
  PyStr.strip s = s.
Proof.
  intros Hs. unfold PyStr.strip.
  replace (PyStr.lstrip s) with s; [by apply rstrip_no_space|].
  destruct s as [|a s]; simpl in *; [done|].
  apply andb_true_iff in Hs as [Ha _]. by destruct (PyStr.isspace a).
Qed.

Lemma string_of_uint_digits (d : Decimal.uint) :
  Spec.all_chars PyStr.isdigit (NilEmpty.string_of_uint d) = true.
Proof. induction d; simpl; done. Qed.

Lemma digits_str_digits (z : Z) :
  Spec.all_chars PyStr.isdigit (PyStr.digits_str z) = true.
Proof.
  unfold PyStr.digits_str, NilZero.string_of_uint.
  destruct (N.to_uint (Z.to_N z)); try done; apply string_of_uint_digits.
Qed.

Lemma zeros_digits (n : nat) :
  Spec.all_chars PyStr.isdigit (PyStr.zeros n) = true.
Proof. induction n; simpl; done. Qed.

Lemma take_all_chars (P : ascii -> bool) (n : nat) (s : string) :
  Spec.all_chars P s = true → Spec.all_chars P (PyStr.take n s) = true.
Proof.
  revert s. induction n as [|n IH]; intros [|a s]; simpl; try done.
  intros [Ha Hs]%andb_true_iff. rewrite Ha. by apply IH.
Qed.

Lemma drop_all_chars (P : ascii -> bool) (n : nat) (s : string) :
  Spec.all_chars P s = true → Spec.all_chars P (PyStr.drop n s) = true.
Proof.
  revert s. induction n as [|n IH]; intros [|a s]; simpl; try done.
  intros [Ha Hs]%andb_true_iff. by apply IH.
Qed.

Lemma format_exponent_chars (e : Z) :
  Spec.all_chars Spec.repr_char (PyStr.format_exponent e) = true
  ∧ PyStr.count "." (PyStr.format_exponent e) = 0.
Proof.
  unfold PyStr.format_exponent.
  pose proof (digits_str_digits (Z.abs e)) as Hd.
  assert (Spec.all_chars Spec.repr_char (PyStr.digits_str (Z.abs e)) = true) as Hr.
  { eapply all_chars_weaken; [|exact Hd]. intros c Hc.
    unfold Spec.repr_char. by rewrite Hc. }
  assert (PyStr.count "." (PyStr.digits_str (Z.abs e)) = 0) as Hc
    by (by apply (count_all_chars PyStr.isdigit)).
  destruct (e <? 0), (Z.abs e <? 10); simpl; rewrite ?Hr, ?Hc; done.
Qed.

Lemma digits_repr_chars (s : string) :
  Spec.all_chars PyStr.isdigit s = true →
  Spec.all_chars Spec.repr_char s = true.
Proof.
  apply all_chars_weaken. intros c Hc. unfold Spec.repr_char. by rewrite Hc.
Qed.

(** A rendered digit string has the rendering's characters only and at
    most one dot. *)
Lemma format_short_chars (ds : string) (decpt : Z) :
  Spec.all_chars PyStr.isdigit ds = true →
  Spec.all_chars Spec.repr_char (PyStr.format_short ds decpt) = true
  ∧ PyStr.count "." (PyStr.format_short ds decpt) <= 1.
Proof.
  intros Hds. unfold PyStr.format_short.
  pose proof (digits_repr_chars _ Hds) as Hr.
  assert (PyStr.count "." ds = 0) as Hc
    by (by apply (count_all_chars PyStr.isdigit)).
  destruct (format_exponent_chars (decpt - 1)) as [He1 He2].
  destruct ((decpt <=? -4) || (16 <? decpt)).
  - destruct ds as [|d [|d' rest]]; [done| |].
    + simpl in *. apply andb_true_iff in Hr as [-> _].
      rewrite He1, He2. by destruct (Ascii.eqb d ".").
    + cbn [Spec.all_chars PyStr.count] in *.
      apply andb_true_iff in Hr as [Hd Hr]. rewrite Hd. simpl.
      change (String d' (rest ++ PyStr.format_exponent (decpt - 1))%string)
        with (String d' rest ++ PyStr.format_exponent (decpt - 1))%string.
      rewrite all_chars_app, count_app, He1, He2.
      apply andb_true_iff in Hr as [Hd' Hr]. rewrite Hd', Hr.
      split; [done|]. pose proof (count_nonneg "." rest).
      destruct (Ascii.eqb d "."), (Ascii.eqb d' "."); lia.
  - destruct (decpt <=? 0).
    + rewrite !all_chars_app, !count_app, Hr, Hc.
      rewrite (digits_repr_chars _ (zeros_digits _)).
      rewrite (count_all_chars _ _ _ (zeros_digits _)) by done. done.
    + destruct (PyStr.len ds <=? decpt).
      * rewrite !all_chars_app, !count_app, Hr, Hc.
        rewrite (digits_repr_chars _ (zeros_digits _)).
        rewrite (count_all_chars _ _ _ (zeros_digits _)) by done. done.
      * rewrite !all_chars_app, !count_app.
        rewrite (digits_repr_chars _ (take_all_chars _ _ _ Hds)).
        rewrite (digits_repr_chars _ (drop_all_chars _ _ _ Hds)).
        rewrite (count_all_chars _ _ _ (take_all_chars _ _ _ Hds)) by done.
        rewrite (count_all_chars _ _ _ (drop_all_chars _ _ _ Hds)) by done.
        done.
Qed.

Lemma shortest_digits_digits (m : positive) (e : Z) :
  Spec.all_chars PyStr.isdigit (PyStr.shortest_digits m e).1 = true.
Proof.
  unfold PyStr.shortest_digits.
  destruct (if 0 <=? e then _ else _) as [num den].
  destruct (PyStr.shortest _ _ _ _ _ _) as [c q].
  destruct (PyStr.strip_zeros _ _ _) as [c' q']. simpl.
  apply digits_str_digits.
Qed.

Lemma float_repr_chars (x : float) :
  Spec.all_chars Spec.repr_char (PyStr.float_repr x) = true
  ∧ PyStr.count "." (PyStr.float_repr x) <= 1.
Proof.
  destruct x as [s|s| |s m e]; simpl; [by destruct s..|done|].
  pose proof (shortest_digits_digits m e) as Hd.
  destruct (PyStr.shortest_digits m e) as [ds decpt]. simpl in Hd.
  destruct (format_short_chars ds decpt Hd) as [H1 H2].
  rewrite all_chars_app, count_app, H1. by destruct s.
Qed.

(** A token without comma, with at most one dot and at most three
    characters after it, goes to [float] as it is. *)
Lemma disambiguate_plain (s : string) :
  PyStr.contains "," s = false → PyStr.count "." s <= 1 →
  PyStr.len (Spec.after_dot s) <= 3 →
  Main.disambiguate s = s.
Proof.
  intros Hc H1 H3. unfold Main.disambiguate. rewrite Hc. simpl.
  destruct (PyStr.contains "." s) eqn:Hp; simpl; [|done].
  pose proof (count_nonneg "." s).
  destruct (Z.ltb_spec 1 (PyStr.count "." s)); [lia|].
  assert (PyStr.count "." s = 1) as H1'.
  { destruct (Z.eq_dec (PyStr.count "." s) 0) as [Hz|]; [|lia].
    rewrite contains_last_index, (last_index_count_0 _ _ Hz) in Hp. done. }
  destruct (last_index_single_dot s H1') as [Hl _].
  rewrite rfind_last_index, Hl. simpl.
  destruct (0 <? _); [|done].
  destruct (Z.ltb_spec 3
    (PyStr.len s - (PyStr.len s - PyStr.len (Spec.after_dot s) - 1) - 1));
    [lia | done].
Qed.

Lemma convert_value (s : string) (v : float) :
  Main.convert s false = Ret (Some (NFloat v)) →
  PyFloat.ltb v PyFloat.zero = false.
Proof.
  unfold Main.convert. destruct (PyStr.to_float s) as [x|]; simpl; [|done].
  destruct (PyFloat.ltb x PyFloat.zero) eqn:Hx; [done|]. by intros [= <-].
Qed.

(** C7, as the code has it.  [parse_number] is a function of its input,
    and the rendering [str(v)] of a value it returned for a string, which
    [float] reads back as [v], is normalized to [v] again when at most
    three characters follow its decimal point. *)
Theorem C7_rendering_with_short_fraction_is_stable (x : string) (v : float) :
  Main.parse_number (PStr x) false = Ret (Some (NFloat v)) →
  PyStr.to_float (PyStr.float_repr v) = Ret v →
  PyStr.len (Spec.after_dot (PyStr.float_repr v)) <= 3 →
  Main.parse_number (PStr (PyStr.float_repr v)) false
  = Ret (Some (NFloat v)).
Proof.
  intros Hx Hback Hfrac.
  assert (PyFloat.ltb v PyFloat.zero = false) as Hneg.
  { unfold Main.parse_number in Hx; cbn [str] in Hx. destruct (_ || _); [done|].
    destruct (Main.convert _ false) as [[[]|]|] eqn:Hc; simpl in Hx; try done.
    injection Hx as ->. by eapply convert_value. }
  destruct (float_repr_chars v) as [Hchars Hdots].
  unfold Main.parse_number; cbn [str].
  rewrite strip_no_space.
  2:{ eapply all_chars_weaken; [|exact Hchars]. intros c.
      unfold Spec.repr_char, PyStr.isdigit, PyStr.isspace.
      intros [Hc|Hc]%orb_true_iff; [lia|].
      simpl in Hc. repeat (apply orb_true_iff in Hc as [Hc|Hc]);
        try apply Ascii.eqb_eq in Hc as ->; done. }
  destruct (String.eqb_spec (PyStr.float_repr v) "") as [He|_];
    [by rewrite He in Hback|].
  destruct (String.eqb_spec (PyStr.float_repr v) "-") as [He|_];
    [by rewrite He in Hback|].
  simpl. rewrite disambiguate_plain; [| |done..].
  2:{ by apply (contains_all_chars Spec.repr_char). }
  unfold Main.convert. rewrite Hback. simpl. by rewrite Hneg.
Qed.

Lemma C7_witness :
  Main.parse_number (PStr (PyStr.float_repr (PyFloat.round_Z 20390))) false
  = Ret (Some (NFloat (PyFloat.round_Z 20390)))
  ∧ PyStr.float_repr (PyFloat.round_Z 20390) = "20390.0"%string.
Proof.
  split.
  - apply (C7_rendering_with_short_fraction_is_stable "20,390.00").
    + vm_compute. reflexivity.
    + vm_compute. reflexivity.
    + vm_compute. discriminate.
  - vm_compute. reflexivity.
Defined.

(** ["625e-4"] is normalized to 0.0625, rendered ["0.0625"]; four digits
    follow the dot, so normalizing the rendering gives 625.0. *)
Lemma C7_counterexample :
  Main.parse_number (PStr "625e-4") false
  = Ret (Some (NFloat (PyFloat.of_decimal false 625 (-4))))
  ∧ PyStr.float_repr (PyFloat.of_decimal false 625 (-4)) = "0.0625"%string
  ∧ Main.parse_number (PStr "0.0625") false
    = Ret (Some (NFloat (PyFloat.round_Z 625)))
  ∧ PyFloat.eqb (PyFloat.round_Z 625) (PyFloat.of_decimal false 625 (-4))
    = false.
Proof. repeat split; vm_compute; reflexivity. Qed.

(** ** The reconciliation loop *)

Lemma foldl_step (t : Z) (df : Main.DataFrame) (em : gmap Main.date Main.campos)
    (rows : list (Main.date * list pyval)) (recs : list Main.registro) (sk : Z) :
  foldl (Main.step t df em) (recs, sk) rows
  = (recs ++ Spec.escritos t df em rows, sk + Spec.saltados t df em rows).
Proof.
  revert recs sk. induction rows as [|fr rows IH]; intros recs sk; simpl.
  - by rewrite app_nil_r, Z.add_0_r.
  - unfold Spec.escritos. simpl.
    destruct (Main.decide_row t df em fr.1 fr.2); rewrite IH; f_equal;
      rewrite <- ?app_assoc; simpl; done || lia.
Qed.

Lemma foldl_max_spec (l : list Z) (d : Z) :
  foldl Z.max d l ∈ d :: l ∧ ∀ x, x ∈ d :: l → x <= foldl Z.max d l.
Proof.
  revert d. induction l as [|a l IH]; intros d; simpl.
  - split; [by left|]. intros x ->%list_elem_of_singleton. lia.
  - destruct (IH (Z.max d a)) as [Hin Hle]. split.
    + apply elem_of_cons in Hin as [Hin|Hin]; [|by do 2 right].
      rewrite Hin. destruct (Z.max_spec d a) as [[_ ->]|[_ ->]];
        [right; left | left].
    + intros x Hx. pose proof (Hle (Z.max d a) (ltac:(left))) as Hm.
      apply elem_of_cons in Hx as [->|Hx]; [lia|].
      apply elem_of_cons in Hx as [->|Hx]; [lia|].
      apply Hle. by right.
Qed.

Lemma maximum_spec (l : list Z) :
  match Main.maximum l with
  | Some m => m ∈ l ∧ ∀ x, x ∈ l → x <= m
  | None => l = []
  end.
Proof. destruct l as [|d l]; simpl; [done|]. apply foldl_max_spec. Qed.

Lemma elem_of_fechas_of (rs : list (Main.date * list pyval)) (d : Main.date) :
  d ∈ Main.fechas_of rs ↔ d ∈ fst <$> rs.
Proof.
  unfold Main.fechas_of. rewrite merge_sort_Permutation.
  apply elem_of_remove_dups.
Qed.

(** The most recent date is the greatest date among the dated rows. *)
Lemma maximum_fechas_of (rs : list (Main.date * list pyval)) :
  rs ≠ [] →
  ∃ m, Main.maximum (Main.fechas_of rs) = Some m
       ∧ m ∈ fst <$> rs ∧ ∀ d, d ∈ fst <$> rs → d <= m.
Proof.
  intros Hne. pose proof (maximum_spec (Main.fechas_of rs)) as Hm.
  destruct (Main.maximum (Main.fechas_of rs)) as [m|].
  - exists m. destruct Hm as [Hin Hle]. split; [done|].
    split; [by apply elem_of_fechas_of|].
    intros d Hd. by apply Hle, elem_of_fechas_of.
  - destruct rs as [|fr rs]; [done|].
    assert (fr.1 ∈ Main.fechas_of (fr :: rs)) as Hin
      by (apply elem_of_fechas_of; simpl; left).
    rewrite Hm in Hin. by apply elem_of_nil in Hin.
Qed.

(** The dict built from the rows read back maps a date asked for to its
    stored row. *)
Lemma dict_of_lookup_aux (t : Z) (db : Main.historicos)
    (fechas : list Main.date) (m : gmap Main.date Main.campos) (d : Main.date) :
  foldl (fun m row => <[row.1 := row.2]> m) m (Main.select_existing t db fechas)
    !! d
  = match (if decide (d ∈ fechas) then db !! (t, d) else None) with
    | Some c => Some c
    | None => m !! d
    end.
Proof.
  revert m. induction fechas as [|f fechas IH]; intros m; simpl; [done|].
  destruct (decide (d = f)) as [->|Hne].
  - rewrite (decide_True (P := f ∈ f :: fechas)) by (by left).
    destruct (db !! (t, f)) as [c|] eqn:Hf; simpl; rewrite IH;
      destruct (decide (f ∈ fechas)); by rewrite ?lookup_insert_eq.
  - assert (m !! d = (if db !! (t, f) is Some c then <[f:=c]> m else m) !! d)
      as Hm.
    { destruct (db !! (t, f)); [by rewrite lookup_insert_ne|done]. }
    destruct (decide (d ∈ fechas)) as [Hin|Hnin].
    + rewrite (decide_True (P := d ∈ f :: fechas)) by (by right).
      destruct (db !! (t, f)); simpl; rewrite IH; try rewrite <- Hm; done.
    + rewrite (decide_False (P := d ∈ f :: fechas))
        by (by intros [?|?]%elem_of_cons).
      destruct (db !! (t, f)); simpl; rewrite IH; try rewrite <- Hm; done.
Qed.

Lemma dict_of_lookup (t : Z) (db : Main.historicos)
    (fechas : list Main.date) (d : Main.date) :
  d ∈ fechas →
  Main.dict_of (Main.select_existing t db fechas) !! d = db !! (t, d).
Proof.
  intros Hd. unfold Main.dict_of. rewrite dict_of_lookup_aux.
  rewrite decide_True by done. by destruct (db !! (t, d)).
Qed.

Lemma empty_false (df : Main.DataFrame) :
  Main.columns df ≠ [] → Main.rows df ≠ [] → Main.empty df = false.
Proof. unfold Main.empty. by destruct (Main.columns df), (Main.rows df). Qed.

Lemma dated_rows_nonempty (to_datetime : list pyval -> list (option Main.date))
    (df : Main.DataFrame) (fc : string) :
  Main.col df "fecha" = Some fc → Main.dated_rows to_datetime df fc ≠ [] →
  Main.empty df = false.
Proof.
  intros Hc Hr. apply empty_false.
  - unfold Main.col in Hc. by destruct (Main.columns df).
  - unfold Main.dated_rows in Hr. destruct (Main.rows df); [|done].
    by destruct (to_datetime _) in Hr.
Qed.

(** The plan of [reconcile] once the table has dated rows. *)
Lemma reconcile_dated (to_datetime : list pyval -> list (option Main.date))
    (t : Z) (db : Main.historicos) (df : Main.DataFrame) (fc : string) :
  Main.col df "fecha" = Some fc →
  Main.dated_rows to_datetime df fc ≠ [] →
  ∃ m, Main.maximum (Main.fechas_of (Main.dated_rows to_datetime df fc)) = Some m
     ∧ Main.reconcile to_datetime t db (Some df)
       = let rows := Main.dated_rows to_datetime df fc in
         let em := Main.dict_of
                     (Main.select_existing t db (Main.fechas_of rows)) in
         {| Main.records_to_write := Spec.escritos t df em rows;
            Main.skipped := Spec.saltados t df em rows;
            Main.fecha_mas_reciente := Some m |}.
Proof.
  intros Hc Hr. destruct (maximum_fechas_of _ Hr) as (m & Hm & _).
  exists m. split; [done|]. unfold Main.reconcile.
  rewrite (dated_rows_nonempty _ _ _ Hc Hr), Hc.
  destruct (Main.dated_rows to_datetime df fc) as [|fr rows] eqn:Hrows; [done|].
  rewrite Hm, foldl_step. simpl. done.
Qed.

Lemma reconcile_undated (to_datetime : list pyval -> list (option Main.date))
    (t : Z) (db : Main.historicos) (df : Main.DataFrame) :
  match Main.col df "fecha" with
  | Some fc => Main.dated_rows to_datetime df fc = []
  | None => True
  end →
  Main.reconcile to_datetime t db (Some df) = Main.nothing.
Proof.
  intros H. unfold Main.reconcile. destruct (Main.empty df); [done|].
  destruct (Main.col df "fecha") as [fc|]; [|done]. by rewrite H.
Qed.

Lemma escritos_close (t : Z) (df : Main.DataFrame)
    (em : gmap Main.date Main.campos) (rows : list (Main.date * list pyval)) :
  Forall (fun r => Spec.close_too_low (Main.r_campos r) = false)
         (Spec.escritos t df em rows).
Proof.
  apply Forall_forall. intros r (fr & _ & Hr)%list_elem_of_omap.
  unfold Main.decide_row in Hr.
  destruct (Main.parse_row df fr.2) as [nuevo|]; [|done].
  fold (Spec.close_too_low nuevo) in Hr.
  destruct (Spec.close_too_low nuevo) eqn:Hlow; [done|].
  destruct (em !! fr.1); [destruct (Main.difiere _ _)|];
    simplify_eq; done.
Qed.

Lemma reconcile_cases (to_datetime : list pyval -> list (option Main.date))
    (t : Z) (db : Main.historicos) (hdf : option Main.DataFrame) :
  Main.reconcile to_datetime t db hdf = Main.nothing
  ∨ ∃ df fc m,
      hdf = Some df ∧ Main.col df "fecha" = Some fc
      ∧ Main.dated_rows to_datetime df fc ≠ []
      ∧ Main.maximum (Main.fechas_of (Main.dated_rows to_datetime df fc))
        = Some m
      ∧ Main.reconcile to_datetime t db hdf
        = let rows := Main.dated_rows to_datetime df fc in
          let em := Main.dict_of
                      (Main.select_existing t db (Main.fechas_of rows)) in
          {| Main.records_to_write := Spec.escritos t df em rows;
             Main.skipped := Spec.saltados t df em rows;
             Main.fecha_mas_reciente := Some m |}.
Proof.
  destruct hdf as [df|]; [|by left].
  destruct (Main.col df "fecha") as [fc|] eqn:Hc.
  - destruct (decide (Main.dated_rows to_datetime df fc = [])) as [Hr|Hr].
    + left. apply reconcile_undated. by rewrite Hc.
    + right. destruct (reconcile_dated to_datetime t db df fc Hc Hr)
        as (m & Hm & Heq).
      by exists df, fc, m.
  - left. apply reconcile_undated. by rewrite Hc.
Qed.

(** C9. A row whose parsed close is present and below 0.01 is dropped by
    the loop body: nothing is appended and the skip count stays; no record
    of the write-set has such a close. *)
Theorem C9_low_close_is_discarded
    (to_datetime : list pyval -> list (option Main.date)) (t : Z)
    (db : Main.historicos) (hdf : option Main.DataFrame)
    (df : Main.DataFrame) (em : gmap Main.date Main.campos)
    (fecha : Main.date) (row : list pyval) (nuevo : Main.campos)
    (st : list Main.registro * Z) :
  Main.parse_row df row = Ret nuevo →
  Spec.close_too_low nuevo = true →
  Main.decide_row t df em fecha row = Main.Descartar
  ∧ Main.step t df em st (fecha, row) = st
  ∧ Forall (fun r => Spec.close_too_low (Main.r_campos r) = false)
      (Main.records_to_write (Main.reconcile to_datetime t db hdf)).
Proof.
  intros Hp Hlow.
  assert (Main.decide_row t df em fecha row = Main.Descartar) as Hd.
  { unfold Main.decide_row. rewrite Hp.
    fold (Spec.close_too_low nuevo). by rewrite Hlow. }
  split; [done|]. split.
  - destruct st as [recs sk]. unfold Main.step. simpl. by rewrite Hd.
  - destruct (reconcile_cases to_datetime t db hdf)
      as [->|(df' & fc & m & _ & _ & _ & _ & ->)]; simpl.
    + constructor.
    + apply escritos_close.
Qed.

Lemma C9_witness :
  Main.decide_row 7 Sample.low_close Sample.stored_map 738887
    (Sample.fila "738887" "0.002" "0.003" "0.001" "0.001" "100")
  = Main.Descartar
  ∧ Main.reconcile Sample.to_datetime 7 Sample.stored (Some Sample.low_close)
    = {| Main.records_to_write := []; Main.skipped := 0;
         Main.fecha_mas_reciente := Some 738887 |}.
Proof.
  split.
  - eapply (C9_low_close_is_discarded Sample.to_datetime 7 Sample.stored None
              Sample.low_close Sample.stored_map 738887 _ _ ([], 0)).
    + vm_compute. reflexivity.
    + vm_compute. reflexivity.
  - vm_compute. reflexivity.
Defined.

Lemma upsert_nothing (to_datetime : list pyval -> list (option Main.date))
    (t : Z) (db : Main.historicos) (ticker : string)
    (hdf : option Main.DataFrame) :
  Main.reconcile to_datetime t db hdf = Main.nothing →
  Main.upsert_historico_selectivo to_datetime t db ticker hdf
  = Ret (0, 0, None, db).
Proof. intros H. unfold Main.upsert_historico_selectivo. by rewrite H. Qed.

(** C8, as the code has it.  Without a date column, or when no row has a
    date that parses, the function returns [(0, 0, None)] and leaves the
    table alone.  Otherwise the third component is the greatest date among
    the rows whose date parsed, whatever became of those rows (written,
    skipped, or dropped for a close below 0.01), unless the write itself
    raises. *)
Theorem C8_most_recent_date
    (to_datetime : list pyval -> list (option Main.date)) (t : Z)
    (db : Main.historicos) (ticker : string) (df : Main.DataFrame) :
  (Main.col df "fecha" = None →
   Main.upsert_historico_selectivo to_datetime t db ticker (Some df)
   = Ret (0, 0, None, db))
  ∧ (∀ fc, Main.col df "fecha" = Some fc →
           Main.dated_rows to_datetime df fc = [] →
           Main.upsert_historico_selectivo to_datetime t db ticker (Some df)
           = Ret (0, 0, None, db))
  ∧ (∀ fc, Main.col df "fecha" = Some fc →
           Main.dated_rows to_datetime df fc ≠ [] →
           ∃ m, m ∈ (Main.dated_rows to_datetime df fc).*1
              ∧ (∀ d, d ∈ (Main.dated_rows to_datetime df fc).*1 → d <= m)
              ∧ Main.fecha_mas_reciente
                  (Main.reconcile to_datetime t db (Some df)) = Some m
              ∧ match Main.upsert_historico_selectivo to_datetime t db ticker
                        (Some df) with
                | Ret (_, _, f, _) => f = Some m
                | Raise _ =>
                    ∃ e, Main.execute_values db
                           (Main.records_to_write
                              (Main.reconcile to_datetime t db (Some df)))
                         = Raise e
                end).
Proof.
  split; [|split].
  - intros Hc. apply upsert_nothing, reconcile_undated. by rewrite Hc.
  - intros fc Hc Hr. apply upsert_nothing, reconcile_undated. by rewrite Hc.
  - intros fc Hc Hr.
    destruct (maximum_fechas_of _ Hr) as (m & Hm & Hin & Hle).
    destruct (reconcile_dated to_datetime t db df fc Hc Hr) as (m' & Hm' & Heq).
    rewrite Hm in Hm'. injection Hm' as <-.
    exists m. split; [done|]. split; [done|].
    split; [by rewrite Heq|].
    unfold Main.upsert_historico_selectivo. rewrite Heq. simpl.
    destruct (Spec.escritos _ _ _ _) as [|r recs]; [done|].
    destruct (Main.execute_values db (r :: recs)) as [db'|e]; simpl; [done|].
    by exists e.
Qed.

Lemma C8_witness :
  Main.upsert_historico_selectivo Sample.to_datetime 7 ∅ "GGAL"
    (Some {| Main.columns := ["Apertura"; "Cierre"]%string;
             Main.rows := [[PStr "10"; PStr "11"]] |})
  = Ret (0, 0, None, ∅)
  ∧ ∃ m, m ∈ (Main.dated_rows Sample.to_datetime Sample.candidate "Fecha").*1
       ∧ (∀ d, d ∈ (Main.dated_rows Sample.to_datetime Sample.candidate
                      "Fecha").*1 → d <= m)
       ∧ Main.fecha_mas_reciente
           (Main.reconcile Sample.to_datetime 7 Sample.stored
              (Some Sample.candidate)) = Some m
       ∧ match Main.upsert_historico_selectivo Sample.to_datetime 7
                 Sample.stored "GGAL" (Some Sample.candidate) with
         | Ret (_, _, f, _) => f = Some m
         | Raise _ =>
             ∃ e, Main.execute_values Sample.stored
                    (Main.records_to_write
                       (Main.reconcile Sample.to_datetime 7 Sample.stored
                          (Some Sample.candidate)))
                  = Raise e
         end.
Proof.
  split.
  - apply (proj1 (C8_most_recent_date Sample.to_datetime 7 ∅ "GGAL" _)).
    reflexivity.
  - apply (proj2 (proj2 (C8_most_recent_date Sample.to_datetime 7
                           Sample.stored "GGAL" Sample.candidate))
             "Fecha"%string).
    + reflexivity.
    + vm_compute. discriminate.
Defined.

(** A table whose only row has a close of 0.001: every row is dropped, the
    filtered candidate set is empty, and the date of the dropped row is
    still returned as the most recent one. *)
Lemma C8_counterexample :
  Spec.valid_rows Sample.to_datetime Sample.low_close = []
  ∧ Main.upsert_historico_selectivo Sample.to_datetime 7 ∅ "GGAL"
      (Some Sample.low_close)
    = Ret (0, 0, Some 738887, ∅).
Proof. split; vm_compute; reflexivity. Qed.

(** ** The fields of a parsed row *)

Lemma diff_volumes (a b : option Z) :
  Main.diff (NInt <$> a) (NInt <$> b) = Spec.differ_exact a b.
Proof. by destruct a, b. Qed.

Lemma convert_price (s : string) (r : option num) :
  try_except (Main.convert s false) (fun _ => Ret None) = Ret r →
  ∃ o : option float, r = NFloat <$> o.
Proof.
  unfold Main.convert. destruct (PyStr.to_float s) as [x|]; simpl.
  - destruct (PyFloat.ltb x PyFloat.zero); simpl; intros [= <-];
      [by exists None | by exists (Some x)].
  - intros [= <-]. by exists None.
Qed.

Lemma convert_volume (s : string) (r : option num) :
  try_except (Main.convert s true) (fun _ => Ret None) = Ret r →
  ∃ o : option Z, r = NInt <$> o.
Proof.
  unfold Main.convert. destruct (PyStr.to_float s) as [x|]; simpl.
  - destruct (PyFloat.ltb x PyFloat.zero); simpl;
      [intros [= <-]; by exists None|].
    destruct (PyFloat.to_int x) as [z|]; simpl; intros [= <-];
      [by exists (Some z) | by exists None].
  - intros [= <-]. by exists None.
Qed.

Lemma parse_number_price (v : pyval) (r : option num) :
  Main.parse_number v false = Ret r → ∃ o : option float, r = NFloat <$> o.
Proof.
  destruct v as [|z|x|s|d]; unfold Main.parse_number.
  - intros [= <-]. by exists None.
  - destruct (PyFloat.of_int z) as [x|]; simpl; [|done].
    intros [= <-]. by exists (Some x).
  - intros [= <-]. by exists (Some x).
  - destruct (_ || _); [intros [= <-]; by exists None|].
    apply convert_price.
  - destruct (_ || _); [intros [= <-]; by exists None|].
    apply convert_price.
Qed.

Lemma parse_number_volume (v : pyval) (r : option num) :
  Main.parse_number v true = Ret r → ∃ o : option Z, r = NInt <$> o.
Proof.
  destruct v as [|z|x|s|d]; unfold Main.parse_number.
  - intros [= <-]. by exists None.
  - intros [= <-]. by exists (Some z).
  - destruct (PyFloat.to_int x) as [z|]; simpl; [|done].
    intros [= <-]. by exists (Some z).
  - destruct (_ || _); [intros [= <-]; by exists None|].
    apply convert_volume.
  - destruct (_ || _); [intros [= <-]; by exists None|].
    apply convert_volume.
Qed.

Lemma campo_price (cols : list string) (row : list pyval) (c : option string)
    (r : option num) :
  Main.campo cols row c false = Ret r → ∃ o : option float, r = NFloat <$> o.
Proof.
  unfold Main.campo. destruct c as [c|]; [|intros [= <-]; by exists None].
  destruct (Main.repeated cols c); [intros [= <-]; by exists None|].
  destruct (Main.celda cols row c) eqn:Hv;
    [intros [= <-]; by exists None | apply parse_number_price..].
Qed.

Lemma campo_volume (cols : list string) (row : list pyval) (c : option string)
    (r : option num) :
  Main.campo cols row c true = Ret r → ∃ o : option Z, r = NInt <$> o.
Proof.
  unfold Main.campo. destruct c as [c|]; [|intros [= <-]; by exists None].
  destruct (Main.repeated cols c); [intros [= <-]; by exists None|].
  destruct (Main.celda cols row c) eqn:Hv;
    [intros [= <-]; by exists None | apply parse_number_volume..].
Qed.

Lemma parse_row_bar (df : Main.DataFrame) (row : list pyval)
    (nuevo : Main.campos) :
  Main.parse_row df row = Ret nuevo → ∃ bar, nuevo = Spec.campos_of bar.
Proof.
  unfold Main.parse_row.
  destruct (Main.campo _ row (Main.col df "apertura") false) as [a|] eqn:Ha;
    simpl; [|done].
  destruct (Main.campo _ row (Main.col df "maximo") false) as [ma|] eqn:Hma;
    simpl; [|done].
  destruct (Main.campo _ row (Main.col df "minimo") false) as [mi|] eqn:Hmi;
    simpl; [|done].
  destruct (Main.campo _ row (Main.col df "cierre") false) as [c|] eqn:Hc;
    simpl; [|done].
  destruct (Main.campo _ row _ true) as [v|] eqn:Hv; simpl; [|done].
  intros [= <-].
  apply campo_price in Ha as [a' ->], Hma as [ma' ->], Hmi as [mi' ->],
    Hc as [c' ->].
  apply campo_volume in Hv as [v' ->].
  by exists {| Spec.b_open := a'; Spec.b_high := ma'; Spec.b_low := mi';
               Spec.b_close := c'; Spec.b_volume := v' |}.
Qed.

(** ** Floats: equality *)

Lemma eqb_refl (x : float) : PyFloat.is_nan x = false → PyFloat.eqb x x = true.
Proof.
  destruct x as [s|s| |s m e]; simpl; try done.
  - intros _. unfold PyFloat.eqb, SFeqb. simpl. by destruct s.
  - intros _. unfold PyFloat.eqb, SFeqb. simpl.
    rewrite Z.compare_refl, Pos.compare_cont_refl. by destruct s.
Qed.

Lemma eqb_sym (x y : float) : PyFloat.eqb y x = true → PyFloat.eqb x y = true.
Proof.
  unfold PyFloat.eqb, SFeqb.
  destruct x as [s|s| |s m e], y as [s'|s'| |s' m' e']; simpl; try done;
    try (by destruct s, s').
  rewrite (Z.compare_antisym e' e).
  pose proof (Pos.compare_cont_antisym m' m Eq) as Hm. simpl in Hm.
  rewrite <- Hm.
  destruct s, s'; try done; destruct (e' ?= e) eqn:He; simpl; try done;
    by destruct (Pos.compare_cont Eq m' m).
Qed.

Lemma diff_self (a : option num) :
  Spec.is_nan_field a = false → Main.diff a a = false.
Proof.
  destruct a as [[z|x]|]; simpl; [| |done].
  - intros _. by rewrite Z.eqb_refl.
  - intros Hx. unfold PyFloat.isclose. by rewrite eqb_refl.
Qed.

Lemma sin_nan_fields (c : Main.campos) :
  Spec.sin_nan c = true →
  Spec.is_nan_field (Main.apertura c) = false
  ∧ Spec.is_nan_field (Main.maximo c) = false
  ∧ Spec.is_nan_field (Main.minimo c) = false
  ∧ Spec.is_nan_field (Main.cierre c) = false
  ∧ Spec.is_nan_field (Main.volumen c) = false.
Proof.
  unfold Spec.sin_nan. intros H%negb_true_iff.
  repeat (apply orb_false_iff in H as [H ?]). done.
Qed.

Lemma difiere_self (c : Main.campos) :
  Spec.sin_nan c = true → Main.difiere c c = false.
Proof.
  intros (H1 & H2 & H3 & H4 & H5)%sin_nan_fields.
  unfold Main.difiere. by rewrite !diff_self.
Qed.

Lemma diff_price_not_distinct (a b : option float) :
  Spec.is_nan_field (NFloat <$> a) = false →
  Main.is_distinct_from (NFloat <$> b) (NFloat <$> a) = false →
  Main.diff (NFloat <$> a) (NFloat <$> b) = false.
Proof.
  destruct a as [x|], b as [y|]; simpl; try done.
  intros Hx [Hn|He]%negb_false_iff%orb_true_iff.
  - apply andb_true_iff in Hn as [_ Hn]. congruence.
  - unfold PyFloat.isclose. by rewrite (eqb_sym _ _ He).
Qed.

Lemma diff_volume_not_distinct (a b : option Z) :
  Main.is_distinct_from (NInt <$> b) (NInt <$> a) = false →
  Main.diff (NInt <$> a) (NInt <$> b) = false.
Proof.
  destruct a as [x|], b as [y|]; simpl; try done.
  rewrite !negb_involutive. intros ->%negb_false_iff%Z.eqb_eq.
  by rewrite Z.eqb_refl.
Qed.

(** A stored Bar that the statement found not distinct from the proposed
    row does not differ from it for the loop either. *)
Lemma difiere_not_distinct (n e : Spec.Bar) :
  Spec.sin_nan (Spec.campos_of n) = true →
  Main.distinct (Spec.campos_of e) (Spec.campos_of n) = false →
  Main.difiere (Spec.campos_of n) (Spec.campos_of e) = false.
Proof.
  intros (H1 & H2 & H3 & H4 & H5)%sin_nan_fields Hd.
  unfold Main.distinct in Hd. simpl in *.
  repeat (apply orb_false_iff in Hd as [Hd ?]).
  unfold Main.difiere. simpl.
  rewrite !diff_price_not_distinct, diff_volume_not_distinct by done. done.
Qed.

(** ** The write *)

Lemma run_pages_spec (recs : list Main.registro) :
  ∀ (db : Main.historicos) (touched : gset (Z * Main.date)) (k : nat),
    NoDup (Spec.key <$> recs) →
    (∀ r, r ∈ recs → Spec.key r ∉ touched) →
    ∃ db',
      Main.run_pages db touched k recs = Ret db'
      ∧ (∀ κ, κ ∉ Spec.key <$> recs → db' !! κ = db !! κ)
      ∧ (∀ r, r ∈ recs →
           ∃ c, db' !! Spec.key r = Some c
                ∧ (c = Main.r_campos r
                   ∨ (db !! Spec.key r = Some c
                      ∧ Main.distinct c (Main.r_campos r) = false))).
Proof.
  induction recs as [|r recs IH]; intros db touched k Hnd Htouched.
  { exists db. split; [done|]. split; [done|].
    intros r Hr. by apply elem_of_nil in Hr. }
  rewrite fmap_cons in Hnd. apply NoDup_cons in Hnd as [Hr Hnd].
  assert (∀ r', r' ∈ recs → Spec.key r' ≠ Spec.key r) as Hneq.
  { intros r' Hr' Heq. apply Hr. rewrite <- Heq. by apply list_elem_of_fmap_2. }
  assert (∀ (db1 : Main.historicos) (T : gset (Z * Main.date)) (k1 : nat),
            (∀ r', r' ∈ recs → Spec.key r' ∉ T) →
            db1 !! Spec.key r = Some (Main.r_campos r)
            ∨ (db1 = db ∧ ∃ c, db !! Spec.key r = Some c
                               ∧ Main.distinct c (Main.r_campos r) = false) →
            (∀ κ, κ ≠ Spec.key r → db1 !! κ = db !! κ) →
            ∃ db',
              Main.run_pages db1 T k1 recs = Ret db'
              ∧ (∀ κ, κ ∉ Spec.key <$> r :: recs → db' !! κ = db !! κ)
              ∧ (∀ r0, r0 ∈ r :: recs →
                   ∃ c, db' !! Spec.key r0 = Some c
                        ∧ (c = Main.r_campos r0
                           ∨ (db !! Spec.key r0 = Some c
                              ∧ Main.distinct c (Main.r_campos r0) = false))))
    as Hrest.
  { intros db1 T k1 HT Hhead Hframe.
    destruct (IH db1 T k1 Hnd HT) as (db' & Hrun & Hother & Hrecs).
    exists db'. split; [done|]. split.
    - intros κ Hκ. rewrite fmap_cons in Hκ.
      apply not_elem_of_cons in Hκ as [Hκ1 Hκ2].
      rewrite Hother by done. by apply Hframe.
    - intros r0 [->|Hr0]%elem_of_cons.
      + rewrite (Hother (Spec.key r)) by done.
        destruct Hhead as [Hh|[-> (c & Hc & Hd)]].
        * exists (Main.r_campos r). split; [done | by left].
        * exists c. split; [done | by right].
      + destruct (Hrecs r0 Hr0) as (c & Hc & Hor). exists c. split; [done|].
        destruct Hor as [->|[Hdb1 Hdist]]; [by left | right].
        split; [|done]. rewrite <- Hframe; [done | by apply Hneq]. }
  cbn [Main.run_pages].
  assert (∃ T k1, (if Nat.eqb k Main.page_size then (∅, O) else (touched, k))
                  = (T, k1)
                  ∧ ∀ r', r' ∈ r :: recs → Spec.key r' ∉ T) as (T & k1 & -> & HT).
  { destruct (Nat.eqb k Main.page_size); eexists _, _; (split; [done|]);
      [set_solver | done]. }
  change (Main.r_ticker_id r, Main.r_fecha r) with (Spec.key r).
  rewrite decide_False by (apply HT; left).
  assert (∀ r', r' ∈ recs → Spec.key r' ∉ ({[Spec.key r]} ∪ T : gset _))
    as HT'.
  { intros r' Hr'. apply not_elem_of_union. split.
    - apply not_elem_of_singleton. by apply Hneq.
    - apply HT. by right. }
  destruct (db !! Spec.key r) as [stored|] eqn:Hdb.
  - destruct (Main.distinct stored (Main.r_campos r)) eqn:Hdist.
    + apply Hrest; [done | left; apply lookup_insert_eq |].
      intros κ Hκ. by rewrite lookup_insert_ne.
    + apply Hrest; [intros r' Hr'; apply HT; by right | | done].
      right. split; [done|]. by exists stored.
  - apply Hrest; [done | left; apply lookup_insert_eq |].
    intros κ Hκ. by rewrite lookup_insert_ne.
Qed.

Lemma execute_values_spec (db : Main.historicos) (recs : list Main.registro) :
  NoDup (Spec.key <$> recs) →
  ∃ db',
    Main.execute_values db recs = Ret db'
    ∧ (∀ κ, κ ∉ Spec.key <$> recs → db' !! κ = db !! κ)
    ∧ (∀ r, r ∈ recs →
         ∃ c, db' !! Spec.key r = Some c
              ∧ (c = Main.r_campos r
                 ∨ (db !! Spec.key r = Some c
                    ∧ Main.distinct c (Main.r_campos r) = false))).
Proof.
  intros Hnd. apply run_pages_spec; [done|]. intros r _. set_solver.
Qed.

(** ** Two passes *)

Lemma survives_parsed (df : Main.DataFrame) (fr : Main.date * list pyval) :
  Spec.survives df fr = true →
  ∃ nuevo, Main.parse_row df fr.2 = Ret nuevo
           ∧ Spec.close_too_low nuevo = false.
Proof.
  unfold Spec.survives. destruct (Main.parse_row df fr.2) as [nuevo|]; [|done].
  intros H%negb_true_iff. by exists nuevo.
Qed.

Lemma decide_row_survivor (t : Z) (df : Main.DataFrame)
    (em : gmap Main.date Main.campos) (fecha : Main.date) (row : list pyval)
    (nuevo : Main.campos) :
  Main.parse_row df row = Ret nuevo → Spec.close_too_low nuevo = false →
  Main.decide_row t df em fecha row
  = let r := {| Main.r_ticker_id := t; Main.r_fecha := fecha;
                Main.r_campos := nuevo |} in
    match em !! fecha with
    | None => Main.Escribir r
    | Some existing_row =>
        if Main.difiere nuevo existing_row then Main.Escribir r
        else Main.Saltar
    end.
Proof.
  intros Hp Hlow. unfold Main.decide_row. rewrite Hp.
  fold (Spec.close_too_low nuevo). by rewrite Hlow.
Qed.

Lemma decide_row_dropped (t : Z) (df : Main.DataFrame)
    (em : gmap Main.date Main.campos) (fr : Main.date * list pyval) :
  Spec.survives df fr = false →
  Main.decide_row t df em fr.1 fr.2 = Main.Descartar.
Proof.
  unfold Spec.survives, Main.decide_row.
  destruct (Main.parse_row df fr.2) as [nuevo|]; [|done].
  fold (Spec.close_too_low nuevo). intros H%negb_false_iff. by rewrite H.
Qed.

Lemma decide_row_escribir (t : Z) (df : Main.DataFrame)
    (em : gmap Main.date Main.campos) (fr : Main.date * list pyval)
    (r : Main.registro) :
  Main.decide_row t df em fr.1 fr.2 = Main.Escribir r →
  Spec.survives df fr = true ∧ Spec.key r = (t, fr.1)
  ∧ Main.parse_row df fr.2 = Ret (Main.r_campos r).
Proof.
  destruct (Spec.survives df fr) eqn:Hs.
  - destruct (survives_parsed _ _ Hs) as (nuevo & Hp & Hlow).
    rewrite (decide_row_survivor _ _ _ _ _ _ Hp Hlow). simpl.
    destruct (em !! fr.1); [destruct (Main.difiere _ _)|];
      intros ?; simplify_eq; done.
  - by rewrite decide_row_dropped.
Qed.

Lemma escritos_sublist (t : Z) (df : Main.DataFrame)
    (em : gmap Main.date Main.campos) (rows : list (Main.date * list pyval)) :
  Spec.key <$> Spec.escritos t df em rows
  `sublist_of` (fun fr => (t, fr.1)) <$> List.filter (Spec.survives df) rows.
Proof.
  induction rows as [|fr rows IH]; simpl; [constructor|].
  unfold Spec.escritos. simpl.
  destruct (Main.decide_row t df em fr.1 fr.2) as [|r|] eqn:Hd.
  - destruct (Spec.survives df fr); [by apply sublist_cons | done].
  - destruct (decide_row_escribir _ _ _ _ _ Hd) as (-> & Hk & _).
    rewrite !fmap_cons, Hk. by apply sublist_skip.
  - destruct (Spec.survives df fr); [by apply sublist_cons | done].
Qed.

Lemma NoDup_keys (t : Z) (rows : list (Main.date * list pyval)) :
  NoDup rows.*1 → NoDup ((fun fr => (t, fr.1)) <$> rows).
Proof.
  induction rows as [|fr rows IH]; simpl; [constructor|].
  rewrite !NoDup_cons. intros [Hfr Hnd]. split; [|by apply IH].
  intros (fr' & [= Heq] & Hin)%list_elem_of_fmap.
  apply Hfr. rewrite Heq. by apply list_elem_of_fmap_2.
Qed.

Lemma NoDup_fmap_eq {A B : Type} (f : A → B) (l : list A) (x y : A) :
  NoDup (f <$> l) → x ∈ l → y ∈ l → f x = f y → x = y.
Proof.
  induction l as [|a l IH]; simpl; [by intros _ ?%elem_of_nil|].
  rewrite NoDup_cons. intros [Ha Hnd] Hx Hy Hxy.
  apply elem_of_cons in Hx as [->|Hx], Hy as [->|Hy]; [done| | |by apply IH].
  - exfalso. apply Ha. rewrite Hxy. by apply list_elem_of_fmap_2.
  - exfalso. apply Ha. rewrite <- Hxy. by apply list_elem_of_fmap_2.
Qed.

Lemma remove_dups_NoDup (l : list Z) : NoDup l → remove_dups l = l.
Proof.
  induction l as [|a l IH]; simpl; [done|].
  rewrite NoDup_cons. intros [Ha Hnd].
  destruct (decide_rel elem_of a l); [done|]. by rewrite IH.
Qed.

Lemma elem_of_filter_survives (df : Main.DataFrame)
    (rows : list (Main.date * list pyval)) (fr : Main.date * list pyval) :
  fr ∈ List.filter (Spec.survives df) rows
  ↔ fr ∈ rows ∧ Spec.survives df fr = true.
Proof. rewrite !list_elem_of_In. apply filter_In. Qed.

Lemma escritos_cons (t : Z) (df : Main.DataFrame)
    (em : gmap Main.date Main.campos) (fr : Main.date * list pyval)
    (rows : list (Main.date * list pyval)) :
  Spec.escritos t df em (fr :: rows)
  = match Main.decide_row t df em fr.1 fr.2 with
    | Main.Escribir r => r :: Spec.escritos t df em rows
    | _ => Spec.escritos t df em rows
    end.
Proof.
  unfold Spec.escritos. simpl. by destruct (Main.decide_row t df em fr.1 fr.2).
Qed.

(** A pass in which every valid row finds itself in storage writes nothing
    and skips each of them. *)
Lemma pass_all_skipped (t : Z) (df : Main.DataFrame)
    (em : gmap Main.date Main.campos) (rows : list (Main.date * list pyval)) :
  (∀ fr, fr ∈ rows → Spec.survives df fr = true →
         Main.decide_row t df em fr.1 fr.2 = Main.Saltar) →
  Spec.escritos t df em rows = []
  ∧ Spec.saltados t df em rows
    = Z.of_nat (length (List.filter (Spec.survives df) rows)).
Proof.
  induction rows as [|fr rows IH]; intros Hall; [done|].
  destruct IH as [IH1 IH2]; [intros fr' Hfr'; apply Hall; by right|].
  rewrite escritos_cons. simpl.
  destruct (Spec.survives df fr) eqn:Hs.
  - rewrite (Hall fr) by (done || by left). rewrite IH1, IH2.
    split; [done|]. simpl. lia.
  - rewrite decide_row_dropped by done. by rewrite IH1, IH2.
Qed.

(** C5, as the code has it.  When storage holds Bars, the valid rows of the
    CandidateSet have pairwise distinct dates and none of their parsed
    values is a NaN, the write of the first pass succeeds, and a second
    pass over the table it leaves writes nothing and skips as many rows as
    there are distinct valid dates. *)
Theorem C5_second_pass_writes_nothing
    (to_datetime : list pyval -> list (option Main.date)) (t : Z)
    (db : Main.historicos) (ticker : string) (df : Main.DataFrame) :
  (∀ d c, db !! (t, d) = Some c → ∃ bar, c = Spec.campos_of bar) →
  NoDup (Spec.valid_rows to_datetime df).*1 →
  (∀ fr nuevo, fr ∈ Spec.valid_rows to_datetime df →
               Main.parse_row df fr.2 = Ret nuevo →
               Spec.sin_nan nuevo = true) →
  ∃ n sk f db1,
    Main.upsert_historico_selectivo to_datetime t db ticker (Some df)
    = Ret (n, sk, f, db1)
    ∧ Main.records_to_write (Main.reconcile to_datetime t db1 (Some df)) = []
    ∧ Main.upsert_historico_selectivo to_datetime t db1 ticker (Some df)
      = Ret (0,
             Z.of_nat (length (remove_dups (Spec.valid_rows to_datetime df).*1)),
             f, db1).
Proof.
  intros Htyped Hnd Hnan. unfold Spec.valid_rows in *.
  destruct (Main.col df "fecha") as [fc|] eqn:Hc.
  2:{ exists 0, 0, None, db.
      assert (∀ db', Main.reconcile to_datetime t db' (Some df) = Main.nothing)
        as Hn by (intros db'; apply reconcile_undated; by rewrite Hc).
      rewrite Hn. by rewrite !upsert_nothing by apply Hn. }
  destruct (decide (Main.dated_rows to_datetime df fc = [])) as [Hr|Hr].
  { exists 0, 0, None, db.
    assert (∀ db', Main.reconcile to_datetime t db' (Some df) = Main.nothing)
      as Hn by (intros db'; apply reconcile_undated; by rewrite Hc).
    rewrite Hn, Hr. by rewrite !upsert_nothing by apply Hn. }
  destruct (reconcile_dated to_datetime t db df fc Hc Hr) as (m & Hm & Heq1).
  cbv zeta in Heq1.
  set (rows := Main.dated_rows to_datetime df fc) in *.
  set (em1 := Main.dict_of (Main.select_existing t db (Main.fechas_of rows)))
    in *.
  set (W := Spec.escritos t df em1 rows) in *.
  assert (NoDup (Spec.key <$> W)) as HW.
  { eapply sublist_NoDup; [apply (NoDup_keys t), Hnd | apply escritos_sublist]. }
  destruct (execute_values_spec db W HW) as (db1 & Hexec & Hother & Hrecs).
  assert (Main.upsert_historico_selectivo to_datetime t db ticker (Some df)
          = Ret (Z.of_nat (length W), Spec.saltados t df em1 rows, Some m, db1))
    as Hup1.
  { unfold Main.upsert_historico_selectivo. rewrite Heq1.
    cbn [Main.records_to_write Main.skipped Main.fecha_mas_reciente].
    destruct W as [|r recs] eqn:HeqW.
    - simpl in Hexec. by injection Hexec as <-.
    - by rewrite Hexec. }
  exists (Z.of_nat (length W)), (Spec.saltados t df em1 rows), (Some m), db1.
  split; [done|].
  destruct (reconcile_dated to_datetime t db1 df fc Hc Hr) as (m' & Hm' & Heq2).
  cbv zeta in Heq2. fold rows in Hm', Heq2.
  rewrite Hm in Hm'. injection Hm' as <-.
  set (em2 := Main.dict_of (Main.select_existing t db1 (Main.fechas_of rows)))
    in *.
  assert (∀ fr, fr ∈ rows → Spec.survives df fr = true →
                Main.decide_row t df em2 fr.1 fr.2 = Main.Saltar) as Hall.
  { intros fr Hfr Hs.
    destruct (survives_parsed _ _ Hs) as (nuevo & Hp & Hlow).
    assert (fr.1 ∈ Main.fechas_of rows) as Hfecha
      by (apply elem_of_fechas_of; by apply list_elem_of_fmap_2).
    assert (fr ∈ List.filter (Spec.survives df) rows) as HfrV
      by (by apply elem_of_filter_survives).
    pose proof (Hnan fr nuevo HfrV Hp) as Hnn.
    rewrite (decide_row_survivor _ _ _ _ _ _ Hp Hlow). simpl.
    unfold em2. rewrite dict_of_lookup by done.
    assert (∃ c, db1 !! (t, fr.1) = Some c ∧ Main.difiere nuevo c = false)
      as (c & -> & ->); [|done].
    destruct (Main.decide_row t df em1 fr.1 fr.2) as [|r|] eqn:Hd1.
    - rewrite (decide_row_survivor _ _ _ _ _ _ Hp Hlow) in Hd1. simpl in Hd1.
      by destruct (em1 !! fr.1); [destruct (Main.difiere _ _)|].
    - assert (r ∈ W) as HrW.
      { apply list_elem_of_omap. exists fr. split; [done|]. by rewrite Hd1. }
      destruct (decide_row_escribir _ _ _ _ _ Hd1) as (_ & Hk & Hpr).
      rewrite Hp in Hpr. injection Hpr as Hpr.
      destruct (Hrecs r HrW) as (c & Hc1 & Hor). rewrite Hk in Hc1, Hor.
      exists c. split; [done|]. rewrite <- Hpr in Hor.
      destruct Hor as [->|[Hdbc Hdist]]; [by apply difiere_self|].
      destruct (Htyped _ _ Hdbc) as [e ->].
      destruct (parse_row_bar _ _ _ Hp) as [n ->].
      by apply difiere_not_distinct.
    - rewrite (decide_row_survivor _ _ _ _ _ _ Hp Hlow) in Hd1. simpl in Hd1.
      unfold em1 in Hd1. rewrite dict_of_lookup in Hd1 by done.
      destruct (db !! (t, fr.1)) as [ex|] eqn:Hex; [|done].
      destruct (Main.difiere nuevo ex) eqn:Hdif; [done|].
      exists ex. split; [|done]. rewrite Hother; [done|].
      intros (r & Hk & HrW)%list_elem_of_fmap.
      apply list_elem_of_omap in HrW as (fr' & Hfr' & Hd').
      destruct (Main.decide_row t df em1 fr'.1 fr'.2) as [|r'|] eqn:Hd1';
        [done| |done].
      injection Hd' as ->.
      destruct (decide_row_escribir _ _ _ _ _ Hd1') as (Hs' & Hk' & _).
      rewrite Hk' in Hk. injection Hk as Hk.
      assert (fr = fr') as <-.
      { apply (NoDup_fmap_eq fst (List.filter (Spec.survives df) rows));
          [done | done | by apply elem_of_filter_survives | done]. }
      rewrite (decide_row_survivor _ _ _ _ _ _ Hp Hlow) in Hd1'.
      simpl in Hd1'. unfold em1 in Hd1'.
      rewrite dict_of_lookup, Hex, Hdif in Hd1' by done. done. }
  destruct (pass_all_skipped t df em2 rows Hall) as [He Hs].
  split; [by rewrite Heq2|].
  unfold Main.upsert_historico_selectivo. rewrite Heq2.
  cbn [Main.records_to_write Main.skipped Main.fecha_mas_reciente].
  rewrite He, Hs, remove_dups_NoDup, length_fmap by done. done.
Qed.

Lemma C5_witness :
  ∃ n sk f db1,
    Main.upsert_historico_selectivo Sample.to_datetime 7 Sample.stored "GGAL"
      (Some Sample.candidate)
    = Ret (n, sk, f, db1)
    ∧ Main.records_to_write
        (Main.reconcile Sample.to_datetime 7 db1 (Some Sample.candidate)) = []
    ∧ Main.upsert_historico_selectivo Sample.to_datetime 7 db1 "GGAL"
        (Some Sample.candidate)
      = Ret (0,
             Z.of_nat (length (remove_dups
               (Spec.valid_rows Sample.to_datetime Sample.candidate).*1)),
             f, db1).
Proof.
  apply (C5_second_pass_writes_nothing Sample.to_datetime 7 Sample.stored
           "GGAL" Sample.candidate).
  - intros d c Hd. unfold Sample.stored in Hd.
    apply lookup_singleton_Some in Hd as [_ <-].
    exists {| Spec.b_open := Some (PyFloat.round_Z 10);
              Spec.b_high := Some (PyFloat.round_Z 11);
              Spec.b_low := Some (PyFloat.round_Z 9);
              Spec.b_close := Some (PyFloat.of_decimal false 105 (-1));
              Spec.b_volume := Some 100 |}.
    vm_compute. reflexivity.
  - assert (Spec.valid_rows Sample.to_datetime Sample.candidate
            = [(738887, PDate 738887 :: tail (Sample.fila "" "10" "11" "9" "10.5" "100"));
               (738888, PDate 738888 :: tail (Sample.fila "" "11" "12" "10" "11.5" "200"))])
      as -> by (vm_compute; reflexivity).
    apply NoDup_cons. split; [|apply NoDup_singleton].
    by intros ?%list_elem_of_singleton.
  - intros fr nuevo Hfr Hp.
    assert (Spec.valid_rows Sample.to_datetime Sample.candidate
            = [(738887, PDate 738887 :: tail (Sample.fila "" "10" "11" "9" "10.5" "100"));
               (738888, PDate 738888 :: tail (Sample.fila "" "11" "12" "10" "11.5" "200"))])
      as Hv by (vm_compute; reflexivity).
    rewrite Hv in Hfr.
    apply elem_of_cons in Hfr as [->|Hfr];
      [|apply list_elem_of_singleton in Hfr as ->];
      vm_compute in Hp; injection Hp as <-; vm_compute; reflexivity.
Defined.

(** Two passes that do not settle.  The stored day fetched twice is skipped
    twice on every pass, one distinct date; a close that reads [nan] is
    written by the first pass and written again by the second. *)
Lemma C5_counterexample :
  (Main.upsert_historico_selectivo Sample.to_datetime 7 Sample.stored "GGAL"
     (Some Sample.repeated)
   = Ret (0, 2, Some 738887, Sample.stored)
   ∧ length (remove_dups
       (Spec.valid_rows Sample.to_datetime Sample.repeated).*1) = 1%nat)
  ∧ ∃ db1,
      Main.upsert_historico_selectivo Sample.to_datetime 7 ∅ "GGAL"
        (Some Sample.nan_close)
      = Ret (1, 0, Some 738887, db1)
      ∧ Main.upsert_historico_selectivo Sample.to_datetime 7 db1 "GGAL"
          (Some Sample.nan_close)
        = Ret (1, 0, Some 738887, db1).
Proof.
  split; [split; vm_compute; reflexivity|].
  exists {[ (7, 738887) :=
              {| Main.apertura := Sample.flt "10";
                 Main.maximo := Sample.flt "11";
                 Main.minimo := Sample.flt "9";
                 Main.cierre := Some (NFloat PyFloat.nan);
                 Main.volumen := Some (NInt 100) |} ]}.
  split; vm_compute; reflexivity.
Qed.


(** * Further properties of the code *)

(** ** The loop accounts for every row *)

Lemma escritos_saltados_count (t : Z) (df : Main.DataFrame)
    (em : gmap Main.date Main.campos) (rows : list (Main.date * list pyval)) :
  Z.of_nat (length (Spec.escritos t df em rows)) + Spec.saltados t df em rows
  = Z.of_nat (length (List.filter (Spec.survives df) rows)).
Proof.
  induction rows as [|fr rows IH]; [done|].
  rewrite escritos_cons. cbn [Spec.saltados List.filter].
  destruct (Spec.survives df fr) eqn:Hs.
  - destruct (survives_parsed _ _ Hs) as (nuevo & Hp & Hlow).
    rewrite (decide_row_survivor _ _ _ _ _ _ Hp Hlow). simpl.
    destruct (em !! fr.1); [destruct (Main.difiere _ _)|]; simpl in *; lia.
  - rewrite decide_row_dropped by done. lia.
Qed.

Lemma valid_rows_undated (to_datetime : list pyval -> list (option Main.date))
    (df : Main.DataFrame) :
  match Main.col df "fecha" with
  | Some fc => Main.dated_rows to_datetime df fc = []
  | None => True
  end →
  Spec.valid_rows to_datetime df = [].
Proof.
  unfold Spec.valid_rows. destruct (Main.col df "fecha"); [|done].
  by intros ->.
Qed.

(** The plan of [reconcile] in terms of the valid rows, in every case. *)
Lemma reconcile_plan (to_datetime : list pyval -> list (option Main.date))
    (t : Z) (db : Main.historicos) (df : Main.DataFrame) :
  (Main.reconcile to_datetime t db (Some df) = Main.nothing
   ∧ Spec.valid_rows to_datetime df = [])
  ∨ ∃ fc m,
      Main.col df "fecha" = Some fc
      ∧ Main.dated_rows to_datetime df fc ≠ []
      ∧ (∀ d, d ∈ (Main.dated_rows to_datetime df fc).*1 → d <= m)
      ∧ Spec.valid_rows to_datetime df
        = List.filter (Spec.survives df) (Main.dated_rows to_datetime df fc)
      ∧ Main.reconcile to_datetime t db (Some df)
        = {| Main.records_to_write :=
               Spec.escritos t df
                 (Main.dict_of
                    (Main.select_existing t db
                       (Main.fechas_of (Main.dated_rows to_datetime df fc))))
                 (Main.dated_rows to_datetime df fc);
             Main.skipped :=
               Spec.saltados t df
                 (Main.dict_of
                    (Main.select_existing t db
                       (Main.fechas_of (Main.dated_rows to_datetime df fc))))
                 (Main.dated_rows to_datetime df fc);
             Main.fecha_mas_reciente := Some m |}.
Proof.
  destruct (Main.col df "fecha") as [fc|] eqn:Hc.
  - destruct (decide (Main.dated_rows to_datetime df fc = [])) as [Hr|Hr].
    + left. split; [apply reconcile_undated | apply valid_rows_undated];
        by rewrite Hc.
    + right. destruct (maximum_fechas_of _ Hr) as (m & Hm & _ & Hle).
      destruct (reconcile_dated to_datetime t db df fc Hc Hr)
        as (m' & Hm' & Heq).
      rewrite Hm in Hm'. injection Hm' as <-.
      exists fc, m. repeat split; try done.
      unfold Spec.valid_rows. by rewrite Hc.
  - left. split; [apply reconcile_undated | apply valid_rows_undated];
      by rewrite Hc.
Qed.

(** X1. Every valid row is either written or skipped, and nothing else is:
    the size of the write-set plus the skip count is the number of valid
    rows, and a call that returns reports exactly these two numbers, the
    length of the write-set and the skip count. *)
Theorem X1_written_plus_skipped_is_valid_rows
    (to_datetime : list pyval -> list (option Main.date)) (t : Z)
    (db : Main.historicos) (ticker : string) (df : Main.DataFrame) :
  Z.of_nat (length (Main.records_to_write
                      (Main.reconcile to_datetime t db (Some df))))
  + Main.skipped (Main.reconcile to_datetime t db (Some df))
  = Z.of_nat (length (Spec.valid_rows to_datetime df))
  ∧ match Main.upsert_historico_selectivo to_datetime t db ticker (Some df) with
    | Ret (n, sk, _, _) =>
        n = Z.of_nat (length (Main.records_to_write
                                (Main.reconcile to_datetime t db (Some df))))
        ∧ sk = Main.skipped (Main.reconcile to_datetime t db (Some df))
        ∧ n + sk = Z.of_nat (length (Spec.valid_rows to_datetime df))
    | Raise _ => True
    end.
Proof.
  assert (Z.of_nat (length (Main.records_to_write
                              (Main.reconcile to_datetime t db (Some df))))
          + Main.skipped (Main.reconcile to_datetime t db (Some df))
          = Z.of_nat (length (Spec.valid_rows to_datetime df))) as Hplan.
  { destruct (reconcile_plan to_datetime t db df)
      as [[-> ->]|(fc & m & _ & _ & _ & -> & ->)]; [done|].
    apply escritos_saltados_count. }
  split; [done|]. unfold Main.upsert_historico_selectivo.
  destruct (Main.records_to_write _) as [|r recs] eqn:Hrecs; [done|].
  destruct (Main.execute_values db (r :: recs)); simpl; done.
Qed.

(** ** The write-set *)

Lemma write_set_keys (to_datetime : list pyval -> list (option Main.date))
    (t : Z) (db : Main.historicos) (df : Main.DataFrame) :
  Spec.key <$> Main.records_to_write (Main.reconcile to_datetime t db (Some df))
  `sublist_of` (fun fr => (t, fr.1)) <$> Spec.valid_rows to_datetime df.
Proof.
  destruct (reconcile_plan to_datetime t db df)
    as [[-> ->]|(fc & m & _ & _ & _ & -> & ->)]; simpl.
  - constructor.
  - apply escritos_sublist.
Qed.

(** X2. The write-set holds records of this ticker only, for dates of valid
    rows, in the order of the rows; and no record is dated after the most
    recent date the call reports. *)
Theorem X2_write_set_follows_valid_rows
    (to_datetime : list pyval -> list (option Main.date)) (t : Z)
    (db : Main.historicos) (df : Main.DataFrame) :
  Spec.key <$> Main.records_to_write (Main.reconcile to_datetime t db (Some df))
  `sublist_of` (fun fr => (t, fr.1)) <$> Spec.valid_rows to_datetime df
  ∧ Forall (fun r =>
              Main.r_ticker_id r = t
              ∧ ∃ m, Main.fecha_mas_reciente
                       (Main.reconcile to_datetime t db (Some df)) = Some m
                     ∧ Main.r_fecha r <= m)
      (Main.records_to_write (Main.reconcile to_datetime t db (Some df))).
Proof.
  destruct (reconcile_plan to_datetime t db df)
    as [[-> ->]|(fc & m & _ & _ & Hle & -> & ->)]; simpl.
  - split; constructor.
  - split; [apply escritos_sublist|].
    apply Forall_forall. intros r (fr & Hfr & Hr)%list_elem_of_omap.
    destruct (Main.decide_row t df _ fr.1 fr.2) as [|r'|] eqn:Hd; [done| |done].
    injection Hr as ->.
    destruct (decide_row_escribir _ _ _ _ _ Hd) as (_ & [= Ht Hf] & _).
    split; [done|]. exists m. split; [done|]. rewrite Hf.
    apply Hle. by apply list_elem_of_fmap_2.
Qed.

(** ** What the write leaves alone *)

Lemma run_pages_frame (recs : list Main.registro) :
  ∀ (db db' : Main.historicos) (touched : gset (Z * Main.date)) (k : nat),
    Main.run_pages db touched k recs = Ret db' →
    (∀ κ, κ ∉ Spec.key <$> recs → db' !! κ = db !! κ)
    ∧ (∀ κ, is_Some (db !! κ) → is_Some (db' !! κ)).
Proof.
  induction recs as [|r recs IH]; intros db db' touched k.
  { simpl. by intros [= <-]. }
  cbn [Main.run_pages].
  destruct (if Nat.eqb k Main.page_size then _ else _) as [T k1].
  change (Main.r_ticker_id r, Main.r_fecha r) with (Spec.key r).
  destruct (decide (Spec.key r ∈ T)); [done|].
  assert (∀ c k2 T2,
            Main.run_pages (<[Spec.key r := c]> db) T2 k2 recs = Ret db' →
            (∀ κ, κ ∉ Spec.key <$> r :: recs → db' !! κ = db !! κ)
            ∧ (∀ κ, is_Some (db !! κ) → is_Some (db' !! κ))) as Hins.
  { intros c k2 T2 Hrun. destruct (IH _ _ _ _ Hrun) as [Hf Hk]. split.
    - intros κ Hκ. rewrite fmap_cons in Hκ.
      apply not_elem_of_cons in Hκ as [Hκ1 Hκ2].
      rewrite Hf by done. by rewrite lookup_insert_ne.
    - intros κ Hκ. apply Hk.
      destruct (decide (Spec.key r = κ)) as [->|Hne].
      + rewrite lookup_insert_eq. by eexists.
      + by rewrite lookup_insert_ne. }
  destruct (db !! Spec.key r) as [stored|] eqn:Hdb.
  - destruct (Main.distinct stored (Main.r_campos r)); [by apply Hins|].
    intros Hrun. destruct (IH _ _ _ _ Hrun) as [Hf Hk]. split; [|done].
    intros κ Hκ. rewrite fmap_cons in Hκ.
    apply not_elem_of_cons in Hκ as [_ Hκ]. by apply Hf.
  - by apply Hins.
Qed.

Lemma upsert_returns (to_datetime : list pyval -> list (option Main.date))
    (t : Z) (db db' : Main.historicos) (ticker : string)
    (hdf : option Main.DataFrame) (n sk : Z) (f : option Main.date) :
  Main.upsert_historico_selectivo to_datetime t db ticker hdf
  = Ret (n, sk, f, db') →
  f = Main.fecha_mas_reciente (Main.reconcile to_datetime t db hdf)
  ∧ sk = Main.skipped (Main.reconcile to_datetime t db hdf)
  ∧ n = Z.of_nat (length (Main.records_to_write
                            (Main.reconcile to_datetime t db hdf)))
  ∧ Main.execute_values db
      (Main.records_to_write (Main.reconcile to_datetime t db hdf)) = Ret db'.
Proof.
  unfold Main.upsert_historico_selectivo.
  destruct (Main.records_to_write _) as [|r recs] eqn:Hrecs.
  - by intros [= <- <- <- <-].
  - destruct (Main.execute_values db (r :: recs)) as [db1|] eqn:He;
      simpl; [|done].
    by intros [= <- <- <- <-].
Qed.

(** X3. A call that returns has changed no stored row outside the keys
    [(ticker_id, fecha)] of the valid rows: rows of other tickers, and rows
    of this ticker for other dates, are as before. *)
Theorem X3_other_rows_untouched
    (to_datetime : list pyval -> list (option Main.date)) (t : Z)
    (db db' : Main.historicos) (ticker : string) (df : Main.DataFrame)
    (n sk : Z) (f : option Main.date) :
  Main.upsert_historico_selectivo to_datetime t db ticker (Some df)
  = Ret (n, sk, f, db') →
  (∀ t' d, t' ≠ t → db' !! (t', d) = db !! (t', d))
  ∧ (∀ d, d ∉ (Spec.valid_rows to_datetime df).*1 →
          db' !! (t, d) = db !! (t, d)).
Proof.
  intros (_ & _ & _ & Hexec)%upsert_returns.
  destruct (run_pages_frame _ _ _ _ _ Hexec) as [Hframe _].
  pose proof (write_set_keys to_datetime t db df) as Hsub.
  assert (∀ κ, κ ∉ (fun fr => (t, fr.1)) <$> Spec.valid_rows to_datetime df →
               db' !! κ = db !! κ) as Hout.
  { intros κ Hκ. apply Hframe. intros Hin. apply Hκ.
    by eapply elem_of_sublist. }
  split.
  - intros t' d Hne. apply Hout.
    intros (fr & [= Ht _] & _)%list_elem_of_fmap. done.
  - intros d Hd. apply Hout.
    intros (fr & [= Hf] & Hin)%list_elem_of_fmap. apply Hd.
    rewrite Hf. by apply list_elem_of_fmap_2.
Qed.

Lemma X3_witness :
  ∃ db' : Main.historicos,
    Main.upsert_historico_selectivo Sample.to_datetime 7 Sample.stored "GGAL"
      (Some Sample.candidate)
    = Ret (1, 1, Some 738888, db')
    ∧ (∀ t' d, t' ≠ 7 → db' !! (t', d) = Sample.stored !! (t', d))
    ∧ (∀ d, d ∉ (Spec.valid_rows Sample.to_datetime Sample.candidate).*1 →
            db' !! (7, d) = Sample.stored !! (7, d)).
Proof.
  assert (∃ db' : Main.historicos,
            Main.upsert_historico_selectivo Sample.to_datetime 7 Sample.stored
              "GGAL" (Some Sample.candidate)
            = Ret (1, 1, Some 738888, db')) as [db' Hcall].
  { eexists. vm_compute. reflexivity. }
  exists db'. split; [exact Hcall|].
  exact (X3_other_rows_untouched Sample.to_datetime 7 Sample.stored db' "GGAL"
           Sample.candidate 1 1 (Some 738888) Hcall).
Defined.

(** X4. The write never removes a row: every key stored before a call that
    returns is stored after it. *)
Theorem X4_no_stored_row_is_removed
    (to_datetime : list pyval -> list (option Main.date)) (t : Z)
    (db db' : Main.historicos) (ticker : string)
    (hdf : option Main.DataFrame) (n sk : Z) (f : option Main.date) :
  Main.upsert_historico_selectivo to_datetime t db ticker hdf
  = Ret (n, sk, f, db') →
  ∀ κ, is_Some (db !! κ) → is_Some (db' !! κ).
Proof.
  intros (_ & _ & _ & Hexec)%upsert_returns.
  by destruct (run_pages_frame _ _ _ _ _ Hexec) as [_ Hkeep].
Qed.

Lemma X4_witness :
  ∃ db' : Main.historicos,
    Main.upsert_historico_selectivo Sample.to_datetime 7 Sample.stored "GGAL"
      (Some Sample.candidate)
    = Ret (1, 1, Some 738888, db')
    ∧ ∀ κ, is_Some (Sample.stored !! κ) → is_Some (db' !! κ).
Proof.
  assert (∃ db' : Main.historicos,
            Main.upsert_historico_selectivo Sample.to_datetime 7 Sample.stored
              "GGAL" (Some Sample.candidate)
            = Ret (1, 1, Some 738888, db')) as [db' Hcall].
  { eexists. vm_compute. reflexivity. }
  exists db'. split; [exact Hcall|].
  exact (X4_no_stored_row_is_removed Sample.to_datetime 7 Sample.stored db'
           "GGAL" (Some Sample.candidate) 1 1 (Some 738888) Hcall).
Defined.

(** ** What is stored afterwards *)

Lemma run_pages_stored (recs : list Main.registro) :
  ∀ (db db' : Main.historicos) (touched : gset (Z * Main.date)) (k : nat),
    Main.run_pages db touched k recs = Ret db' →
    ∀ r, r ∈ recs → is_Some (db' !! Spec.key r).
Proof.
  induction recs as [|r recs IH]; intros db db' touched k Hrun r0 Hr0.
  { by apply elem_of_nil in Hr0. }
  cbn [Main.run_pages] in Hrun.
  destruct (if Nat.eqb k Main.page_size then _ else _) as [T k1].
  change (Main.r_ticker_id r, Main.r_fecha r) with (Spec.key r) in Hrun.
  destruct (decide (Spec.key r ∈ T)); [done|].
  assert (∀ c k2 T2,
            Main.run_pages (<[Spec.key r := c]> db) T2 k2 recs = Ret db' →
            is_Some (db' !! Spec.key r0)) as Hins.
  { intros c k2 T2 Hrun'. apply elem_of_cons in Hr0 as [->|Hr0].
    - destruct (run_pages_frame _ _ _ _ _ Hrun') as [_ Hkeep].
      apply Hkeep. rewrite lookup_insert_eq. by eexists.
    - by eapply IH. }
  destruct (db !! Spec.key r) as [stored|] eqn:Hdb.
  - destruct (Main.distinct stored (Main.r_campos r)); [by eapply Hins|].
    apply elem_of_cons in Hr0 as [->|Hr0].
    + destruct (run_pages_frame _ _ _ _ _ Hrun) as [_ Hkeep].
      apply Hkeep. by eexists.
    + by eapply IH.
  - by eapply Hins.
Qed.

(** What the loop does with a valid row: it is in the write-set unless a
    stored row for its date does not differ from it. *)
Lemma survivor_fate (t : Z) (df : Main.DataFrame)
    (em : gmap Main.date Main.campos) (rows : list (Main.date * list pyval))
    (fr : Main.date * list pyval) (nuevo : Main.campos) :
  fr ∈ rows → Main.parse_row df fr.2 = Ret nuevo →
  Spec.close_too_low nuevo = false →
  match em !! fr.1 with
  | Some old =>
      if Main.difiere nuevo old
      then {| Main.r_ticker_id := t; Main.r_fecha := fr.1;
              Main.r_campos := nuevo |} ∈ Spec.escritos t df em rows
      else Main.decide_row t df em fr.1 fr.2 = Main.Saltar
  | None =>
      {| Main.r_ticker_id := t; Main.r_fecha := fr.1;
         Main.r_campos := nuevo |} ∈ Spec.escritos t df em rows
  end.
Proof.
  intros Hin Hp Hlow.
  pose proof (decide_row_survivor t df em fr.1 fr.2 nuevo Hp Hlow) as Hd.
  cbv zeta in Hd.
  assert (∀ r, Main.decide_row t df em fr.1 fr.2 = Main.Escribir r →
               r ∈ Spec.escritos t df em rows) as Hw.
  { intros r Hr. apply list_elem_of_omap. exists fr. split; [done|].
    by rewrite Hr. }
  destruct (em !! fr.1) as [old|]; [|by apply Hw].
  destruct (Main.difiere nuevo old); [by apply Hw | done].
Qed.

Lemma valid_row_dated (to_datetime : list pyval -> list (option Main.date))
    (df : Main.DataFrame) (fc : string) (fr : Main.date * list pyval) :
  Main.col df "fecha" = Some fc →
  fr ∈ Spec.valid_rows to_datetime df →
  fr ∈ Main.dated_rows to_datetime df fc ∧ Spec.survives df fr = true.
Proof.
  intros Hc. unfold Spec.valid_rows. rewrite Hc.
  by intros ?%elem_of_filter_survives.
Qed.

Lemma existing_map_lookup (t : Z) (db : Main.historicos)
    (rows : list (Main.date * list pyval)) (fr : Main.date * list pyval) :
  fr ∈ rows →
  Main.dict_of (Main.select_existing t db (Main.fechas_of rows)) !! fr.1
  = db !! (t, fr.1).
Proof.
  intros Hin. apply dict_of_lookup, elem_of_fechas_of.
  by apply list_elem_of_fmap_2.
Qed.

(** X5. After a call that returns, the table holds a row of the ticker for
    the date of every valid row of the DataFrame. *)
Theorem X5_every_valid_date_is_stored
    (to_datetime : list pyval -> list (option Main.date)) (t : Z)
    (db db' : Main.historicos) (ticker : string) (df : Main.DataFrame)
    (n sk : Z) (f : option Main.date) :
  Main.upsert_historico_selectivo to_datetime t db ticker (Some df)
  = Ret (n, sk, f, db') →
  ∀ d, d ∈ (Spec.valid_rows to_datetime df).*1 → is_Some (db' !! (t, d)).
Proof.
  intros (_ & _ & _ & Hexec)%upsert_returns d (fr & -> & Hfr)%list_elem_of_fmap.
  destruct (reconcile_plan to_datetime t db df)
    as [[_ Hv]|(fc & m & Hc & _ & _ & _ & Hplan)].
  { rewrite Hv in Hfr. by apply elem_of_nil in Hfr. }
  rewrite Hplan in Hexec. cbn [Main.records_to_write] in Hexec.
  destruct (valid_row_dated _ _ _ _ Hc Hfr) as [Hin Hs].
  destruct (survives_parsed _ _ Hs) as (nuevo & Hp & Hlow).
  pose proof (survivor_fate t df
                (Main.dict_of (Main.select_existing t db
                   (Main.fechas_of (Main.dated_rows to_datetime df fc))))
                _ fr nuevo Hin Hp Hlow) as Hfate.
  rewrite existing_map_lookup in Hfate by done.
  assert ({| Main.r_ticker_id := t; Main.r_fecha := fr.1;
             Main.r_campos := nuevo |}
          ∈ Spec.escritos t df
              (Main.dict_of (Main.select_existing t db
                 (Main.fechas_of (Main.dated_rows to_datetime df fc))))
              (Main.dated_rows to_datetime df fc) →
          is_Some (db' !! (t, fr.1))) as Hw.
  { intros Hr. apply (run_pages_stored _ _ _ _ _ Hexec _ Hr). }
  destruct (db !! (t, fr.1)) as [old|] eqn:Hdb; [|by apply Hw].
  destruct (Main.difiere nuevo old); [by apply Hw|].
  destruct (run_pages_frame _ _ _ _ _ Hexec) as [_ Hkeep].
  apply Hkeep. by eexists.
Qed.

Lemma X5_witness :
  ∃ db' : Main.historicos,
    Main.upsert_historico_selectivo Sample.to_datetime 7 Sample.stored "GGAL"
      (Some Sample.candidate)
    = Ret (1, 1, Some 738888, db')
    ∧ ∀ d, d ∈ (Spec.valid_rows Sample.to_datetime Sample.candidate).*1 →
           is_Some (db' !! (7, d)).
Proof.
  assert (∃ db' : Main.historicos,
            Main.upsert_historico_selectivo Sample.to_datetime 7 Sample.stored
              "GGAL" (Some Sample.candidate)
            = Ret (1, 1, Some 738888, db')) as [db' Hcall].
  { eexists. vm_compute. reflexivity. }
  exists db'. split; [exact Hcall|].
  exact (X5_every_valid_date_is_stored Sample.to_datetime 7 Sample.stored db'
           "GGAL" Sample.candidate 1 1 (Some 738888) Hcall).
Defined.

Lemma escritos_from (t : Z) (df : Main.DataFrame)
    (em : gmap Main.date Main.campos) (rows : list (Main.date * list pyval))
    (r : Main.registro) :
  r ∈ Spec.escritos t df em rows →
  ∃ fr, fr ∈ rows ∧ Main.decide_row t df em fr.1 fr.2 = Main.Escribir r.
Proof.
  intros (fr & Hfr & Hr)%list_elem_of_omap. exists fr. split; [done|].
  destruct (Main.decide_row t df em fr.1 fr.2); try done. by injection Hr as ->.
Qed.

(** X6. When the valid rows carry pairwise distinct dates the call returns,
    and afterwards the row stored for each of these dates is the parsed row
    itself, or the row stored before when the loop or the statement found
    it not different; a date that was not stored holds the parsed row. *)
Theorem X6_distinct_dates_are_stored_as_parsed
    (to_datetime : list pyval -> list (option Main.date)) (t : Z)
    (db : Main.historicos) (ticker : string) (df : Main.DataFrame) :
  NoDup (Spec.valid_rows to_datetime df).*1 →
  ∃ n sk f db',
    Main.upsert_historico_selectivo to_datetime t db ticker (Some df)
    = Ret (n, sk, f, db')
    ∧ ∀ fr nuevo,
        fr ∈ Spec.valid_rows to_datetime df →
        Main.parse_row df fr.2 = Ret nuevo →
        match db !! (t, fr.1) with
        | None => db' !! (t, fr.1) = Some nuevo
        | Some old =>
            db' !! (t, fr.1) = Some nuevo
            ∨ (db' !! (t, fr.1) = Some old
               ∧ (Main.difiere nuevo old = false
                  ∨ Main.distinct old nuevo = false))
        end.
Proof.
  intros Hnd.
  destruct (reconcile_plan to_datetime t db df)
    as [[Hplan Hv]|(fc & m & Hc & _ & _ & Hv & Hplan)].
  { exists 0, 0, None, db. split; [by apply upsert_nothing|].
    intros fr nuevo Hfr. rewrite Hv in Hfr. by apply elem_of_nil in Hfr. }
  set (rows := Main.dated_rows to_datetime df fc) in *.
  set (em := Main.dict_of (Main.select_existing t db (Main.fechas_of rows)))
    in *.
  assert (NoDup (Spec.key <$> Spec.escritos t df em rows)) as Hkeys.
  { eapply sublist_NoDup; [|apply escritos_sublist].
    apply NoDup_keys. by rewrite <- Hv. }
  destruct (execute_values_spec db _ Hkeys) as (db' & Hexec & Hframe & Hrecs).
  exists (Z.of_nat (length (Spec.escritos t df em rows))),
         (Spec.saltados t df em rows), (Some m), db'.
  split.
  { unfold Main.upsert_historico_selectivo. rewrite Hplan.
    cbn [Main.records_to_write Main.skipped Main.fecha_mas_reciente].
    destruct (Spec.escritos t df em rows) as [|r recs] eqn:He.
    - cbv in Hexec. by injection Hexec as ->.
    - by rewrite Hexec. }
  intros fr nuevo Hfr Hp.
  destruct (valid_row_dated _ _ _ _ Hc Hfr) as [Hin Hs].
  destruct (survives_parsed _ _ Hs) as (nuevo' & Hp' & Hlow).
  rewrite Hp in Hp'. injection Hp' as <-.
  pose proof (survivor_fate t df em rows fr nuevo Hin Hp Hlow) as Hfate.
  unfold em in Hfate at 1. rewrite existing_map_lookup in Hfate by done.
  assert ({| Main.r_ticker_id := t; Main.r_fecha := fr.1;
             Main.r_campos := nuevo |} ∈ Spec.escritos t df em rows →
          db' !! (t, fr.1) = Some nuevo
          ∨ ∃ old, db !! (t, fr.1) = Some old ∧ db' !! (t, fr.1) = Some old
                   ∧ Main.distinct old nuevo = false) as Hw.
  { intros Hr. destruct (Hrecs _ Hr) as (c & Hc' & [->|[Hdb Hdist]]).
    - by left.
    - right. by exists c. }
  destruct (db !! (t, fr.1)) as [old|] eqn:Hdb.
  - destruct (Main.difiere nuevo old) eqn:Hdif.
    + destruct (Hw Hfate) as [?|(old' & [= <-] & ? & ?)]; [by left|].
      right. split; [done | by right].
    + right. split; [|by left]. rewrite Hframe; [done|].
      intros (r & Hk & Hr)%list_elem_of_fmap.
      destruct (escritos_from _ _ _ _ _ Hr) as (fr' & Hin' & Hd').
      destruct (decide_row_escribir _ _ _ _ _ Hd') as (Hs' & Hk' & _).
      assert (fr' = fr) as ->.
      { apply (NoDup_fmap_eq fst (Spec.valid_rows to_datetime df)); try done.
        - rewrite Hv. by apply elem_of_filter_survives.
        - rewrite Hk' in Hk. by injection Hk. }
      by rewrite Hfate in Hd'.
  - destruct (Hw Hfate) as [?|(old' & ? & _)]; done.
Qed.

Lemma X6_witness :
  ∃ n sk f db',
    Main.upsert_historico_selectivo Sample.to_datetime 7 Sample.stored "GGAL"
      (Some Sample.candidate)
    = Ret (n, sk, f, db')
    ∧ ∀ fr nuevo,
        fr ∈ Spec.valid_rows Sample.to_datetime Sample.candidate →
        Main.parse_row Sample.candidate fr.2 = Ret nuevo →
        match Sample.stored !! (7, fr.1) with
        | None => db' !! (7, fr.1) = Some nuevo
        | Some old =>
            db' !! (7, fr.1) = Some nuevo
            ∨ (db' !! (7, fr.1) = Some old
               ∧ (Main.difiere nuevo old = false
                  ∨ Main.distinct old nuevo = false))
        end.
Proof.
  apply (X6_distinct_dates_are_stored_as_parsed Sample.to_datetime 7
           Sample.stored "GGAL" Sample.candidate).
  assert ((Spec.valid_rows Sample.to_datetime Sample.candidate).*1
          = [738887; 738888]) as -> by (vm_compute; reflexivity).
  apply NoDup_cons. split; [|apply NoDup_singleton].
  by intros ?%list_elem_of_singleton.
Defined.

(** ** A first load *)

Lemma pass_all_written (t : Z) (df : Main.DataFrame)
    (em : gmap Main.date Main.campos) (rows : list (Main.date * list pyval)) :
  (∀ fr, fr ∈ rows → Spec.survives df fr = true → em !! fr.1 = None) →
  Spec.escritos t df em rows
  = omap (Spec.registro_of t df) (List.filter (Spec.survives df) rows)
  ∧ Spec.saltados t df em rows = 0.
Proof.
  induction rows as [|fr rows IH]; intros Hem; [done|].
  destruct IH as [IHe IHs].
  { intros fr' Hfr'. apply Hem. by right. }
  rewrite escritos_cons. cbn [Spec.saltados List.filter].
  destruct (Spec.survives df fr) eqn:Hs.
  - destruct (survives_parsed _ _ Hs) as (nuevo & Hp & Hlow).
    rewrite (decide_row_survivor _ _ _ _ _ _ Hp Hlow). cbv zeta.
    rewrite (Hem fr) by (done || left).
    cbn [omap list_omap]. unfold Spec.registro_of at 1. rewrite Hp.
    split; [by rewrite IHe | by rewrite IHs].
  - rewrite decide_row_dropped by done. done.
Qed.

(** X7. When the table holds no row of the ticker for any date of a valid
    row, the write-set is the valid rows themselves, each as parsed and in
    the order of the DataFrame, and nothing is skipped. *)
Theorem X7_first_load_writes_every_valid_row
    (to_datetime : list pyval -> list (option Main.date)) (t : Z)
    (db : Main.historicos) (df : Main.DataFrame) :
  (∀ d, d ∈ (Spec.valid_rows to_datetime df).*1 → db !! (t, d) = None) →
  Main.records_to_write (Main.reconcile to_datetime t db (Some df))
  = omap (Spec.registro_of t df) (Spec.valid_rows to_datetime df)
  ∧ length (Main.records_to_write (Main.reconcile to_datetime t db (Some df)))
    = length (Spec.valid_rows to_datetime df)
  ∧ Main.skipped (Main.reconcile to_datetime t db (Some df)) = 0.
Proof.
  intros Hnew.
  destruct (reconcile_plan to_datetime t db df)
    as [[-> ->]|(fc & m & Hc & _ & _ & Hv & Hplan)]; [done|].
  set (rows := Main.dated_rows to_datetime df fc) in *.
  set (em := Main.dict_of (Main.select_existing t db (Main.fechas_of rows)))
    in *.
  destruct (pass_all_written t df em rows) as [He Hs].
  { intros fr Hin Hsurv. unfold em. rewrite existing_map_lookup by done.
    apply Hnew. apply list_elem_of_fmap_2. rewrite Hv.
    by apply elem_of_filter_survives. }
  pose proof (escritos_saltados_count t df em rows) as Hcount.
  rewrite Hplan. cbn [Main.records_to_write Main.skipped]. rewrite Hv.
  split; [done|]. split; [lia | done].
Qed.

Lemma X7_witness :
  Main.records_to_write
    (Main.reconcile Sample.to_datetime 7 ∅ (Some Sample.candidate))
  = omap (Spec.registro_of 7 Sample.candidate)
         (Spec.valid_rows Sample.to_datetime Sample.candidate)
  ∧ length (Main.records_to_write
              (Main.reconcile Sample.to_datetime 7 ∅ (Some Sample.candidate)))
    = length (Spec.valid_rows Sample.to_datetime Sample.candidate)
  ∧ Main.skipped
      (Main.reconcile Sample.to_datetime 7 ∅ (Some Sample.candidate)) = 0.
Proof.
  apply (X7_first_load_writes_every_valid_row Sample.to_datetime 7 ∅
           Sample.candidate).
  intros d _. apply lookup_empty.
Defined.

(** ** The comparison on a row and itself *)

Lemma diff_same (a : option num) : Main.diff a a = Spec.is_nan_field a.
Proof.
  destruct (Spec.is_nan_field a) eqn:Hn; [|by apply diff_self].
  destruct a as [[z|[s|s| |s m e]]|]; done.
Qed.

(** X8. A parsed row differs from an identical stored row exactly when one
    of its fields is NaN: the comparison of the loop is reflexive on every
    row without NaN, and on no other. *)
Theorem X8_row_differs_from_itself_iff_nan (c : Main.campos) :
  Main.difiere c c = negb (Spec.sin_nan c).
Proof.
  unfold Main.difiere, Spec.sin_nan. rewrite !diff_same.
  by rewrite negb_involutive.
Qed.

(** ** [parse_number]: surrounding white space *)

Lemma lstrip_all_space (w : string) :
  Spec.all_chars PyStr.isspace w = true → PyStr.lstrip w = ""%string.
Proof.
  induction w as [|c w IH]; simpl; [done|].
  intros [Hc Hw]%andb_true_iff. rewrite Hc. by apply IH.
Qed.

Lemma rstrip_all_space (w : string) :
  Spec.all_chars PyStr.isspace w = true → PyStr.rstrip w = ""%string.
Proof.
  induction w as [|c w IH]; simpl; [done|].
  intros [Hc Hw]%andb_true_iff. by rewrite IH, Hc.
Qed.

Lemma lstrip_app_space (w s : string) :
  Spec.all_chars PyStr.isspace w = true →
  PyStr.lstrip (w ++ s)%string = PyStr.lstrip s.
Proof.
  induction w as [|c w IH]; simpl; [done|].
  intros [Hc Hw]%andb_true_iff. rewrite Hc. by apply IH.
Qed.

Lemma rstrip_app_space (s w : string) :
  Spec.all_chars PyStr.isspace w = true →
  PyStr.rstrip (s ++ w)%string = PyStr.rstrip s.
Proof.
  intros Hw. induction s as [|c s IH]; simpl.
  - by apply rstrip_all_space.
  - by rewrite IH.
Qed.

Lemma strip_app_space (s w : string) :
  Spec.all_chars PyStr.isspace w = true →
  PyStr.strip (s ++ w)%string = PyStr.strip s.
Proof.
  intros Hw. unfold PyStr.strip. induction s as [|c s IH].
  - simpl. by rewrite lstrip_all_space.
  - change (String c s ++ w)%string with (String c (s ++ w)%string).
    cbn [PyStr.lstrip]. destruct (PyStr.isspace c); [done|].
    by apply (rstrip_app_space (String c s)).
Qed.

Lemma strip_surrounded (w1 s w2 : string) :
  Spec.all_chars PyStr.isspace w1 = true →
  Spec.all_chars PyStr.isspace w2 = true →
  PyStr.strip (w1 ++ s ++ w2)%string = PyStr.strip s.
Proof.
  intros H1 H2. unfold PyStr.strip at 1. rewrite lstrip_app_space by done.
  by apply strip_app_space.
Qed.

(** X9. White space around the text of a cell does not change what
    [parse_number] returns for it, in either revision. *)
Theorem X9_surrounding_space_is_ignored (w1 s w2 : string) (is_int : bool) :
  Spec.all_chars PyStr.isspace w1 = true →
  Spec.all_chars PyStr.isspace w2 = true →
  Main.parse_number (PStr (w1 ++ s ++ w2)) is_int
  = Main.parse_number (PStr s) is_int
  ∧ MainOld.parse_number (PStr (w1 ++ s ++ w2)) is_int
    = MainOld.parse_number (PStr s) is_int.
Proof.
  intros H1 H2. unfold Main.parse_number, MainOld.parse_number. cbn [str].
  by rewrite strip_surrounded.
Qed.

Lemma X9_witness :
  Main.parse_number (PStr ("  " ++ "1,5" ++ " ")) true
  = Main.parse_number (PStr "1,5") true
  ∧ MainOld.parse_number (PStr ("  " ++ "1,5" ++ " ")) true
    = MainOld.parse_number (PStr "1,5") true.
Proof.
  apply (X9_surrounding_space_is_ignored "  " "1,5" " " true); reflexivity.
Defined.

(** ** [parse_number]: what it raises and what it returns *)

Lemma try_except_none_ret {A : Type} (m : res (option A)) :
  ∃ r, try_except m (fun _ => Ret None) = Ret r.
Proof. destruct m; simpl; by eexists. Qed.

Lemma parse_number_text_returns (val : pyval) (is_int : bool) :
  match val with PStr _ | PDate _ => True | _ => False end →
  (∃ r, Main.parse_number val is_int = Ret r)
  ∧ (∃ r, MainOld.parse_number val is_int = Ret r).
Proof.
  intros Hval. split.
  - unfold Main.parse_number.
    assert (∃ r, (let s := PyStr.strip (str val) in
                  if String.eqb s "" || String.eqb s "-" then Ret None
                  else try_except (Main.convert (Main.disambiguate s) is_int)
                                  (fun _ => Ret None)) = Ret r) as Hr.
    { cbv zeta. destruct (String.eqb _ "" || String.eqb _ "-");
        [by eexists | apply try_except_none_ret]. }
    by destruct val.
  - unfold MainOld.parse_number.
    assert (∃ r, (let s := PyStr.strip (str val) in
                  if String.eqb s "" then Ret None
                  else let s := MainOld.disambiguate s in
                       try_except (MainOld.primary s is_int)
                                  (fun _ => MainOld.fallback s is_int))
                 = Ret r) as Hr.
    { cbv zeta. destruct (String.eqb _ ""); [by eexists|].
      destruct (MainOld.primary _ _); simpl; [by eexists|].
      apply try_except_none_ret. }
    by destruct val.
Qed.

(** X10. [parse_number] raises only on the numeric path of line 39, and
    then what [float(val)] or [int(val)] raises: an int asked as float
    that is out of the float range, or an infinite or NaN float asked as
    int.  On [None] and on text it always returns, in both revisions. *)
Theorem X10_raises_only_on_numeric_conversion
    (val : pyval) (is_int : bool) (e : exn) :
  (Main.parse_number val is_int = Raise e
   ↔ (∃ z, val = PInt z ∧ is_int = false ∧ PyFloat.of_int z = Raise e)
     ∨ (∃ x, val = PFloat x ∧ is_int = true ∧ PyFloat.to_int x = Raise e))
  ∧ (MainOld.parse_number val is_int = Raise e
     ↔ Main.parse_number val is_int = Raise e).
Proof.
  split.
  - split.
    + destruct val as [|z|x|s|d].
      * done.
      * simpl. destruct is_int; [done|]. intros H. left. exists z.
        repeat split. destruct (PyFloat.of_int z); simpl in H; congruence.
      * simpl. destruct is_int; [|done]. intros H. right. exists x.
        repeat split. destruct (PyFloat.to_int x); simpl in H; congruence.
      * destruct (parse_number_text_returns (PStr s) is_int I) as [[r ->] _].
        done.
      * destruct (parse_number_text_returns (PDate d) is_int I) as [[r ->] _].
        done.
    + intros [(z & -> & -> & H)|(x & -> & -> & H)]; simpl; by rewrite H.
  - destruct val as [|z|x|s|d]; try done.
    + by destruct (parse_number_text_returns (PStr s) is_int I)
        as [[r ->] [r' ->]].
    + by destruct (parse_number_text_returns (PDate d) is_int I)
        as [[r ->] [r' ->]].
Qed.

Lemma try_except_some {A : Type} (m : res (option A)) (v : A) :
  try_except m (fun _ => Ret None) = Ret (Some v) → m = Ret (Some v).
Proof. by destruct m. Qed.

Lemma convert_some (s : string) (is_int : bool) (v : num) :
  Main.convert s is_int = Ret (Some v) →
  ∃ x, PyStr.to_float s = Ret x ∧ PyFloat.ltb x PyFloat.zero = false
       ∧ if is_int then ∃ z, PyFloat.to_int x = Ret z ∧ v = NInt z
         else v = NFloat x.
Proof.
  unfold Main.convert. destruct (PyStr.to_float s) as [x|]; simpl; [|done].
  destruct (PyFloat.ltb x PyFloat.zero) eqn:Hlt; [done|]. intros H.
  exists x. split; [done|]. split; [done|]. destruct is_int.
  - destruct (PyFloat.to_int x) as [z|]; simpl in H; [|done].
    exists z. split; [done | congruence].
  - congruence.
Qed.

Lemma parse_number_text_some (val : pyval) (is_int : bool) (v : num) :
  match val with PStr _ | PDate _ => True | _ => False end →
  Main.parse_number val is_int = Ret (Some v) →
  String.eqb (PyStr.strip (str val)) "" = false
  ∧ Main.convert (Main.disambiguate (PyStr.strip (str val))) is_int
    = Ret (Some v).
Proof.
  intros Hval.
  assert (Main.parse_number val is_int
          = if String.eqb (PyStr.strip (str val)) ""
               || String.eqb (PyStr.strip (str val)) "-" then Ret None
            else try_except
                   (Main.convert (Main.disambiguate (PyStr.strip (str val)))
                      is_int) (fun _ => Ret None)) as -> by by destruct val.
  destruct (String.eqb (PyStr.strip (str val)) ""); [done|].
  destruct (String.eqb (PyStr.strip (str val)) "-"); [done|]. simpl.
  by intros ?%try_except_some.
Qed.

Lemma old_parse_number_text (val : pyval) (is_int : bool) :
  match val with PStr _ | PDate _ => True | _ => False end →
  MainOld.parse_number val is_int
  = if String.eqb (PyStr.strip (str val)) "" then Ret None
    else try_except
           (MainOld.primary (MainOld.disambiguate (PyStr.strip (str val)))
              is_int)
           (fun _ => MainOld.fallback
                       (MainOld.disambiguate (PyStr.strip (str val))) is_int).
Proof. by destruct val. Qed.

(** X11. [is_int] decides the type of a number [parse_number] returns: an
    int when it is set, a float when it is not, whatever the input and in
    both revisions. *)
Theorem X11_is_int_decides_the_type (val : pyval) (is_int : bool) (v : num) :
  Main.parse_number val is_int = Ret (Some v)
  ∨ MainOld.parse_number val is_int = Ret (Some v) →
  Main.isinstance_float v = negb is_int.
Proof.
  assert (∀ m : res (option num),
            (∀ v, m = Ret (Some v) → Main.isinstance_float v = negb is_int) →
            ∀ v, try_except m (fun _ => Ret None) = Ret (Some v) →
                 Main.isinstance_float v = negb is_int) as Htry.
  { intros m Hm v' ?%try_except_some. by apply Hm. }
  assert (∀ val, match val with PStr _ | PDate _ => True | _ => False end →
            Main.parse_number val is_int = Ret (Some v)
            ∨ MainOld.parse_number val is_int = Ret (Some v) →
            Main.isinstance_float v = negb is_int) as Htext.
  { intros val' Hval [H|H].
    - apply parse_number_text_some in H as [_ H]; [|done].
      apply convert_some in H as (x & _ & _ & H).
      destruct is_int; [by destruct H as (z & _ & ->) | by subst].
    - rewrite old_parse_number_text in H by done.
      destruct (String.eqb _ ""); [done|].
      unfold MainOld.primary, MainOld.fallback in H.
      destruct (PyStr.to_float (MainOld.disambiguate _)) as [x|];
        destruct is_int; simpl in H.
      + destruct (PyFloat.to_int x) as [z|]; simpl in H; [by injection H as <-|].
        destruct (PyStr.to_int _); simpl in H; [by injection H as <-|done].
      + by injection H as <-.
      + destruct (PyStr.to_int _); simpl in H; [by injection H as <-|done].
      + destruct (PyStr.to_float _); simpl in H; [by injection H as <-|done]. }
  destruct val as [|z|x|s|d]; try (by apply Htext).
  - by intros [?|?].
  - simpl. destruct is_int.
    + by intros [[= <-]|[= <-]].
    + destruct (PyFloat.of_int z); simpl; [|by intros [?|?]].
      by intros [[= <-]|[= <-]].
  - simpl. destruct is_int.
    + destruct (PyFloat.to_int x); simpl; [|by intros [?|?]].
      by intros [[= <-]|[= <-]].
    + by intros [[= <-]|[= <-]].
Qed.

Lemma X11_witness :
  Main.isinstance_float (NInt 20390) = negb true.
Proof.
  apply (X11_is_int_decides_the_type (PStr "20,390.75") true (NInt 20390)).
  left. vm_compute. reflexivity.
Defined.

(** ** The two revisions of [parse_number] *)

Lemma last_separator_comma (s : string) :
  Spec.last_separator s = Some ","%char → PyStr.contains "," s = true.
Proof.
  induction s as [|a t IH]; simpl; [done|].
  destruct (Spec.last_separator t) as [d|].
  - intros [= ->]. rewrite IH by done. by rewrite orb_true_r.
  - unfold Spec.is_separator.
    destruct (Ascii.eqb_spec a ","); [done|].
    destruct (Ascii.eqb_spec a "."); [|done]. intros [= ->]. done.
Qed.

(** The formats both revisions rewrite alike: no separator or a lone dot
    with at most three characters after it, and both separators with the
    comma last. *)
Lemma disambiguate_agree (s : string) :
  (PyStr.contains "," s = false ∧ PyStr.count "." s <= 1
   ∧ PyStr.len (Spec.after_dot s) <= 3)
  ∨ (Spec.last_separator s = Some ","%char ∧ PyStr.contains "." s = true) →
  Main.disambiguate s = MainOld.disambiguate s.
Proof.
  intros [(Hc & Hn & Hl)|[Hlast Hp]].
  - rewrite disambiguate_plain by done. unfold MainOld.disambiguate.
    by rewrite Hc.
  - pose proof (last_separator_comma _ Hlast) as Hc.
    rewrite disambiguate_both by done.
    unfold Spec.both_separators, MainOld.disambiguate.
    by rewrite Hlast, Hc, Hp.
Qed.

(** X12. On a cell without separators, with a lone dot followed by at most
    three characters, or with both separators and the comma last, a number
    returned by the current [parse_number] is the number the earlier
    revision returns. *)
Theorem X12_earlier_revision_agrees_on_shared_formats
    (val : string) (is_int : bool) (v : num) :
  (PyStr.contains "," (PyStr.strip val) = false
   ∧ PyStr.count "." (PyStr.strip val) <= 1
   ∧ PyStr.len (Spec.after_dot (PyStr.strip val)) <= 3)
  ∨ (Spec.last_separator (PyStr.strip val) = Some ","%char
     ∧ PyStr.contains "." (PyStr.strip val) = true) →
  Main.parse_number (PStr val) is_int = Ret (Some v) →
  MainOld.parse_number (PStr val) is_int = Ret (Some v).
Proof.
  intros Hfmt%disambiguate_agree H.
  apply parse_number_text_some in H as [Hne H]; [|done]. cbn [str] in *.
  rewrite old_parse_number_text by done. cbn [str]. rewrite Hne, <- Hfmt.
  apply convert_some in H as (x & Hx & _ & H).
  unfold MainOld.primary. rewrite Hx. simpl. destruct is_int.
  - destruct H as (z & -> & ->). done.
  - by subst.
Qed.

Lemma X12_witness :
  MainOld.parse_number (PStr " 20.390,5 ") false
  = Ret (Some (NFloat (PyFloat.of_decimal false 203905 (-1)))).
Proof.
  apply (X12_earlier_revision_agrees_on_shared_formats " 20.390,5 " false).
  - right. split; reflexivity.
  - vm_compute. reflexivity.
Defined.

(** ** [col] *)

Lemma lower_app (p q : string) :
  PyStr.lower (p ++ q)%string = (PyStr.lower p ++ PyStr.lower q)%string.
Proof. induction p as [|a p IH]; simpl; [done|]. by rewrite IH. Qed.

Lemma startswith_app (p q s : string) :
  PyStr.startswith (p ++ q)%string s = true → PyStr.startswith p s = true.
Proof.
  revert s. induction p as [|a p IH]; intros s; [done|].
  destruct s as [|b s]; simpl; [done|].
  intros [-> H]%andb_true_iff. by apply IH.
Qed.

Lemma isin_app (p q s : string) :
  PyStr.isin (p ++ q)%string s = true → PyStr.isin p s = true.
Proof.
  induction s as [|b s IH]; simpl.
  - rewrite !orb_false_r. apply startswith_app.
  - intros [H|H]%orb_true_iff.
    + by rewrite (startswith_app _ _ _ H).
    + rewrite IH by done. by rewrite orb_true_r.
Qed.

Lemma col_in_longer_name (cols : list string) (name suffix : string) :
  Main.col_in cols name = None → Main.col_in cols (name ++ suffix) = None.
Proof.
  induction cols as [|c cols IH]; simpl; [done|].
  destruct (PyStr.isin (PyStr.lower name) (PyStr.lower c)) eqn:Hn; [done|].
  intros H. rewrite IH by done.
  destruct (PyStr.isin (PyStr.lower (name ++ suffix)) (PyStr.lower c)) eqn:Hl;
    [|done].
  rewrite lower_app in Hl. apply isin_app in Hl. congruence.
Qed.

(** X13. A column is looked up by a name it contains, so a longer name
    finds nothing where its beginning finds nothing; the second lookup of
    [col("volumen") or col("volumen_nominal")] therefore never supplies
    the volume column. *)
Theorem X13_volume_fallback_finds_nothing (df : Main.DataFrame) :
  (∀ name suffix,
     Main.col df name = None → Main.col df (name ++ suffix) = None)
  ∧ match Main.col df "volumen" with
    | Some c => Some c
    | None => Main.col df "volumen_nominal"
    end = Main.col df "volumen".
Proof.
  split.
  - intros name suffix. apply col_in_longer_name.
  - destruct (Main.col df "volumen") eqn:Hv; [done|].
    apply (col_in_longer_name _ "volumen" "_nominal" Hv).
Qed.

(** ** The comparison does not depend on the side *)

Lemma binary_round_sign (m : positive) (e : Z) :
  SFabs (binary_round PyFloat.prec PyFloat.emax true m e)
  = SFabs (binary_round PyFloat.prec PyFloat.emax false m e).
Proof.
  unfold binary_round, binary_round_aux.
  destruct (shl_align _ _ _) as [mz ez].
  destruct (shr_fexp _ _ _ _ _) as [mrs e'].
  destruct (shr_fexp _ _ _ _ _) as [mrs' e''].
  destruct (shr_m mrs'); [done| |done].
  by destruct (_ <=? _).
Qed.

Lemma binary_normalize_opp (m e : Z) :
  SFabs (binary_normalize PyFloat.prec PyFloat.emax (- m) e false)
  = SFabs (binary_normalize PyFloat.prec PyFloat.emax m e false).
Proof.
  destruct m; simpl; [done| |]; by rewrite binary_round_sign.
Qed.

Lemma fabs_sub_sym (a b : float) :
  PyFloat.fabs (PyFloat.sub b a) = PyFloat.fabs (PyFloat.sub a b).
Proof.
  unfold PyFloat.fabs, PyFloat.sub.
  destruct a as [sa|sa| |sa ma ea], b as [sb|sb| |sb mb eb];
    try done; try (by destruct sa, sb).
  cbn [SFsub]. rewrite (Z.min_comm eb ea).
  rewrite <- binary_normalize_opp. f_equal. f_equal. lia.
Qed.

Lemma eqb_comm (x y : float) : PyFloat.eqb x y = PyFloat.eqb y x.
Proof.
  destruct (PyFloat.eqb x y) eqn:Hxy, (PyFloat.eqb y x) eqn:Hyx; try done.
  - apply eqb_sym in Hxy. congruence.
  - apply eqb_sym in Hyx. congruence.
Qed.

Lemma isclose_comm (a b r t : float) :
  PyFloat.isclose a b r t = PyFloat.isclose b a r t.
Proof.
  unfold PyFloat.isclose. rewrite (eqb_comm a b), (fabs_sub_sym a b).
  rewrite (orb_comm (PyFloat.is_inf a)).
  by rewrite (orb_comm (PyFloat.leb _ (PyFloat.fabs (PyFloat.mul r b)))).
Qed.

Lemma ne_comm (a b : num) : Main.ne a b = Main.ne b a.
Proof.
  destruct a as [x|x], b as [y|y]; simpl; try done.
  - by rewrite Z.eqb_sym.
  - by rewrite eqb_comm.
Qed.

Lemma diff_comm (a b : option num) : Main.diff a b = Main.diff b a.
Proof.
  destruct a as [a|], b as [b|]; try done. unfold Main.diff.
  rewrite (ne_comm b a).
  destruct a as [x|x], b as [y|y]; simpl; try done.
  - destruct (PyFloat.of_int x); simpl; [|done]. by rewrite isclose_comm.
  - destruct (PyFloat.of_int y); simpl; [|done]. by rewrite isclose_comm.
  - by rewrite isclose_comm.
Qed.

(** X14. The comparison of a parsed row with a stored row gives the same
    answer with the two rows exchanged, field by field and on the whole
    row. *)
Theorem X14_comparison_is_symmetric (nuevo existing_row : Main.campos)
    (a b : option num) :
  Main.diff a b = Main.diff b a
  ∧ Main.difiere nuevo existing_row = Main.difiere existing_row nuevo.
Proof.
  split; [apply diff_comm|]. unfold Main.difiere.
  by rewrite (diff_comm (Main.apertura nuevo)), (diff_comm (Main.maximo nuevo)),
    (diff_comm (Main.minimo nuevo)), (diff_comm (Main.cierre nuevo)),
    (diff_comm (Main.volumen nuevo)).
Qed.

(** * The loop of [main] *)

Lemma upsert_frame (to_datetime : list pyval -> list (option Main.date))
    (t : Z) (db db' : Main.historicos) (ticker : string) (df : Main.DataFrame)
    (n sk : Z) (f : option Main.date) :
  Main.upsert_historico_selectivo to_datetime t db ticker (Some df)
  = Ret (n, sk, f, db') →
  (∀ κ, κ.1 ≠ t → db' !! κ = db !! κ)
  ∧ (∀ κ, is_Some (db !! κ) → is_Some (db' !! κ))
  ∧ (n <= 0 → db' = db).
Proof.
  intros (_ & _ & Hn & Hexec)%upsert_returns.
  destruct (run_pages_frame _ _ _ _ _ Hexec) as [Hframe Hkeep].
  split; [|split; [done|]].
  - intros κ Hκ. apply Hframe. intros Hin.
    pose proof (write_set_keys to_datetime t db df) as Hsub.
    apply (elem_of_sublist _ _ _ Hin) in Hsub.
    apply list_elem_of_fmap in Hsub as (fr & -> & _). done.
  - intros Hle.
    destruct (Main.records_to_write _) as [|r recs]; [|simpl in Hn; lia].
    cbv in Hexec. by injection Hexec.
Qed.

Lemma attempts_spec (fetch : nat -> string -> string -> MainLoop.outcome)
    (n : nat) (ticker desde : string) :
  ∀ reqs : list (string * string),
    ∃ k : nat,
      (k <= n)%nat
      ∧ (MainLoop.attempts fetch n ticker desde reqs).2
        = reqs ++ replicate k (ticker, desde)
      ∧ ((MainLoop.attempts fetch n ticker desde reqs).1
         = MainLoop.Interrupted →
         ∃ i, fetch i ticker desde = MainLoop.Interrupted).
Proof.
  induction n as [|n IH]; intros reqs.
  { exists O. split; [done|]. split; [by rewrite app_nil_r | done]. }
  cbn [MainLoop.attempts].
  destruct (fetch (length reqs) ticker desde) as [df| |] eqn:Hf.
  - exists 1%nat. split; [lia|]. split; [done|]. done.
  - destruct n as [|n'].
    + exists 1%nat. split; [lia|]. split; [done|]. done.
    + destruct (IH (reqs ++ [(ticker, desde)])) as (k & Hk & Hreqs & Hint).
      exists (S k). split; [lia|]. split; [|done].
      rewrite Hreqs, <- app_assoc. done.
  - exists 1%nat. split; [lia|]. split; [done|]. intros _. by eexists.
Qed.

(** The first day asked for is never before 1 January 2020. *)
Lemma desde_of_window (last : option Main.date) (desde : string) :
  MainLoop.desde_of last = Ret desde →
  ∃ d, MainLoop.default_date <= d ∧ desde = MainLoop.strftime d
       ∧ match last with
         | Some l => d = Z.max (l - MainLoop.LOOKBACK_DAYS)
                               MainLoop.default_date
         | None => d = MainLoop.default_date
         end.
Proof.
  destruct last as [l|]; simpl.
  - destruct (_ <? 1); [done|]. intros [= <-].
    eexists. split; [|split; reflexivity]. lia.
  - intros [= <-]. exists MainLoop.default_date.
    split; [done|]. split; [|done]. vm_compute. reflexivity.
Qed.

Ltac counted_case k desde :=
  eexists _, k, desde; split;
  [ left; split; [reflexivity | unfold MainLoop.counted; simpl; lia]
  | simpl; repeat split; try done; try lia ].

(** What one pass of the loop body does to the state. *)
Lemma iteration_spec (to_datetime : list pyval -> list (option Main.date))
    (fetch : nat -> string -> string -> MainLoop.outcome)
    (st : MainLoop.state) (ticker : string) (ticker_id : Z) :
  ∃ (st' : MainLoop.state) (k : nat) (desde : string),
    (MainLoop.iteration to_datetime fetch st ticker ticker_id
     = MainLoop.Continue st'
     ∧ MainLoop.counted (MainLoop.stats st')
       = MainLoop.counted (MainLoop.stats st) + 1
     ∨ MainLoop.iteration to_datetime fetch st ticker ticker_id
       = MainLoop.Break st'
       ∧ MainLoop.stats st' = MainLoop.stats st
       ∧ MainLoop.db st' = MainLoop.db st
       ∧ ∃ i, fetch i ticker desde = MainLoop.Interrupted)
    ∧ (∀ κ, κ.1 ≠ ticker_id → MainLoop.db st' !! κ = MainLoop.db st !! κ)
    ∧ (∀ κ, is_Some (MainLoop.db st !! κ) → is_Some (MainLoop.db st' !! κ))
    ∧ MainLoop.actualizados (MainLoop.stats st)
      <= MainLoop.actualizados (MainLoop.stats st')
    ∧ (MainLoop.actualizados (MainLoop.stats st')
       = MainLoop.actualizados (MainLoop.stats st) →
       MainLoop.db st' = MainLoop.db st)
    ∧ (k <= MainLoop.MAX_RETRIES)%nat
    ∧ MainLoop.requests st'
      = MainLoop.requests st ++ replicate k (ticker, desde)
    ∧ (k ≠ O → ∃ d, MainLoop.default_date <= d
                    ∧ desde = MainLoop.strftime d).
Proof.
  unfold MainLoop.iteration.
  destruct (MainLoop.desde_of _) as [desde|] eqn:Hdesde.
  2: { counted_case O ""%string. by rewrite app_nil_r. }
  destruct (attempts_spec fetch MainLoop.MAX_RETRIES ticker desde
              (MainLoop.requests st)) as (k & Hk & Hreqs & Hint).
  destruct (MainLoop.attempts _ _ _ _ _) as [r reqs]. simpl in Hreqs, Hint.
  subst reqs.
  assert (k ≠ O → ∃ d, MainLoop.default_date <= d
                       ∧ desde = MainLoop.strftime d) as Hwin.
  { intros _. destruct (desde_of_window _ _ Hdesde) as (d & ? & ? & _).
    by exists d. }
  assert (∀ st0 : MainLoop.state,
            MainLoop.db st0 = MainLoop.db st →
            (∀ κ : Z * Main.date, κ.1 ≠ ticker_id →
                 MainLoop.db st0 !! κ = MainLoop.db st !! κ)
            ∧ (∀ κ, is_Some (MainLoop.db st !! κ) →
                    is_Some (MainLoop.db st0 !! κ))) as Hsame.
  { intros st0 ->. done. }
  destruct r as [[df|]| |].
  - destruct (Main.empty df).
    + counted_case k desde.
    + destruct (Main.upsert_historico_selectivo _ _ _ _ _)
        as [[[[n sk] f] db']|] eqn:Hu.
      * destruct (upsert_frame _ _ _ _ _ _ _ _ _ Hu) as (Hf & Hkeep & Hzero).
        eexists _, k, desde. split; [left; split; [reflexivity|]|].
        { unfold MainLoop.on_written, MainLoop.counted.
          destruct (0 <? n); simpl; lia. }
        simpl. split; [done|]. split; [done|].
        unfold MainLoop.on_written.
        destruct (Z.ltb_spec 0 n); simpl;
          (split; [lia|]); (split; [|done]); [lia | by auto].
      * counted_case k desde.
  - counted_case k desde.
  - counted_case k desde.
  - eexists _, k, desde. split; [right; split; [reflexivity|]|].
    { simpl. repeat split; try done. by apply Hint. }
    simpl. repeat split; try done; lia.
Qed.

(** A relation between states that every pass of the body respects holds
    between the state the loop starts from and the one it ends in. *)
Lemma loop_invariant (to_datetime : list pyval -> list (option Main.date))
    (fetch : nat -> string -> string -> MainLoop.outcome)
    (R : MainLoop.state → MainLoop.state → Prop)
    (tickers : list (string * Z)) :
  (∀ st, R st st) → (∀ a b c, R a b → R b c → R a c) →
  (∀ st ticker ticker_id st',
     (ticker, ticker_id) ∈ tickers →
     MainLoop.iteration to_datetime fetch st ticker ticker_id
     = MainLoop.Continue st'
     ∨ MainLoop.iteration to_datetime fetch st ticker ticker_id
       = MainLoop.Break st' →
     R st st') →
  ∀ st, R st (MainLoop.loop to_datetime fetch st tickers).
Proof.
  intros Hrefl Htrans. induction tickers as [|[ticker tid] ts IH];
    intros Hstep st; [apply Hrefl|].
  cbn [MainLoop.loop].
  destruct (MainLoop.iteration to_datetime fetch st ticker tid)
    as [st'|st'] eqn:Hit.
  - apply (Htrans _ st').
    + apply (Hstep st ticker tid); [left | by left].
    + apply IH. intros st0 t0 i0 st1 Hin. apply Hstep. by right.
  - apply (Hstep st ticker tid); [left | by right].
Qed.

Lemma loop_counted (to_datetime : list pyval -> list (option Main.date))
    (fetch : nat -> string -> string -> MainLoop.outcome)
    (tickers : list (string * Z)) :
  ∀ st,
    MainLoop.counted (MainLoop.stats (MainLoop.loop to_datetime fetch st tickers))
    <= MainLoop.counted (MainLoop.stats st) + Z.of_nat (length tickers)
    ∧ ((∀ n ticker desde, fetch n ticker desde ≠ MainLoop.Interrupted) →
       MainLoop.counted
         (MainLoop.stats (MainLoop.loop to_datetime fetch st tickers))
       = MainLoop.counted (MainLoop.stats st) + Z.of_nat (length tickers)).
Proof.
  induction tickers as [|[ticker tid] ts IH]; intros st.
  { simpl. split; [lia|]. intros _. lia. }
  cbn [MainLoop.loop].
  destruct (iteration_spec to_datetime fetch st ticker tid)
    as (st' & k & desde & [[-> Hc]|(-> & Hs & _ & i & Hi)] & _).
  - destruct (IH st') as [Hle Heq]. rewrite Hc in Hle, Heq.
    rewrite length_cons. split; [lia|]. intros Hno. rewrite Heq by done. lia.
  - rewrite Hs, length_cons. split; [lia|]. intros Hno.
    by destruct (Hno i ticker desde).
Qed.

(** X15. Each ticker the loop has dealt with is counted in exactly one of
    [actualizados], [sin_cambios], [sin_datos] and [errores]: the four
    counters never add up to more than the number of tickers, and add up
    to it when no request is interrupted from the keyboard. *)
Theorem X15_every_ticker_is_counted_once
    (to_datetime : list pyval -> list (option Main.date))
    (fetch : nat -> string -> string -> MainLoop.outcome)
    (db0 : Main.historicos) (tickers : list (string * Z)) :
  MainLoop.counted (MainLoop.stats (MainLoop.main to_datetime fetch db0 tickers))
  <= Z.of_nat (length tickers)
  ∧ ((∀ n ticker desde, fetch n ticker desde ≠ MainLoop.Interrupted) →
     MainLoop.counted
       (MainLoop.stats (MainLoop.main to_datetime fetch db0 tickers))
     = Z.of_nat (length tickers)).
Proof.
  apply (loop_counted to_datetime fetch tickers
           {| MainLoop.db := db0; MainLoop.stats := MainLoop.stats0;
              MainLoop.requests := [] |}).
Qed.

(** X16. [main] changes rows of the listed tickers only: a row whose
    [ticker_id] is not in the list is the same after the run. *)
Theorem X16_unlisted_tickers_are_untouched
    (to_datetime : list pyval -> list (option Main.date))
    (fetch : nat -> string -> string -> MainLoop.outcome)
    (db0 : Main.historicos) (tickers : list (string * Z))
    (ticker_id : Z) (fecha : Main.date) :
  ticker_id ∉ tickers.*2 →
  MainLoop.db (MainLoop.main to_datetime fetch db0 tickers)
    !! (ticker_id, fecha)
  = db0 !! (ticker_id, fecha).
Proof.
  intros Hout.
  refine (loop_invariant to_datetime fetch
            (fun st st' => MainLoop.db st' !! (ticker_id, fecha)
                           = MainLoop.db st !! (ticker_id, fecha)) tickers
            _ _ _
            {| MainLoop.db := db0; MainLoop.stats := MainLoop.stats0;
               MainLoop.requests := [] |}).
  - done.
  - intros a b c Hab Hbc. by rewrite Hbc.
  - intros st ticker tid st' Hin Hit.
    destruct (iteration_spec to_datetime fetch st ticker tid)
      as (st1 & k & desde & Hres & Hframe & _).
    assert (st' = st1) as ->.
    { destruct Hres as [[H1 _]|[H1 _]], Hit as [H2|H2]; congruence. }
    apply Hframe. simpl. intros ->. apply Hout.
    by apply (list_elem_of_fmap_2 snd _ _ Hin).
Qed.

Lemma X16_witness :
  MainLoop.db (MainLoop.main Sample.to_datetime SampleRun.fetch Sample.stored
                 SampleRun.tickers) !! (8, 738888)
  = Sample.stored !! (8, 738888).
Proof.
  apply (X16_unlisted_tickers_are_untouched Sample.to_datetime SampleRun.fetch
           Sample.stored SampleRun.tickers 8 738888).
  simpl. by intros [=]%list_elem_of_singleton.
Defined.

(** X17. [main] removes no row: every key stored before the run is stored
    after it. *)
Theorem X17_a_run_removes_no_row
    (to_datetime : list pyval -> list (option Main.date))
    (fetch : nat -> string -> string -> MainLoop.outcome)
    (db0 : Main.historicos) (tickers : list (string * Z))
    (κ : Z * Main.date) :
  is_Some (db0 !! κ) →
  is_Some (MainLoop.db (MainLoop.main to_datetime fetch db0 tickers) !! κ).
Proof.
  refine (loop_invariant to_datetime fetch
            (fun st st' => is_Some (MainLoop.db st !! κ) →
                           is_Some (MainLoop.db st' !! κ)) tickers _ _ _
            {| MainLoop.db := db0; MainLoop.stats := MainLoop.stats0;
               MainLoop.requests := [] |}).
  - done.
  - intros a b c Hab Hbc H. by apply Hbc, Hab.
  - intros st ticker tid st' Hin Hit.
    destruct (iteration_spec to_datetime fetch st ticker tid)
      as (st1 & k & desde & Hres & _ & Hkeep & _).
    assert (st' = st1) as ->.
    { destruct Hres as [[H1 _]|[H1 _]], Hit as [H2|H2]; congruence. }
    apply Hkeep.
Qed.

Lemma X17_witness :
  is_Some (MainLoop.db (MainLoop.main Sample.to_datetime SampleRun.fetch
                          Sample.stored SampleRun.tickers) !! (7, 738887)).
Proof.
  apply (X17_a_run_removes_no_row Sample.to_datetime SampleRun.fetch
           Sample.stored SampleRun.tickers (7, 738887)).
  vm_compute. by eexists.
Defined.



(** X19. A run that counts no ticker in [actualizados] has left the table
    as it found it. *)
Theorem X19_no_update_counted_means_table_unchanged
    (to_datetime : list pyval -> list (option Main.date))
    (fetch : nat -> string -> string -> MainLoop.outcome)
    (db0 : Main.historicos) (tickers : list (string * Z)) :
  MainLoop.actualizados
    (MainLoop.stats (MainLoop.main to_datetime fetch db0 tickers)) = 0 →
  MainLoop.db (MainLoop.main to_datetime fetch db0 tickers) = db0.
Proof.
  pose proof
    (loop_invariant to_datetime fetch
       (fun st st' =>
          MainLoop.actualizados (MainLoop.stats st)
          <= MainLoop.actualizados (MainLoop.stats st')
          ∧ (MainLoop.actualizados (MainLoop.stats st')
             = MainLoop.actualizados (MainLoop.stats st) →
             MainLoop.db st' = MainLoop.db st)) tickers) as Hinv.
  destruct (Hinv ltac:(intros; split; [lia | done]))
    with (st := {| MainLoop.db := db0; MainLoop.stats := MainLoop.stats0;
                   MainLoop.requests := [] |}) as [_ Hsame].
  - intros a b c [Hab Hab'] [Hbc Hbc']. split; [lia|].
    intros Heq. rewrite Hbc' by lia. apply Hab'. lia.
  - intros st ticker tid st' Hin Hit.
    destruct (iteration_spec to_datetime fetch st ticker tid)
      as (st1 & k & desde & Hres & _ & _ & Hmono & Hkeep & _).
    assert (st' = st1) as ->.
    { destruct Hres as [[H1 _]|[H1 _]], Hit as [H2|H2]; congruence. }
    done.
  - intros H0. by apply Hsame.
Qed.

Lemma X19_witness :
  MainLoop.db (MainLoop.main Sample.to_datetime SampleRun.fetch_same
                 Sample.stored SampleRun.tickers)
  = Sample.stored.
Proof.
  apply (X19_no_update_counted_means_table_unchanged Sample.to_datetime
           SampleRun.fetch_same Sample.stored SampleRun.tickers).
  vm_compute. reflexivity.
Defined.

(** * [parse_number]: a separator of one kind only *)

Lemma lstrip_decompose (x : string) :
  ∃ w, Spec.all_chars PyStr.isspace w = true
       ∧ x = (w ++ PyStr.lstrip x)%string.
Proof.
  induction x as [|c x (w & Hw & Hx)]; [by exists ""%string|].
  cbn [PyStr.lstrip]. destruct (PyStr.isspace c) eqn:Hc.
  - exists (String c w). simpl. rewrite Hc, Hw. split; [done|].
    change (String c x = String c (w ++ PyStr.lstrip x)%string). by f_equal.
  - by exists ""%string.
Qed.

Lemma rstrip_decompose (x : string) :
  ∃ w, Spec.all_chars PyStr.isspace w = true
       ∧ x = (PyStr.rstrip x ++ w)%string.
Proof.
  induction x as [|c x (w & Hw & Hx)]; [by exists ""%string|].
  cbn [PyStr.rstrip]. destruct (PyStr.rstrip x) as [|a r] eqn:Hr.
  - change (x = w) in Hx. subst w. destruct (PyStr.isspace c) eqn:Hc.
    + exists (String c x). simpl. by rewrite Hc, Hw.
    + by exists x.
  - exists w. split; [done|].
    change (String c x = String c (String a r ++ w)%string). by f_equal.
Qed.

Lemma strip_decompose (x : string) :
  ∃ w1 w2, Spec.all_chars PyStr.isspace w1 = true
           ∧ Spec.all_chars PyStr.isspace w2 = true
           ∧ x = (w1 ++ PyStr.strip x ++ w2)%string.
Proof.
  destruct (lstrip_decompose x) as (w1 & H1 & Hx).
  destruct (rstrip_decompose (PyStr.lstrip x)) as (w2 & H2 & Hl).
  exists w1, w2. split; [done|]. split; [done|].
  unfold PyStr.strip. by rewrite <- Hl.
Qed.

Lemma contains_app (c : ascii) (s t : string) :
  PyStr.contains c (s ++ t)%string = PyStr.contains c s || PyStr.contains c t.
Proof.
  induction s as [|a s IH]; simpl; [done|]. by rewrite IH, orb_assoc.
Qed.

Lemma remove_app (c : ascii) (s t : string) :
  PyStr.remove c (s ++ t)%string
  = (PyStr.remove c s ++ PyStr.remove c t)%string.
Proof.
  induction s as [|a s IH]; simpl; [done|].
  destruct (Ascii.eqb a c); simpl; by rewrite IH.
Qed.

Lemma remove_absent (c : ascii) (s : string) :
  PyStr.contains c s = false → PyStr.remove c s = s.
Proof.
  induction s as [|a s IH]; simpl; [done|].
  intros [-> H]%orb_false_iff. by rewrite IH.
Qed.

Lemma contains_remove (c d : ascii) (s : string) :
  PyStr.contains c s = false → PyStr.contains c (PyStr.remove d s) = false.
Proof.
  induction s as [|a s IH]; simpl; [done|].
  intros [Ha H]%orb_false_iff. destruct (Ascii.eqb a d); simpl; [by apply IH|].
  by rewrite Ha, IH.
Qed.

Lemma contains_remove_same (c : ascii) (s : string) :
  PyStr.contains c (PyStr.remove c s) = false.
Proof.
  induction s as [|a s IH]; simpl; [done|].
  destruct (Ascii.eqb a c) eqn:Ha; simpl; [done|]. by rewrite Ha.
Qed.

Lemma contains_count (c : ascii) (s : string) :
  0 < PyStr.count c s → PyStr.contains c s = true.
Proof.
  induction s as [|a s IH]; simpl; [lia|].
  destruct (Ascii.eqb a c); simpl; [done|]. intros H. apply IH. lia.
Qed.

Lemma isspace_plain (c : ascii) :
  PyStr.isspace c = true →
  PyStr.isdigit c = false ∧ Ascii.eqb c "_" = false.
Proof. by destruct c as [[] [] [] [] [] [] [] []]. Qed.

Lemma strip_underscores_prev (p q : ascii) (s : string) :
  PyStr.isdigit p = PyStr.isdigit q → Ascii.eqb p "_" = Ascii.eqb q "_" →
  PyStr.strip_underscores p s = PyStr.strip_underscores q s.
Proof.
  intros Hd Hu.
  destruct s as [|c t]; cbn [PyStr.strip_underscores]; by rewrite ?Hd, Hu.
Qed.

Lemma strip_underscores_space (p : ascii) (w : string) :
  Spec.all_chars PyStr.isspace w = true → Ascii.eqb p "_" = false →
  PyStr.strip_underscores p w = Some w.
Proof.
  revert p. induction w as [|c w IH]; intros p;
    cbn [PyStr.strip_underscores Spec.all_chars]; [by intros _ ->|].
  intros [Hc Hw]%andb_true_iff Hp. destruct (isspace_plain c Hc) as [_ Hu].
  rewrite Hu, Hp. cbn [andb]. by rewrite IH.
Qed.

Lemma strip_underscores_trail (w : string) :
  Spec.all_chars PyStr.isspace w = true →
  ∀ (x : string) (p : ascii),
    PyStr.strip_underscores p (x ++ w)%string
    = option_map (fun r => (r ++ w)%string) (PyStr.strip_underscores p x).
Proof.
  intros Hw. induction x as [|c x IH]; intros p.
  - change (""%string ++ w)%string with w.
    cbn [PyStr.strip_underscores]. destruct (Ascii.eqb p "_") eqn:Hp.
    + destruct w as [|c w]; cbn [PyStr.strip_underscores option_map];
        [by rewrite Hp|].
      cbn [Spec.all_chars] in Hw. apply andb_true_iff in Hw as [Hc _].
      destruct (isspace_plain c Hc) as [Hd Hu]. by rewrite Hu, Hp, Hd.
    + rewrite strip_underscores_space by done. reflexivity.
  - change (String c x ++ w)%string with (String c (x ++ w)%string).
    cbn [PyStr.strip_underscores]. rewrite IH.
    destruct (Ascii.eqb c "_"); [by destruct (PyStr.isdigit p)|].
    destruct (Ascii.eqb p "_" && negb (PyStr.isdigit c)); [done|].
    by destruct (PyStr.strip_underscores c x).
Qed.

Lemma strip_underscores_lead (w x : string) (p : ascii) :
  Spec.all_chars PyStr.isspace w = true →
  PyStr.isdigit p = false → Ascii.eqb p "_" = false →
  PyStr.strip_underscores p (w ++ x)%string
  = option_map (fun r => (w ++ r)%string) (PyStr.strip_underscores p x).
Proof.
  revert p. induction w as [|c w IH]; intros p.
  { intros _ _ _. change (""%string ++ x)%string with x.
    by destruct (PyStr.strip_underscores p x). }
  cbn [Spec.all_chars]. intros [Hc Hw]%andb_true_iff Hd Hp.
  destruct (isspace_plain c Hc) as [Hcd Hcu].
  change (String c w ++ x)%string with (String c (w ++ x)%string).
  cbn [PyStr.strip_underscores]. rewrite Hcu, Hp. cbn [andb].
  rewrite IH by done.
  rewrite (strip_underscores_prev c p x) by congruence.
  by destruct (PyStr.strip_underscores p x).
Qed.

Lemma lstrip_by_all (P : ascii -> bool) (w : string) :
  Spec.all_chars P w = true → PyStr.lstrip_by P w = ""%string.
Proof.
  induction w as [|c w IH]; simpl; [done|].
  intros [Hc Hw]%andb_true_iff. rewrite Hc. by apply IH.
Qed.

Lemma rstrip_by_all (P : ascii -> bool) (w : string) :
  Spec.all_chars P w = true → PyStr.rstrip_by P w = ""%string.
Proof.
  induction w as [|c w IH]; simpl; [done|].
  intros [Hc Hw]%andb_true_iff. by rewrite IH, Hc.
Qed.

Lemma lstrip_by_app (P : ascii -> bool) (w s : string) :
  Spec.all_chars P w = true →
  PyStr.lstrip_by P (w ++ s)%string = PyStr.lstrip_by P s.
Proof.
  induction w as [|c w IH]; simpl; [done|].
  intros [Hc Hw]%andb_true_iff. rewrite Hc. by apply IH.
Qed.

Lemma rstrip_by_app (P : ascii -> bool) (s w : string) :
  Spec.all_chars P w = true →
  PyStr.rstrip_by P (s ++ w)%string = PyStr.rstrip_by P s.
Proof.
  intros Hw. induction s as [|c s IH]; simpl.
  - by apply rstrip_by_all.
  - by rewrite IH.
Qed.

Lemma strip_by_surrounded (P : ascii -> bool) (w1 s w2 : string) :
  Spec.all_chars P w1 = true → Spec.all_chars P w2 = true →
  PyStr.strip_by P (w1 ++ s ++ w2)%string = PyStr.strip_by P s.
Proof.
  intros H1 H2. unfold PyStr.strip_by. rewrite lstrip_by_app by done.
  induction s as [|c s IH].
  - change (""%string ++ w2)%string with w2. by rewrite lstrip_by_all.
  - change (String c s ++ w2)%string with (String c (s ++ w2)%string).
    cbn [PyStr.lstrip_by]. destruct (P c); [done|].
    by apply (rstrip_by_app P (String c s)).
Qed.

(** White space that is no information separator is white space for
    [float] too. *)
Lemma isspace_c_of_isspace (c : ascii) :
  PyStr.isspace c = true → Spec.no_info_separator c = true →
  PyStr.isspace_c c = true.
Proof. by destruct c as [[] [] [] [] [] [] [] []]. Qed.

Lemma all_isspace_c (w : string) :
  Spec.all_chars PyStr.isspace w = true →
  Spec.all_chars Spec.no_info_separator w = true →
  Spec.all_chars PyStr.isspace_c w = true.
Proof.
  induction w as [|c w IH]; [done|]. cbn [Spec.all_chars].
  intros [Hc Hw]%andb_true_iff [Hn Hnw]%andb_true_iff.
  by rewrite isspace_c_of_isspace, IH.
Qed.

Lemma all_chars_remove (P : ascii -> bool) (c : ascii) (s : string) :
  Spec.all_chars P s = true → Spec.all_chars P (PyStr.remove c s) = true.
Proof.
  induction s as [|a s IH]; [done|]. cbn [Spec.all_chars PyStr.remove].
  intros [Ha Hs]%andb_true_iff.
  destruct (Ascii.eqb a c); cbn [Spec.all_chars]; [by apply IH|].
  by rewrite Ha, IH.
Qed.

Lemma all_chars_strip (P : ascii -> bool) (s : string) :
  Spec.all_chars P s = true → Spec.all_chars P (PyStr.strip s) = true.
Proof.
  destruct (strip_decompose s) as (w1 & w2 & _ & _ & Hs).
  rewrite Hs at 1. rewrite !all_chars_app.
  by intros [_ [? _]%andb_true_iff]%andb_true_iff.
Qed.

(** Without information separators in it, [float] does not see that its
    argument was stripped. *)
Lemma to_float_strip (x : string) :
  Spec.all_chars Spec.no_info_separator x = true →
  PyStr.to_float (PyStr.strip x) = PyStr.to_float x.
Proof.
  intros Hx.
  destruct (strip_decompose x) as (w1 & w2 & H1 & H2 & Hdec).
  assert (Spec.all_chars PyStr.isspace_c w1 = true
          ∧ Spec.all_chars PyStr.isspace_c w2 = true) as [Hc1 Hc2].
  { rewrite Hdec, !all_chars_app in Hx.
    apply andb_true_iff in Hx as [Hn1 [_ Hn2]%andb_true_iff].
    split; by apply all_isspace_c. }
  rewrite Hdec at 2. unfold PyStr.to_float.
  rewrite strip_underscores_lead by done.
  rewrite strip_underscores_trail by done.
  destruct (PyStr.strip_underscores "000" (PyStr.strip x)) as [r|]; [|done].
  simpl. by rewrite strip_by_surrounded.
Qed.

Lemma convert_strip (x : string) (is_int : bool) :
  Spec.all_chars Spec.no_info_separator x = true →
  Main.convert (PyStr.strip x) is_int = Main.convert x is_int.
Proof. intros Hx. unfold Main.convert. by rewrite to_float_strip. Qed.

Lemma convert_blank (x : string) (is_int : bool) :
  String.eqb x "" || String.eqb x "-" = true →
  try_except (Main.convert x is_int) (fun _ => Ret None) = Ret None.
Proof.
  intros [H|H]%orb_true_iff; apply String.eqb_eq in H; by subst.
Qed.

Lemma disambiguate_no_separator (s : string) :
  PyStr.contains "," s = false → PyStr.contains "." s = false →
  Main.disambiguate s = s.
Proof. intros Hc Hp. unfold Main.disambiguate. by rewrite Hc, Hp. Qed.

(** A cell whose separators [c] are all deleted by the rewriting is read
    as the cell without them. *)
Lemma parse_number_removed (c : ascii) (val : string) (is_int : bool) :
  Spec.all_chars Spec.no_info_separator val = true →
  PyStr.isspace c = false →
  String.eqb (PyStr.strip val) "" || String.eqb (PyStr.strip val) "-" = false →
  Main.disambiguate (PyStr.strip val) = PyStr.remove c (PyStr.strip val) →
  PyStr.contains "," (PyStr.remove c val) = false →
  PyStr.contains "." (PyStr.remove c val) = false →
  Main.parse_number (PStr val) is_int
  = Main.parse_number (PStr (PyStr.remove c val)) is_int.
Proof.
  intros Hplain Hc Hblank Hdis Hcomma Hdot.
  unfold Main.parse_number. cbn [str]. rewrite Hblank, Hdis.
  destruct (strip_decompose val) as (w1 & w2 & H1 & H2 & Hval).
  assert (PyStr.remove c val
          = (w1 ++ PyStr.remove c (PyStr.strip val) ++ w2)%string) as Hrem.
  { rewrite Hval at 1. rewrite !remove_app.
    by rewrite (remove_absent c w1), (remove_absent c w2)
      by (by apply (contains_all_chars PyStr.isspace)). }
  assert (PyStr.strip (PyStr.remove c val)
          = PyStr.strip (PyStr.remove c (PyStr.strip val))) as Hs.
  { rewrite Hrem. by apply strip_surrounded. }
  rewrite Hs.
  assert (Spec.all_chars Spec.no_info_separator
            (PyStr.remove c (PyStr.strip val)) = true) as Hx'
    by by apply all_chars_remove, all_chars_strip.
  set (x := PyStr.remove c (PyStr.strip val)) in *.
  rewrite Hrem, !contains_app in Hcomma, Hdot.
  apply orb_false_iff in Hcomma as [_ [Hcomma _]%orb_false_iff].
  apply orb_false_iff in Hdot as [_ [Hdot _]%orb_false_iff].
  destruct (strip_decompose x) as (u1 & u2 & Hu1 & Hu2 & Hx).
  rewrite Hx, !contains_app in Hcomma, Hdot.
  apply orb_false_iff in Hcomma as [_ [Hcomma _]%orb_false_iff].
  apply orb_false_iff in Hdot as [_ [Hdot _]%orb_false_iff].
  rewrite (disambiguate_no_separator (PyStr.strip x)) by done.
  rewrite convert_strip by done.
  destruct (String.eqb (PyStr.strip x) "" || String.eqb (PyStr.strip x) "-")
    eqn:Hb; [|done].
  rewrite <- (convert_strip x) by done. by apply convert_blank.
Qed.

Lemma contains_strip (c : ascii) (val : string) :
  PyStr.isspace c = false →
  PyStr.contains c (PyStr.strip val) = PyStr.contains c val
  ∧ PyStr.count c (PyStr.strip val) = PyStr.count c val.
Proof.
  intros Hc. destruct (strip_decompose val) as (w1 & w2 & H1 & H2 & Hval).
  rewrite Hval at 2 4. rewrite !contains_app, !count_app.
  rewrite (contains_all_chars PyStr.isspace c w1),
    (contains_all_chars PyStr.isspace c w2),
    (count_all_chars PyStr.isspace c w1),
    (count_all_chars PyStr.isspace c w2) by done.
  rewrite orb_false_r. simpl. split; [done | lia].
Qed.

(** X20. In a cell that holds none of the information separators FS, GS,
    RS and US, separators of one kind that the rewriting takes for
    thousands separators are invisible: a cell with commas and no dot is
    read as the cell with its commas deleted, and a cell with several dots
    and no comma as the cell with its dots deleted.  (The four characters
    are white space for [strip] and not for [float], so that [",\x1c5"]
    gives [None] and ["\x1c5"] gives 5.) *)
Theorem X20_thousands_separators_are_invisible (val : string) (is_int : bool) :
  Spec.all_chars Spec.no_info_separator val = true →
  (PyStr.contains "." val = false →
   Main.parse_number (PStr val) is_int
   = Main.parse_number (PStr (PyStr.remove "," val)) is_int)
  ∧ (PyStr.contains "," val = false → 1 < PyStr.count "." val →
     Main.parse_number (PStr val) is_int
     = Main.parse_number (PStr (PyStr.remove "." val)) is_int).
Proof.
  intros Hplain.
  destruct (contains_strip "," val eq_refl) as [Hc _].
  destruct (contains_strip "." val eq_refl) as [Hp Hn].
  split.
  - intros Hdot. destruct (PyStr.contains "," val) eqn:Hcomma.
    2: { by rewrite remove_absent. }
    apply parse_number_removed.
    + done.
    + done.
    + by apply (not_blank_of_contains ",").
    + unfold Main.disambiguate. by rewrite Hc, Hp, Hdot.
    + apply contains_remove_same.
    + by apply contains_remove.
  - intros Hcomma Hcount.
    assert (PyStr.contains "." val = true) as Hdot
      by (apply contains_count; lia).
    apply parse_number_removed.
    + done.
    + done.
    + rewrite <- Hp in Hdot. by apply (not_blank_of_contains ".").
    + unfold Main.disambiguate. rewrite Hc, Hp, Hn, Hcomma, Hdot. simpl.
      by destruct (Z.ltb_spec 1 (PyStr.count "." val)); [|lia].
    + by apply contains_remove.
    + apply contains_remove_same.
Qed.

Lemma X20_witness :
  Main.parse_number (PStr " 20,5") false
  = Main.parse_number (PStr (PyStr.remove "," " 20,5")) false
  ∧ Main.parse_number (PStr "1.234.567 ") true
    = Main.parse_number (PStr (PyStr.remove "." "1.234.567 ")) true.
Proof.
  split.
  - apply (proj1 (X20_thousands_separators_are_invisible " 20,5" false
                    eq_refl)).
    reflexivity.
  - apply (proj2 (X20_thousands_separators_are_invisible "1.234.567 " true
                    eq_refl)); reflexivity.
Defined.

(** * The counters of [main] *)

Lemma saltados_nonneg (t : Z) (df : Main.DataFrame)
    (em : gmap Main.date Main.campos) (rows : list (Main.date * list pyval)) :
  0 <= Spec.saltados t df em rows.
Proof.
  induction rows as [|fr rows IH]; simpl; [done|].
  destruct (Main.decide_row t df em fr.1 fr.2); lia.
Qed.

Lemma upsert_counts (to_datetime : list pyval -> list (option Main.date))
    (t : Z) (db db' : Main.historicos) (ticker : string) (df : Main.DataFrame)
    (n sk : Z) (f : option Main.date) :
  Main.upsert_historico_selectivo to_datetime t db ticker (Some df)
  = Ret (n, sk, f, db') →
  0 <= n ∧ 0 <= sk.
Proof.
  intros (_ & -> & -> & _)%upsert_returns. split; [lia|].
  destruct (reconcile_plan to_datetime t db df)
    as [[-> _]|(fc & m & _ & _ & _ & _ & ->)]; simpl; [done|].
  apply saltados_nonneg.
Qed.

Lemma iteration_grows (to_datetime : list pyval -> list (option Main.date))
    (fetch : nat -> string -> string -> MainLoop.outcome)
    (st st' : MainLoop.state) (ticker : string) (ticker_id : Z) :
  MainLoop.iteration to_datetime fetch st ticker ticker_id
  = MainLoop.Continue st'
  ∨ MainLoop.iteration to_datetime fetch st ticker ticker_id
    = MainLoop.Break st' →
  MainLoop.grows (MainLoop.stats st) (MainLoop.stats st').
Proof.
  unfold MainLoop.iteration.
  destruct (MainLoop.desde_of _) as [desde|].
  2: { intros [[= <-]|[=]]. unfold MainLoop.grows. simpl. lia. }
  destruct (MainLoop.attempts _ _ _ _ _) as [r reqs].
  destruct r as [[df|]| |].
  - destruct (Main.empty df).
    { intros [[= <-]|[=]]. unfold MainLoop.grows. simpl. lia. }
    destruct (Main.upsert_historico_selectivo _ _ _ _ _)
      as [[[[n sk] f] db']|] eqn:Hu.
    + destruct (upsert_counts _ _ _ _ _ _ _ _ _ Hu) as [Hn Hsk].
      intros [[= <-]|[=]]. unfold MainLoop.grows, MainLoop.on_written. simpl.
      destruct (Z.ltb_spec 0 n); simpl; lia.
    + intros [[= <-]|[=]]. unfold MainLoop.grows. simpl. lia.
  - intros [[= <-]|[=]]. unfold MainLoop.grows. simpl. lia.
  - intros [[= <-]|[=]]. unfold MainLoop.grows. simpl. lia.
  - intros [[=]|[= <-]]. unfold MainLoop.grows. simpl. lia.
Qed.

(** X21. The counters [main] reports are consistent: none of
    [actualizados], [total_registros_nuevos] and [total_registros_skip] is
    negative, at least one row is counted as written for each ticker
    counted as updated, and no row is counted as written when no ticker
    is. *)
Theorem X21_reported_counters_are_consistent
    (to_datetime : list pyval -> list (option Main.date))
    (fetch : nat -> string -> string -> MainLoop.outcome)
    (db0 : Main.historicos) (tickers : list (string * Z)) :
  0 <= MainLoop.actualizados
         (MainLoop.stats (MainLoop.main to_datetime fetch db0 tickers))
    <= MainLoop.total_registros_nuevos
         (MainLoop.stats (MainLoop.main to_datetime fetch db0 tickers))
  ∧ 0 <= MainLoop.total_registros_skip
           (MainLoop.stats (MainLoop.main to_datetime fetch db0 tickers))
  ∧ (MainLoop.actualizados
       (MainLoop.stats (MainLoop.main to_datetime fetch db0 tickers)) = 0 →
     MainLoop.total_registros_nuevos
       (MainLoop.stats (MainLoop.main to_datetime fetch db0 tickers)) = 0).
Proof.
  assert (MainLoop.grows MainLoop.stats0
            (MainLoop.stats (MainLoop.main to_datetime fetch db0 tickers)))
    as (Ha & Hs & Hn & Hz).
  { refine (loop_invariant to_datetime fetch
              (fun st st' =>
                 MainLoop.grows (MainLoop.stats st) (MainLoop.stats st'))
              tickers _ _ _
              {| MainLoop.db := db0; MainLoop.stats := MainLoop.stats0;
                 MainLoop.requests := [] |}).
    - intros st. unfold MainLoop.grows. lia.
    - intros a b c (? & ? & ? & ?) (? & ? & ? & ?). unfold MainLoop.grows.
      repeat split; lia.
    - intros st ticker tid st' _. apply iteration_grows. }
  simpl in *. repeat split; lia.
Qed.

(** * The window of a request *)

(** [SELECT MAX(fecha)]: the latest date stored for the ticker, [None]
    when it has no row. *)
Lemma max_fecha_spec (db : Main.historicos) (t : Z) :
  match MainLoop.max_fecha db t with
  | Some m =>
      is_Some (db !! (t, m)) ∧ ∀ d, is_Some (db !! (t, d)) → d <= m
  | None => ∀ d, db !! (t, d) = None
  end.
Proof.
  unfold MainLoop.max_fecha.
  set (l := omap _ (map_to_list db)).
  assert (∀ d, d ∈ l ↔ is_Some (db !! (t, d))) as Hl.
  { intros d. unfold l. rewrite list_elem_of_omap. split.
    - intros ([[t' d'] c] & Hin%elem_of_map_to_list & Hsome). simpl in Hsome.
      destruct (decide (t' = t)) as [->|]; [|done].
      injection Hsome as ->. by eexists.
    - intros [c Hc]. exists (t, d, c). split; [by apply elem_of_map_to_list|].
      simpl. by rewrite decide_True. }
  pose proof (maximum_spec l) as Hmax.
  destruct (Main.maximum l) as [m|].
  - destruct Hmax as [Hin Hle]. split; [by apply Hl|].
    intros d Hd. by apply Hle, Hl.
  - intros d. apply eq_None_not_Some. rewrite <- Hl, Hmax.
    apply not_elem_of_nil.
Qed.

Lemma max_fecha_ext (db db' : Main.historicos) (t : Z) :
  (∀ d, db' !! (t, d) = db !! (t, d)) →
  MainLoop.max_fecha db' t = MainLoop.max_fecha db t.
Proof.
  intros Hsame.
  pose proof (max_fecha_spec db t) as H. pose proof (max_fecha_spec db' t) as H'.
  destruct (MainLoop.max_fecha db t) as [m|],
           (MainLoop.max_fecha db' t) as [m'|]; try done.
  - destruct H as [Hm Hle], H' as [Hm' Hle']. f_equal.
    rewrite Hsame in Hm'. rewrite <- Hsame in Hm.
    apply Hle in Hm'. apply Hle' in Hm. lia.
  - destruct H as [[c Hm] _]. rewrite <- Hsame, H' in Hm. done.
  - destruct H' as [[c Hm'] _]. rewrite Hsame, H in Hm'. done.
Qed.

Lemma iteration_requests (to_datetime : list pyval -> list (option Main.date))
    (fetch : nat -> string -> string -> MainLoop.outcome)
    (st st' : MainLoop.state) (ticker : string) (ticker_id : Z) :
  MainLoop.iteration to_datetime fetch st ticker ticker_id
  = MainLoop.Continue st'
  ∨ MainLoop.iteration to_datetime fetch st ticker ticker_id
    = MainLoop.Break st' →
  ∃ (k : nat) (desde : string),
    MainLoop.requests st'
    = MainLoop.requests st ++ replicate k (ticker, desde)
    ∧ (k ≠ O →
       MainLoop.desde_of (MainLoop.max_fecha (MainLoop.db st) ticker_id)
       = Ret desde).
Proof.
  unfold MainLoop.iteration.
  destruct (MainLoop.desde_of _) as [desde|].
  2: { intros [[= <-]|[=]]. exists O, ""%string. simpl.
       by rewrite app_nil_r. }
  destruct (attempts_spec fetch MainLoop.MAX_RETRIES ticker desde
              (MainLoop.requests st)) as (k & _ & Hreqs & _).
  destruct (MainLoop.attempts _ _ _ _ _) as [r reqs]. simpl in Hreqs.
  subst reqs. intros Hres. exists k, desde. split; [|done].
  destruct r as [[df|]| |].
  - destruct (Main.empty df); [by destruct Hres as [[= <-]|[=]]|].
    destruct (Main.upsert_historico_selectivo _ _ _ _ _)
      as [[[[n sk] f] db']|]; by destruct Hres as [[= <-]|[=]].
  - by destruct Hres as [[= <-]|[=]].
  - by destruct Hres as [[= <-]|[=]].
  - by destruct Hres as [[=]|[= <-]].
Qed.

Lemma loop_windows (to_datetime : list pyval -> list (option Main.date))
    (fetch : nat -> string -> string -> MainLoop.outcome)
    (tickers : list (string * Z)) :
  NoDup tickers.*2 →
  ∀ st, ∃ l : list (string * string),
    MainLoop.requests (MainLoop.loop to_datetime fetch st tickers)
    = MainLoop.requests st ++ l
    ∧ ∀ ticker desde,
        (ticker, desde) ∈ l →
        ∃ ticker_id,
          (ticker, ticker_id) ∈ tickers
          ∧ MainLoop.desde_of (MainLoop.max_fecha (MainLoop.db st) ticker_id)
            = Ret desde.
Proof.
  induction tickers as [|[ticker tid] ts IH]; intros Hnd st.
  { exists []. simpl. rewrite app_nil_r. split; [done|].
    intros t d Hin. by apply elem_of_nil in Hin. }
  rewrite fmap_cons in Hnd. apply NoDup_cons in Hnd as [Hfresh Hnd].
  cbn [MainLoop.loop].
  destruct (iteration_spec to_datetime fetch st ticker tid)
    as (st' & k0 & desde0 & Hres & Hframe & _).
  assert (MainLoop.iteration to_datetime fetch st ticker tid
          = MainLoop.Continue st'
          ∨ MainLoop.iteration to_datetime fetch st ticker tid
            = MainLoop.Break st') as Hit
    by (destruct Hres as [[? _]|[? _]]; [by left | by right]).
  destruct (iteration_requests _ _ _ _ _ _ Hit) as (k & desde & Hreq & Hwin).
  assert (∀ t d, (t, d) ∈ replicate k (ticker, desde) →
                 ∃ ticker_id,
                   (t, ticker_id) ∈ (ticker, tid) :: ts
                   ∧ MainLoop.desde_of
                       (MainLoop.max_fecha (MainLoop.db st) ticker_id)
                     = Ret d) as Hhere.
  { intros t d [[= -> ->] Hk]%elem_of_replicate. exists tid.
    split; [left | by apply Hwin]. }
  destruct Hres as [[-> _]|[-> _]].
  - destruct (IH Hnd st') as (l & Hl & Hall).
    exists (replicate k (ticker, desde) ++ l).
    split; [by rewrite Hl, Hreq, app_assoc|].
    intros t d [Hin|Hin]%elem_of_app; [by apply Hhere|].
    destruct (Hall t d Hin) as (tid' & Hin' & Hd). exists tid'.
    split; [by right|]. rewrite <- Hd. f_equal. symmetry.
    apply max_fecha_ext. intros d'. apply Hframe. simpl. intros ->.
    apply Hfresh. by apply (list_elem_of_fmap_2 snd _ _ Hin').
  - exists (replicate k (ticker, desde)). split; [done | apply Hhere].
Qed.

(** X22. When the listed tickers have pairwise distinct ids, the day each
    request starts from is computed from the table as it was before the
    run: from the latest date stored for the ticker then, and
    [DEFAULT_DESDE] when it had no row.  What the run writes for one
    ticker does not move the window of another. *)
Theorem X22_windows_come_from_the_initial_table
    (to_datetime : list pyval -> list (option Main.date))
    (fetch : nat -> string -> string -> MainLoop.outcome)
    (db0 : Main.historicos) (tickers : list (string * Z))
    (ticker desde : string) :
  NoDup tickers.*2 →
  (ticker, desde)
  ∈ MainLoop.requests (MainLoop.main to_datetime fetch db0 tickers) →
  ∃ ticker_id,
    (ticker, ticker_id) ∈ tickers
    ∧ match MainLoop.max_fecha db0 ticker_id with
      | Some last =>
          is_Some (db0 !! (ticker_id, last))
          ∧ (∀ d, is_Some (db0 !! (ticker_id, d)) → d <= last)
          ∧ desde = MainLoop.strftime
                      (Z.max (last - MainLoop.LOOKBACK_DAYS)
                             MainLoop.default_date)
      | None =>
          (∀ d, db0 !! (ticker_id, d) = None)
          ∧ desde = MainLoop.DEFAULT_DESDE
      end.
Proof.
  intros Hnd Hin.
  destruct (loop_windows to_datetime fetch tickers Hnd
              {| MainLoop.db := db0; MainLoop.stats := MainLoop.stats0;
                 MainLoop.requests := [] |}) as (l & Hl & Hall).
  unfold MainLoop.main in Hin. rewrite Hl in Hin. simpl in Hin, Hall.
  destruct (Hall _ _ Hin) as (tid & Htid & Hd). exists tid. split; [done|].
  pose proof (max_fecha_spec db0 tid) as Hspec.
  destruct (MainLoop.max_fecha db0 tid) as [last|]; simpl in Hd.
  - destruct Hspec as [Hs Hle]. split; [done|]. split; [done|].
    destruct (_ <? 1); [done|]. by injection Hd.
  - split; [done|]. by injection Hd.
Qed.

Lemma X22_witness :
  ∃ ticker_id,
    ("GGAL"%string, ticker_id) ∈ SampleRun.tickers
    ∧ match MainLoop.max_fecha Sample.stored ticker_id with
      | Some last =>
          is_Some (Sample.stored !! (ticker_id, last))
          ∧ (∀ d, is_Some (Sample.stored !! (ticker_id, d)) → d <= last)
          ∧ "03/11/2023"%string
            = MainLoop.strftime
                (Z.max (last - MainLoop.LOOKBACK_DAYS) MainLoop.default_date)
      | None =>
          (∀ d, Sample.stored !! (ticker_id, d) = None)
          ∧ "03/11/2023"%string = MainLoop.DEFAULT_DESDE
      end.
Proof.
  apply (X22_windows_come_from_the_initial_table Sample.to_datetime
           SampleRun.fetch Sample.stored SampleRun.tickers
           "GGAL" "03/11/2023").
  - apply NoDup_singleton.
  - vm_compute. left.
Defined.

(** * The comparison with the stored Bar *)

(** ** The order of the floats *)

Ltac fold_pos_compare :=
  repeat match goal with
         | |- context [Pos.compare_cont Eq ?a ?b] =>
             change (Pos.compare_cont Eq a b) with (Pos.compare a b)
         end.

Lemma leb_trans (x y z : float) :
  PyFloat.leb x y = true → PyFloat.leb y z = true → PyFloat.leb x z = true.
Proof.
  unfold PyFloat.leb, SFleb, SFcompare.
  destruct x as [sx|sx| |sx mx ex], y as [sy|sy| |sy my ey],
           z as [sz|sz| |sz mz ez];
    try done; try (by destruct sx, sy, sz).
  fold_pos_compare.
  destruct sx, sy, sz; try done;
    destruct (Z.compare_spec ex ey), (Z.compare_spec ey ez),
             (Z.compare_spec ex ez);
    try done; try lia; subst;
    destruct (Pos.compare_spec mx my), (Pos.compare_spec my mz),
             (Pos.compare_spec mx mz);
    simpl; try done; lia.
Qed.

Lemma leb_total (x y : float) :
  PyFloat.leb x y = false → PyFloat.leb y x = false →
  PyFloat.is_nan x || PyFloat.is_nan y = true.
Proof.
  unfold PyFloat.leb, SFleb, SFcompare.
  destruct x as [sx|sx| |sx mx ex], y as [sy|sy| |sy my ey];
    try done; try (by destruct sx, sy).
  fold_pos_compare.
  destruct sx, sy; try done;
    destruct (Z.compare_spec ex ey), (Z.compare_spec ey ex);
    try done; try lia; subst;
    destruct (Pos.compare_spec mx my), (Pos.compare_spec my mx);
    simpl; try done; lia.
Qed.

Lemma leb_not_nan (x y : float) :
  PyFloat.leb x y = true →
  PyFloat.is_nan x = false ∧ PyFloat.is_nan y = false.
Proof. by destruct x, y. Qed.

Lemma leb_fmax (d a b : float) :
  PyFloat.leb d (Spec.fmax a b) = PyFloat.leb d a || PyFloat.leb d b.
Proof.
  unfold Spec.fmax. destruct (PyFloat.leb a b) eqn:Hab.
  - destruct (PyFloat.leb d a) eqn:Hda; [|done].
    by rewrite (leb_trans d a b).
  - destruct (PyFloat.leb b a) eqn:Hba.
    + destruct (PyFloat.leb d b) eqn:Hdb; [|by rewrite orb_false_r].
      rewrite (leb_trans d b a) by done. done.
    + pose proof (leb_total a b Hab Hba) as Hn.
      destruct (PyFloat.is_nan a) eqn:Ha.
      * destruct (PyFloat.leb d a) eqn:Hda; [|done].
        apply leb_not_nan in Hda as [_ ?]. congruence.
      * simpl in Hn.
        destruct (PyFloat.leb d b) eqn:Hdb; [|by rewrite orb_false_r].
        apply leb_not_nan in Hdb as [_ ?]. congruence.
Qed.

(** ** [math.isclose] and the tolerance *)

Lemma isclose_within (x y : float) :
  PyFloat.isclose x y PyFloat.lit_1e_9 PyFloat.lit_1e_9
  = Spec.equal_within x y.
Proof.
  unfold PyFloat.isclose, Spec.equal_within.
  destruct (PyFloat.eqb x y); [done|]. cbn [orb].
  rewrite (fabs_sub_sym x y), !leb_fmax.
  replace PyFloat.lit_1e_9 with Spec.tolerance by (vm_compute; reflexivity).
  destruct x as [sx|sx| |sx mx ex], y as [sy|sy| |sy my ey];
    try done; cbn [PyFloat.is_inf Spec.is_finite orb andb];
    by rewrite (orb_comm (PyFloat.leb _ (PyFloat.fabs (PyFloat.mul _ _)))).
Qed.

Lemma diff_prices (a b : option float) :
  Main.diff (NFloat <$> a) (NFloat <$> b) = Spec.differ_tol a b.
Proof.
  destruct a as [x|], b as [y|]; try done. simpl. by rewrite isclose_within.
Qed.

Lemma difiere_bars (n e : Spec.Bar) :
  Main.difiere (Spec.campos_of n) (Spec.campos_of e) = Spec.bar_differs n e.
Proof.
  unfold Main.difiere, Spec.bar_differs, Spec.campos_of. simpl.
  by rewrite !diff_prices, diff_volumes.
Qed.

(** ** Step 5 on the rows of the CandidateSet *)

Lemma bar_of_campos_of (b : Spec.Bar) : Spec.bar_of (Spec.campos_of b) = Some b.
Proof. by destruct b as [[?|] [?|] [?|] [?|] [?|]]. Qed.

Lemma stored_bar_typed (t : Z) (db : Main.historicos) (d : Main.date) :
  (∀ d c, db !! (t, d) = Some c → ∃ bar, c = Spec.campos_of bar) →
  match db !! (t, d) with
  | Some c => ∃ e, c = Spec.campos_of e ∧ Spec.stored_bar db t d = Some e
  | None => Spec.stored_bar db t d = None
  end.
Proof.
  intros Htyped. unfold Spec.stored_bar.
  destruct (db !! (t, d)) as [c|] eqn:Hc; [|done].
  destruct (Htyped d c Hc) as [e ->]. exists e. split; [done|].
  simpl. apply bar_of_campos_of.
Qed.

Lemma pass_emitted (t : Z) (db : Main.historicos) (df : Main.DataFrame)
    (em : gmap Main.date Main.campos) (rows : list (Main.date * list pyval)) :
  (∀ d c, db !! (t, d) = Some c → ∃ bar, c = Spec.campos_of bar) →
  (∀ fr, fr ∈ rows → em !! fr.1 = db !! (t, fr.1)) →
  Spec.escritos t df em rows
  = omap (Spec.emitted t db df) (List.filter (Spec.survives df) rows)
  ∧ Spec.saltados t df em rows
    = Z.of_nat (length (List.filter (Spec.unchanged t db df)
                          (List.filter (Spec.survives df) rows))).
Proof.
  intros Htyped. induction rows as [|fr rows IH]; intros Hem; [done|].
  destruct IH as [IHe IHs].
  { intros fr' Hfr'. apply Hem. by right. }
  rewrite escritos_cons. cbn [Spec.saltados List.filter].
  destruct (Spec.survives df fr) eqn:Hs.
  2: { rewrite decide_row_dropped by done. split; [done | lia]. }
  destruct (survives_parsed _ _ Hs) as (nuevo & Hp & Hlow).
  destruct (parse_row_bar _ _ _ Hp) as [n ->].
  rewrite (decide_row_survivor _ _ _ _ _ _ Hp Hlow). cbv zeta.
  rewrite (Hem fr) by left.
  assert (Spec.candidate_bar df fr = Some n) as Hn.
  { unfold Spec.candidate_bar. rewrite Hp. apply bar_of_campos_of. }
  cbn [omap list_omap List.filter]. unfold Spec.emitted at 1.
  unfold Spec.unchanged at 1. rewrite Hn. cbn [mbind option_bind].
  pose proof (stored_bar_typed t db fr.1 Htyped) as Hst.
  destruct (db !! (t, fr.1)) as [c|].
  - destruct Hst as (e & -> & ->). rewrite difiere_bars.
    destruct (Spec.bar_differs n e); cbn [negb length].
    + split; [by rewrite IHe | lia].
    + split; [done | lia].
  - rewrite Hst. split; [by rewrite IHe | lia].
Qed.

(** C4.  With Bars in storage, the write-set and the skip count of
    [reconcile] are those of step 5 on the valid rows of the CandidateSet,
    taken in order.  A valid row whose date has a stored Bar is emitted as
    an update, with all five of its fields, exactly when some field
    differs from the stored Bar: a price when one of the two is absent or
    they are not equal within the tolerance 1e-9, relative and absolute,
    the volume when one of the two is absent or they are not the same
    integer; when no field differs nothing is emitted for the row and it
    counts one in the skip count.  A valid row without a stored Bar is
    emitted as an insert. *)
Theorem C4_update_iff_some_field_differs
    (to_datetime : list pyval -> list (option Main.date)) (t : Z)
    (db : Main.historicos) (df : Main.DataFrame) :
  (∀ d c, db !! (t, d) = Some c → ∃ bar, c = Spec.campos_of bar) →
  Main.records_to_write (Main.reconcile to_datetime t db (Some df))
  = omap (Spec.emitted t db df) (Spec.valid_rows to_datetime df)
  ∧ Main.skipped (Main.reconcile to_datetime t db (Some df))
    = Z.of_nat (length (List.filter (Spec.unchanged t db df)
                          (Spec.valid_rows to_datetime df)))
  ∧ ∀ fr e,
      fr ∈ Spec.valid_rows to_datetime df →
      Spec.stored_bar db t fr.1 = Some e →
      ∃ n, Spec.candidate_bar df fr = Some n
           ∧ Spec.emitted t db df fr
             = (if Spec.bar_differs n e
                then Some (Spec.bar_write t fr.1 n) else None)
           ∧ Spec.unchanged t db df fr = negb (Spec.bar_differs n e).
Proof.
  intros Htyped. split; [|split].
  - destruct (reconcile_plan to_datetime t db df)
      as [[-> ->]|(fc & m & _ & _ & _ & -> & ->)]; [done|].
    cbn [Main.records_to_write]. apply pass_emitted; [done|].
    intros fr Hin. by apply existing_map_lookup.
  - destruct (reconcile_plan to_datetime t db df)
      as [[-> ->]|(fc & m & _ & _ & _ & -> & ->)]; [done|].
    cbn [Main.skipped]. apply pass_emitted; [done|].
    intros fr Hin. by apply existing_map_lookup.
  - intros fr e Hfr Hst.
    assert (Spec.survives df fr = true) as Hs.
    { unfold Spec.valid_rows in Hfr.
      destruct (Main.col df "fecha"); [|by apply elem_of_nil in Hfr].
      by apply elem_of_filter_survives in Hfr as [_ ?]. }
    destruct (survives_parsed _ _ Hs) as (nuevo & Hp & _).
    destruct (parse_row_bar _ _ _ Hp) as [n ->].
    assert (Spec.candidate_bar df fr = Some n) as Hn.
    { unfold Spec.candidate_bar. rewrite Hp. apply bar_of_campos_of. }
    exists n. split; [done|]. unfold Spec.emitted, Spec.unchanged.
    by rewrite Hn, Hst.
Qed.

Lemma C4_witness :
  (Main.records_to_write
     (Main.reconcile Sample.to_datetime 7 Sample.stored (Some Sample.revised))
   = omap (Spec.emitted 7 Sample.stored Sample.revised)
          (Spec.valid_rows Sample.to_datetime Sample.revised)
   ∧ Main.skipped
       (Main.reconcile Sample.to_datetime 7 Sample.stored (Some Sample.revised))
     = Z.of_nat (length (List.filter
                           (Spec.unchanged 7 Sample.stored Sample.revised)
                           (Spec.valid_rows Sample.to_datetime Sample.revised)))
   ∧ ∀ fr e,
       fr ∈ Spec.valid_rows Sample.to_datetime Sample.revised →
       Spec.stored_bar Sample.stored 7 fr.1 = Some e →
       ∃ n, Spec.candidate_bar Sample.revised fr = Some n
            ∧ Spec.emitted 7 Sample.stored Sample.revised fr
              = (if Spec.bar_differs n e
                 then Some (Spec.bar_write 7 fr.1 n) else None)
            ∧ Spec.unchanged 7 Sample.stored Sample.revised fr
              = negb (Spec.bar_differs n e))
  ∧ Main.records_to_write
      (Main.reconcile Sample.to_datetime 7 Sample.stored (Some Sample.revised))
    = [Spec.bar_write 7 738887
         {| Spec.b_open := Some (S754_finite false 5629499534213120 (-49));
            Spec.b_high := Some (S754_finite false 6192449487634432 (-49));
            Spec.b_low := Some (S754_finite false 5066549580791808 (-49));
            Spec.b_close := Some (S754_finite false 5967269506265907 (-49));
            Spec.b_volume := Some 100 |};
       Spec.bar_write 7 738888
         {| Spec.b_open := Some (S754_finite false 6192449487634432 (-49));
            Spec.b_high := Some (S754_finite false 6755399441055744 (-49));
            Spec.b_low := Some (S754_finite false 5629499534213120 (-49));
            Spec.b_close := Some (S754_finite false 6473924464345088 (-49));
            Spec.b_volume := Some 200 |}]
  ∧ Main.skipped
      (Main.reconcile Sample.to_datetime 7 Sample.stored (Some Sample.candidate))
    = 1.
Proof.
  split; [|split; vm_compute; reflexivity].
  apply (C4_update_iff_some_field_differs Sample.to_datetime 7 Sample.stored
           Sample.revised).
  intros d c Hd. unfold Sample.stored in Hd.
  apply lookup_singleton_Some in Hd as [_ <-].
  exists {| Spec.b_open := Some (PyFloat.round_Z 10);
            Spec.b_high := Some (PyFloat.round_Z 11);
            Spec.b_low := Some (PyFloat.round_Z 9);
            Spec.b_close := Some (PyFloat.of_decimal false 105 (-1));
            Spec.b_volume := Some 100 |}.
  vm_compute. reflexivity.
Defined.
